(** * SHT3x driver: a shallow embedding of [src/SHT3x.c] and its properties

    The driver talks to the sensor only through the function pointers bound
    in its handler (send, receive, delay, CRC check, platform init/deinit).
    Those platform functions are arbitrary C code with side effects on the
    bus, the sensor and the clock.  Here they are functions over an abstract
    platform state [W]; the driver is written in a small state monad that
    threads the platform state together with a log of every call made
    through a handler pointer.  A call through a NULL pointer and a read
    past the end of an array have no defined behaviour in C: the monad
    carries them as [None].

    Conventions for the C types:
    - [uint8_t] data bytes and bus addresses are [Byte.byte];
    - [int8_t] platform results, [uint8_t] lengths and delays, [uint16_t]
      raw counts and the three enumerations are [Z] (a C enum object can hold
      integers that are not one of its enumerators);
    - [float] and [double] are IEEE 754 binary32 and binary64 values of
      [SpecFloat], with round-to-nearest-even. *)

From Stdlib Require Import ZArith List Bool Lia QArith Qabs.
From Stdlib Require Import Strings.Byte.
From Stdlib Require Import Floats.SpecFloat.
Import ListNotations.
Local Open Scope Z_scope.

(** ** Exported data types ([include/SHT3x.h]) *)

Inductive SHT3x_Result_t : Set :=
| SHT3x_OK
| SHT3x_FAIL
| SHT3x_INVALID_PARAM
| SHT3x_CRC_ERROR
| SHT3x_NO_DATA.

Definition SHT3x_MODE_SINGLESHOT : Z := 0.
Definition SHT3x_MODE_PERIODIC : Z := 1.
Definition SHT3x_MODE_ART : Z := 2.

Definition SHT3x_SPEED_05MPS : Z := 0.
Definition SHT3x_SPEED_1MPS : Z := 1.
Definition SHT3x_SPEED_2MPS : Z := 2.
Definition SHT3x_SPEED_4MPS : Z := 3.
Definition SHT3x_SPEED_10MPS : Z := 4.

Definition SHT3x_REPEATABILITY_LOW : Z := 0.
Definition SHT3x_REPEATABILITY_MEDIUM : Z := 1.
Definition SHT3x_REPEATABILITY_HIGH : Z := 2.

(** ** Private constants ([SHT3x.c], lines 44-122) *)

Definition SHT3X_I2C_ADDRESS_A : byte := x44.
Definition SHT3X_I2C_ADDRESS_B : byte := x45.

Definition SHT3X_COMMAND_SINGLESHOT_DISABLE_MSB : byte := x24.
Definition SHT3X_COMMAND_SINGLESHOT_DISABLE_HIGH_LSB : byte := x00.
Definition SHT3X_COMMAND_SINGLESHOT_DISABLE_MEDIUM_LSB : byte := x0b.
Definition SHT3X_COMMAND_SINGLESHOT_DISABLE_LOW_LSB : byte := x16.

Definition SHT3X_COMMAND_PERIODIC_05MPS_MSB : byte := x20.
Definition SHT3X_COMMAND_PERIODIC_05MPS_HIGH_LSB : byte := x32.
Definition SHT3X_COMMAND_PERIODIC_05MPS_MEDIUM_LSB : byte := x24.
Definition SHT3X_COMMAND_PERIODIC_05MPS_LOW_LSB : byte := x2f.
Definition SHT3X_COMMAND_PERIODIC_1MPS_MSB : byte := x21.
Definition SHT3X_COMMAND_PERIODIC_1MPS_HIGH_LSB : byte := x30.
Definition SHT3X_COMMAND_PERIODIC_1MPS_MEDIUM_LSB : byte := x26.
Definition SHT3X_COMMAND_PERIODIC_1MPS_LOW_LSB : byte := x2d.
Definition SHT3X_COMMAND_PERIODIC_2MPS_MSB : byte := x22.
Definition SHT3X_COMMAND_PERIODIC_2MPS_HIGH_LSB : byte := x36.
Definition SHT3X_COMMAND_PERIODIC_2MPS_MEDIUM_LSB : byte := x20.
Definition SHT3X_COMMAND_PERIODIC_2MPS_LOW_LSB : byte := x2b.
Definition SHT3X_COMMAND_PERIODIC_4MPS_MSB : byte := x23.
Definition SHT3X_COMMAND_PERIODIC_4MPS_HIGH_LSB : byte := x34.
Definition SHT3X_COMMAND_PERIODIC_4MPS_MEDIUM_LSB : byte := x22.
Definition SHT3X_COMMAND_PERIODIC_4MPS_LOW_LSB : byte := x29.
Definition SHT3X_COMMAND_PERIODIC_10MPS_MSB : byte := x27.
Definition SHT3X_COMMAND_PERIODIC_10MPS_HIGH_LSB : byte := x37.
Definition SHT3X_COMMAND_PERIODIC_10MPS_MEDIUM_LSB : byte := x21.
Definition SHT3X_COMMAND_PERIODIC_10MPS_LOW_LSB : byte := x2a.

Definition SHT3X_COMMAND_ART_MSB : byte := x2b.
Definition SHT3X_COMMAND_ART_LSB : byte := x32.

Definition SHT3X_COMMAND_FETCH_DATA_MSB : byte := xe0.
Definition SHT3X_COMMAND_FETCH_DATA_LSB : byte := x00.

Definition SHT3X_COMMAND_STOP_PERIODIC_MSB : byte := x30.
Definition SHT3X_COMMAND_STOP_PERIODIC_LSB : byte := x93.

Definition SHT3X_COMMAND_SOFT_RESET_MSB : byte := x30.
Definition SHT3X_COMMAND_SOFT_RESET_LSB : byte := xa2.

Definition SHT3X_COMMAND_HEATER_ENABLE_MSB : byte := x30.
Definition SHT3X_COMMAND_HEATER_ENABLE_LSB : byte := x6d.
Definition SHT3X_COMMAND_HEATER_DISABLE_MSB : byte := x30.
Definition SHT3X_COMMAND_HEATER_DISABLE_LSB : byte := x66.

Definition SHT3X_COMMAND_STATUS_READ_MSB : byte := xf3.
Definition SHT3X_COMMAND_STATUS_READ_LSB : byte := x2d.
Definition SHT3X_COMMAND_STATUS_CLEAR_MSB : byte := x30.
Definition SHT3X_COMMAND_STATUS_CLEAR_LSB : byte := x41.

(** ** C arrays of bytes *)

(** [a[i]] as an rvalue; [None] when [i] is outside the array. *)
Definition array_get (a : list byte) (i : Z) : option byte :=
  if i <? 0 then None else nth_error a (Z.to_nat i).

(** [a[i] = v] for an index inside the array. *)
Fixpoint array_set_nat (a : list byte) (n : nat) (v : byte) : list byte :=
  match a, n with
  | [], _ => []
  | _ :: t, O => v :: t
  | x :: t, S n' => x :: array_set_nat t n' v
  end.

Definition array_set (a : list byte) (i : Z) (v : byte) : list byte :=
  array_set_nat a (Z.to_nat i) v.

(** What a callee leaves in the caller's array when it writes the bytes
    [written] from index 0 on: the array keeps its size, and the bytes the
    callee did not reach keep their value. *)
Definition store_buffer (Buffer written : list byte) : list byte :=
  firstn (length Buffer) (written ++ skipn (length written) Buffer).

(** [Buffer[i]] for a constant index inside a local array. *)
Definition byte_at (Buffer : list byte) (i : nat) : byte := nth i Buffer x00.

Definition byte_val (b : byte) : Z := Z.of_N (Byte.to_N b).

(** [(hi << 8) | lo] converted to [uint16_t]. *)
Definition word16 (hi lo : byte) : Z :=
  Z.lor (Z.shiftl (byte_val hi) 8) (byte_val lo) mod 65536.

(** ** Calls through the handler, and their log *)

Inductive Event : Type :=
| EvInit (result : Z)
| EvDeInit (result : Z)
| EvSend (Address : byte) (Data : list byte) (Len : Z) (result : Z)
| EvReceive (Address : byte) (Len : Z) (result : Z) (Data : list byte)
| EvDelay (Delay : Z)
| EvCRC (Data : Z) (DataCRC : byte) (result : Z).

(** The call alone, without what the platform answered. *)
Inductive Call : Type :=
| CInit
| CDeInit
| CSend (Data : list byte) (Len : Z)
| CReceive (Len : Z)
| CDelay (Delay : Z)
| CCRC (Data : Z) (DataCRC : byte).

Definition call_of (ev : Event) : Call :=
  match ev with
  | EvInit _ => CInit
  | EvDeInit _ => CDeInit
  | EvSend _ d l _ => CSend d l
  | EvReceive _ l _ _ => CReceive l
  | EvDelay d => CDelay d
  | EvCRC d c _ => CCRC d c
  end.

Definition is_receive (ev : Event) : bool :=
  match ev with EvReceive _ _ _ _ => true | _ => false end.

Definition is_send (ev : Event) : bool :=
  match ev with EvSend _ _ _ _ => true | _ => false end.

Definition is_delay (ev : Event) : bool :=
  match ev with EvDelay _ => true | _ => false end.

Definition receive_attempts (t : list Event) : nat :=
  length (filter is_receive t).

Section Driver.

(** The state of everything behind the platform functions. *)
Variable W : Type.

Record Env : Type := mkEnv { world : W; trace : list Event }.

Definition M (A : Type) : Type := Env -> option (A * Env).

Definition ret {A : Type} (a : A) : M A := fun e => Some (a, e).

Definition bind {A B : Type} (m : M A) (k : A -> M B) : M B :=
  fun e => match m e with
           | Some (a, e') => k a e'
           | None => None
           end.

Definition undefined {A : Type} : M A := fun _ => None.

(** ** Platform function types and the handler *)

Definition SHT3x_PlatformInitDeinit_t : Type := W -> Z * W.

(** [Data] is a pointer to non-const bytes: the function sees the bytes and
    returns the ones it wrote, for sending as for receiving. *)
Definition SHT3x_PlatformSendReceive_t : Type :=
  byte -> list byte -> Z -> W -> Z * list byte * W.

Definition SHT3x_PlatformCRC_t : Type := Z -> byte -> W -> Z * W.

Definition SHT3x_PlatformDelay_t : Type := Z -> W -> Z * W.

(** A function pointer is [None] when NULL. *)
Record SHT3x_Handler_t : Type := mkHandler {
  AddressI2C : byte;
  Mode : Z;
  Repeatability : Z;
  Speed : Z;
  PlatformInit : option SHT3x_PlatformInitDeinit_t;
  PlatformDeInit : option SHT3x_PlatformInitDeinit_t;
  PlatformSend : option SHT3x_PlatformSendReceive_t;
  PlatformReceive : option SHT3x_PlatformSendReceive_t;
  PlatformDelay : option SHT3x_PlatformDelay_t;
  PlatformCRC : option SHT3x_PlatformCRC_t
}.

Definition set_AddressI2C (h : SHT3x_Handler_t) (a : byte) : SHT3x_Handler_t :=
  mkHandler a (Mode h) (Repeatability h) (Speed h) (PlatformInit h)
    (PlatformDeInit h) (PlatformSend h) (PlatformReceive h) (PlatformDelay h)
    (PlatformCRC h).

Definition set_Mode (h : SHT3x_Handler_t) (m : Z) : SHT3x_Handler_t :=
  mkHandler (AddressI2C h) m (Repeatability h) (Speed h) (PlatformInit h)
    (PlatformDeInit h) (PlatformSend h) (PlatformReceive h) (PlatformDelay h)
    (PlatformCRC h).

Definition set_Repeatability (h : SHT3x_Handler_t) (r : Z) : SHT3x_Handler_t :=
  mkHandler (AddressI2C h) (Mode h) r (Speed h) (PlatformInit h)
    (PlatformDeInit h) (PlatformSend h) (PlatformReceive h) (PlatformDelay h)
    (PlatformCRC h).

Definition set_Speed (h : SHT3x_Handler_t) (s : Z) : SHT3x_Handler_t :=
  mkHandler (AddressI2C h) (Mode h) (Repeatability h) s (PlatformInit h)
    (PlatformDeInit h) (PlatformSend h) (PlatformReceive h) (PlatformDelay h)
    (PlatformCRC h).

Definition set_PlatformCRC (h : SHT3x_Handler_t) (c : option SHT3x_PlatformCRC_t)
  : SHT3x_Handler_t :=
  mkHandler (AddressI2C h) (Mode h) (Repeatability h) (Speed h) (PlatformInit h)
    (PlatformDeInit h) (PlatformSend h) (PlatformReceive h) (PlatformDelay h) c.

Definition log (ev : Event) (w : W) (e : Env) : Env :=
  mkEnv w (trace e ++ [ev]).

(** [Handler->PlatformSend(Handler->AddressI2C, cmd, Len)] *)
Definition call_Send (h : SHT3x_Handler_t) (cmd : list byte) (Len : Z) : M Z :=
  fun e =>
    match PlatformSend h with
    | None => None
    | Some f =>
        let '(r, _, w) := f (AddressI2C h) cmd Len (world e) in
        Some (r, log (EvSend (AddressI2C h) cmd Len r) w e)
    end.

(** [Handler->PlatformReceive(Handler->AddressI2C, Buffer, Len)]: the result
    and the contents of [Buffer] after the call. *)
Definition call_Receive (h : SHT3x_Handler_t) (Buffer : list byte) (Len : Z)
  : M (Z * list byte) :=
  fun e =>
    match PlatformReceive h with
    | None => None
    | Some f =>
        let '(r, written, w) := f (AddressI2C h) Buffer Len (world e) in
        let Buffer' := store_buffer Buffer written in
        Some ((r, Buffer'), log (EvReceive (AddressI2C h) Len r Buffer') w e)
    end.

(** [Handler->PlatformDelay(Delay)]; the driver never looks at the result. *)
Definition call_Delay (h : SHT3x_Handler_t) (Delay : Z) : M unit :=
  fun e =>
    match PlatformDelay h with
    | None => None
    | Some f =>
        let '(_, w) := f Delay (world e) in
        Some (tt, log (EvDelay Delay) w e)
    end.

(** [Handler->PlatformCRC(Data, DataCRC)] *)
Definition call_CRC (h : SHT3x_Handler_t) (Data : Z) (DataCRC : byte) : M Z :=
  fun e =>
    match PlatformCRC h with
    | None => None
    | Some f =>
        let '(r, w) := f Data DataCRC (world e) in
        Some (r, log (EvCRC Data DataCRC r) w e)
    end.

(** [f()] for a platform init or deinit function [f]. *)
Definition call_InitDeinit (f : SHT3x_PlatformInitDeinit_t) (ev : Z -> Event)
  : M Z :=
  fun e => let '(r, w) := f (world e) in Some (r, log (ev r) w e).

End Driver.

Arguments mkEnv {W}.
Arguments world {W}.
Arguments trace {W}.
Arguments ret {W A}.
Arguments bind {W A B}.
Arguments undefined {W A}.
Arguments mkHandler {W}.
Arguments AddressI2C {W}.
Arguments Mode {W}.
Arguments Repeatability {W}.
Arguments Speed {W}.
Arguments PlatformInit {W}.
Arguments PlatformDeInit {W}.
Arguments PlatformSend {W}.
Arguments PlatformReceive {W}.
Arguments PlatformDelay {W}.
Arguments PlatformCRC {W}.
Arguments set_AddressI2C {W}.
Arguments set_Mode {W}.
Arguments set_Repeatability {W}.
Arguments set_Speed {W}.
Arguments set_PlatformCRC {W}.
Arguments log {W}.
Arguments call_Send {W}.
Arguments call_Receive {W}.
Arguments call_Delay {W}.
Arguments call_CRC {W}.
Arguments call_InitDeinit {W}.

Declare Scope drv_scope.
Delimit Scope drv_scope with drv.
Notation "x <- m ;; k" := (bind m (fun x => k))
  (at level 100, m at next level, right associativity) : drv_scope.
Notation "' p <- m ;; k" := (bind m (fun x => let p := x in k))
  (at level 100, p pattern, m at next level, right associativity) : drv_scope.
Local Open Scope drv_scope.

(** ** C floating point *)

Module CFloat.

(** [float]: IEEE 754 binary32; [double]: IEEE 754 binary64. *)
Definition float : Set := spec_float.
Definition double : Set := spec_float.

Definition fprec : Z := 24.
Definition femax : Z := 128.
Definition dprec : Z := 53.
Definition demax : Z := 1024.

(** Conversion of an integer to [double] and to [float]. *)
Definition double_of_int (n : Z) : double := binary_normalize dprec demax n 0 false.
Definition float_of_int (n : Z) : float := binary_normalize fprec femax n 0 false.

(** Conversion of a [double] to [float] (assignment to a [float] object). *)
Definition float_of_double (x : double) : float :=
  match x with
  | S754_finite s m e => binary_normalize fprec femax (cond_Zopp s (Zpos m)) e s
  | _ => x
  end.

Definition ddiv : double -> double -> double := SFdiv dprec demax.
Definition dmul : double -> double -> double := SFmul dprec demax.
Definition fmul : float -> float -> float := SFmul fprec femax.
Definition fsub : float -> float -> float := SFsub fprec femax.

(** The rational number a finite value stands for. *)
Definition to_Q (x : spec_float) : option Q :=
  match x with
  | S754_zero _ => Some 0%Q
  | S754_finite s m e =>
      Some (match e with
            | Zneg p => Qmake (cond_Zopp s (Zpos m)) (2 ^ p)
            | _ => inject_Z (cond_Zopp s (Zpos m) * 2 ^ e)
            end)
  | _ => None
  end.

End CFloat.

(** ** Sample data type ([include/SHT3x.h], lines 172-179) *)

Record SHT3x_Sample_t : Set := mkSample {
  TempRaw : Z;
  HumRaw : Z;
  TempCelsius : CFloat.float;
  TempFahrenheit : CFloat.float;
  HumidityPercent : CFloat.float
}.

(** ** Private functions ([SHT3x.c], lines 132-150) *)

(** [65535.0]: a constant of type [double]. *)
Definition c_65535_0 : CFloat.double := CFloat.double_of_int 65535.

Definition SHT3x_ConvSample (Sample : SHT3x_Sample_t) : SHT3x_Sample_t :=
  let HumidityPercent' :=
    CFloat.float_of_double
      (CFloat.dmul (CFloat.ddiv (CFloat.double_of_int (HumRaw Sample)) c_65535_0)
                   (CFloat.double_of_int 100)) in
  let TempBuff :=
    CFloat.float_of_double
      (CFloat.ddiv (CFloat.double_of_int (TempRaw Sample)) c_65535_0) in
  let TempCelsius' :=
    CFloat.fsub (CFloat.fmul TempBuff (CFloat.float_of_int 175))
                (CFloat.float_of_int 45) in
  let TempFahrenheit' :=
    CFloat.fsub (CFloat.fmul TempBuff (CFloat.float_of_int 315))
                (CFloat.float_of_int 49) in
  mkSample (TempRaw Sample) (HumRaw Sample)
           TempCelsius' TempFahrenheit' HumidityPercent'.

Definition SHT3x_CheckCRC {W : Type} : SHT3x_PlatformCRC_t W :=
  fun (Data : Z) (DataCRC : byte) (w : W) => (0, w).

Definition set_TempRaw (s : SHT3x_Sample_t) (v : Z) : SHT3x_Sample_t :=
  mkSample v (HumRaw s) (TempCelsius s) (TempFahrenheit s) (HumidityPercent s).

Definition set_HumRaw (s : SHT3x_Sample_t) (v : Z) : SHT3x_Sample_t :=
  mkSample (TempRaw s) v (TempCelsius s) (TempFahrenheit s) (HumidityPercent s).

Section Functions.

Variable W : Type.

Local Abbreviation Handler := (SHT3x_Handler_t W).
Local Abbreviation Drv := (M W).

(** ** Public measurement functions *)

(** [SHT3x_SetModeSingleShot] ([SHT3x.c], lines 171-186). *)
Definition SHT3x_SetModeSingleShot (h : Handler) (Repeatability : Z)
  : Drv (SHT3x_Result_t * Handler) :=
  let cmd := [SHT3X_COMMAND_STOP_PERIODIC_MSB; SHT3X_COMMAND_STOP_PERIODIC_LSB] in
  r <- call_Send h cmd 2;;
  if negb (r =? 0) then ret (SHT3x_FAIL, h)
  else
    let h := set_Mode h SHT3x_MODE_SINGLESHOT in
    let h := set_Repeatability h Repeatability in
    ret (SHT3x_OK, h).

(** The [switch (Speed)] of [SHT3x_SetModePeriodic] (lines 216-276): the
    contents of [ComandPeriodicLSB] after it, or [None] in the [default]
    case, which returns. *)
Definition SetModePeriodic_switch (Speed : Z) (ComandPeriodicLSB : list byte)
  : option (list byte) :=
  let fill (low medium high : byte) :=
    let a := array_set ComandPeriodicLSB SHT3x_REPEATABILITY_LOW low in
    let a := array_set a SHT3x_REPEATABILITY_MEDIUM medium in
    let a := array_set a SHT3x_REPEATABILITY_HIGH high in
    Some a in
  if Speed =? SHT3x_SPEED_05MPS then
    fill SHT3X_COMMAND_PERIODIC_05MPS_LOW_LSB
         SHT3X_COMMAND_PERIODIC_05MPS_MEDIUM_LSB
         SHT3X_COMMAND_PERIODIC_05MPS_HIGH_LSB
  else if Speed =? SHT3x_SPEED_1MPS then
    fill SHT3X_COMMAND_PERIODIC_1MPS_LOW_LSB
         SHT3X_COMMAND_PERIODIC_1MPS_MEDIUM_LSB
         SHT3X_COMMAND_PERIODIC_1MPS_HIGH_LSB
  else if Speed =? SHT3x_SPEED_2MPS then
    fill SHT3X_COMMAND_PERIODIC_2MPS_LOW_LSB
         SHT3X_COMMAND_PERIODIC_2MPS_MEDIUM_LSB
         SHT3X_COMMAND_PERIODIC_2MPS_HIGH_LSB
  else if Speed =? SHT3x_SPEED_4MPS then
    fill SHT3X_COMMAND_PERIODIC_4MPS_LOW_LSB
         SHT3X_COMMAND_PERIODIC_4MPS_MEDIUM_LSB
         SHT3X_COMMAND_PERIODIC_4MPS_HIGH_LSB
  else if Speed =? SHT3x_SPEED_10MPS then
    fill SHT3X_COMMAND_PERIODIC_10MPS_LOW_LSB
         SHT3X_COMMAND_PERIODIC_10MPS_MEDIUM_LSB
         SHT3X_COMMAND_PERIODIC_10MPS_HIGH_LSB
  else None.

(** [SHT3x_SetModePeriodic] ([SHT3x.c], lines 201-289).  [Repeatability] is
    used as an index into the three-byte [ComandPeriodicLSB] without a test
    (line 279). *)
Definition SHT3x_SetModePeriodic (h : Handler) (Speed Repeatability : Z)
  : Drv (SHT3x_Result_t * Handler) :=
  let ComandPeriodicMSB := [x00; x00; x00; x00; x00] in
  let ComandPeriodicLSB := [x00; x00; x00] in
  let ComandPeriodicMSB :=
    array_set ComandPeriodicMSB SHT3x_SPEED_05MPS SHT3X_COMMAND_PERIODIC_05MPS_MSB in
  let ComandPeriodicMSB :=
    array_set ComandPeriodicMSB SHT3x_SPEED_1MPS SHT3X_COMMAND_PERIODIC_1MPS_MSB in
  let ComandPeriodicMSB :=
    array_set ComandPeriodicMSB SHT3x_SPEED_2MPS SHT3X_COMMAND_PERIODIC_2MPS_MSB in
  let ComandPeriodicMSB :=
    array_set ComandPeriodicMSB SHT3x_SPEED_4MPS SHT3X_COMMAND_PERIODIC_4MPS_MSB in
  let ComandPeriodicMSB :=
    array_set ComandPeriodicMSB SHT3x_SPEED_10MPS SHT3X_COMMAND_PERIODIC_10MPS_MSB in
  match SetModePeriodic_switch Speed ComandPeriodicLSB with
  | None => ret (SHT3x_INVALID_PARAM, h)
  | Some ComandPeriodicLSB =>
      match array_get ComandPeriodicMSB Speed,
            array_get ComandPeriodicLSB Repeatability with
      | Some cmd0, Some cmd1 =>
          r <- call_Send h [cmd0; cmd1] 2;;
          if negb (r =? 0) then ret (SHT3x_FAIL, h)
          else
            let h := set_Mode h SHT3x_MODE_PERIODIC in
            let h := set_Speed h Speed in
            let h := set_Repeatability h Repeatability in
            ret (SHT3x_OK, h)
      | _, _ => undefined
      end
  end.

(** [SHT3x_SetModeART] ([SHT3x.c], lines 299-313). *)
Definition SHT3x_SetModeART (h : Handler) : Drv (SHT3x_Result_t * Handler) :=
  let cmd := [SHT3X_COMMAND_ART_MSB; SHT3X_COMMAND_ART_LSB] in
  r <- call_Send h cmd 2;;
  if negb (r =? 0) then ret (SHT3x_FAIL, h)
  else
    let h := set_Mode h SHT3x_MODE_ART in
    ret (SHT3x_OK, h).

(** The [for] loop of [SHT3x_ReadSample] (lines 359-365), with [n] the
    number of iterations left ([20 - Counter]); the result is [Buffer] when
    the loop is left. *)
Fixpoint ReadSample_loop (h : Handler) (n : nat) (Buffer : list byte)
  : Drv (list byte) :=
  match n with
  | O => ret Buffer
  | S n' =>
      '(r, Buffer) <- call_Receive h Buffer 6;;
      if r =? 0 then ret Buffer
      else
        _ <- call_Delay h 1;;
        ReadSample_loop h n' Buffer
  end.

(** The [switch (Handler->Repeatability)] of lines 338-355: [cmd[1]], or
    [None] in the [default] case, which returns. *)
Definition ReadSample_switch (Repeatability : Z) : option byte :=
  if Repeatability =? SHT3x_REPEATABILITY_LOW then
    Some SHT3X_COMMAND_SINGLESHOT_DISABLE_LOW_LSB
  else if Repeatability =? SHT3x_REPEATABILITY_MEDIUM then
    Some SHT3X_COMMAND_SINGLESHOT_DISABLE_MEDIUM_LSB
  else if Repeatability =? SHT3x_REPEATABILITY_HIGH then
    Some SHT3X_COMMAND_SINGLESHOT_DISABLE_HIGH_LSB
  else None.

(** Lines 331-384 of [SHT3x_ReadSample], the bus transaction: [inl r] when
    the function returns [r] from there, [inr Buffer] when control reaches
    line 386. *)
Definition ReadSample_transaction (h : Handler)
  : Drv (SHT3x_Result_t + list byte) :=
  let Buffer := [x00; x00; x00; x00; x00; x00] in
  if Mode h =? SHT3x_MODE_SINGLESHOT then
    match ReadSample_switch (Repeatability h) with
    | None => ret (inl SHT3x_INVALID_PARAM)
    | Some cmd1 =>
        let cmd := [SHT3X_COMMAND_SINGLESHOT_DISABLE_MSB; cmd1] in
        r <- call_Send h cmd 2;;
        if negb (r =? 0) then ret (inl SHT3x_FAIL)
        else
          Buffer <- ReadSample_loop h 20 Buffer;;
          if Byte.eqb (byte_at Buffer 2) x00 && Byte.eqb (byte_at Buffer 5) x00
          then ret (inl SHT3x_FAIL)
          else ret (inr Buffer)
    end
  else
    let cmd := [SHT3X_COMMAND_FETCH_DATA_MSB; SHT3X_COMMAND_FETCH_DATA_LSB] in
    PlatformResult <- call_Send h cmd 2;;
    if negb (PlatformResult =? 0) then ret (inl SHT3x_FAIL)
    else
      '(PlatformResult, Buffer) <- call_Receive h Buffer 6;;
      if PlatformResult =? -3 then ret (inl SHT3x_NO_DATA)
      else if negb (PlatformResult =? 0) then ret (inl SHT3x_FAIL)
      else ret (inr Buffer).

(** [SHT3x_ReadSample] ([SHT3x.c], lines 328-398); [Sample] is the caller's
    object before the call, the second component of the result the same
    object after it. *)
Definition SHT3x_ReadSample (h : Handler) (Sample : SHT3x_Sample_t)
  : Drv (SHT3x_Result_t * SHT3x_Sample_t) :=
  t <- ReadSample_transaction h;;
  match t with
  | inl r => ret (r, Sample)
  | inr Buffer =>
      let Sample := set_TempRaw Sample (word16 (byte_at Buffer 0) (byte_at Buffer 1)) in
      let Sample := set_HumRaw Sample (word16 (byte_at Buffer 3) (byte_at Buffer 4)) in
      r <- call_CRC h (TempRaw Sample) (byte_at Buffer 2);;
      if negb (r =? 0) then ret (SHT3x_CRC_ERROR, Sample)
      else
        r <- call_CRC h (HumRaw Sample) (byte_at Buffer 5);;
        if negb (r =? 0) then ret (SHT3x_CRC_ERROR, Sample)
        else ret (SHT3x_OK, SHT3x_ConvSample Sample)
  end.

(** ** Public control and status functions *)

(** [SHT3x_SetAddressI2C] ([SHT3x.c], lines 484-497); [0x44 << 1] is [0x88]
    and [0x45 << 1] is [0x8a]. *)
Definition SHT3x_SetAddressI2C (h : Handler) (Address : byte)
  : SHT3x_Result_t * Handler :=
  if Byte.eqb Address x00 || Byte.eqb Address SHT3X_I2C_ADDRESS_A
     || Byte.eqb Address x88
  then (SHT3x_OK, set_AddressI2C h SHT3X_I2C_ADDRESS_A)
  else if Byte.eqb Address x01 || Byte.eqb Address SHT3X_I2C_ADDRESS_B
          || Byte.eqb Address x8a
  then (SHT3x_OK, set_AddressI2C h SHT3X_I2C_ADDRESS_B)
  else (SHT3x_OK, h).

(** Lines 442-451 of [SHT3x_Init]: the result of [SHT3x_SetModeSingleShot]
    is dropped, only its effect on the handler is kept. *)
Definition Init_reset (h : Handler) : Drv (SHT3x_Result_t * Handler) :=
  '(_, h) <- SHT3x_SetModeSingleShot h SHT3x_REPEATABILITY_LOW;;
  let cmd := [SHT3X_COMMAND_SOFT_RESET_MSB; SHT3X_COMMAND_SOFT_RESET_LSB] in
  r <- call_Send h cmd 2;;
  if negb (r =? 0) then ret (SHT3x_FAIL, h)
  else
    _ <- call_Delay h 2;;
    ret (SHT3x_OK, h).

(** [SHT3x_Init] ([SHT3x.c], lines 421-452). *)
Definition SHT3x_Init (h : Handler) (Address : byte)
  : Drv (SHT3x_Result_t * Handler) :=
  let '(_, h) := SHT3x_SetAddressI2C h Address in
  match PlatformSend h, PlatformReceive h, PlatformDelay h with
  | Some _, Some _, Some _ =>
      let h :=
        match PlatformCRC h with
        | None => set_PlatformCRC h (Some SHT3x_CheckCRC)
        | Some _ => h
        end in
      match PlatformInit h with
      | Some f =>
          r <- call_InitDeinit f EvInit;;
          if negb (r =? 0) then ret (SHT3x_FAIL, h)
          else Init_reset h
      | None => Init_reset h
      end
  | _, _, _ => ret (SHT3x_INVALID_PARAM, h)
  end.

(** [SHT3x_ReadStatus] ([SHT3x.c], lines 509-528).  The local [Buffer] has
    no initialiser: [Buffer0] stands for the three bytes it happens to hold.
    [Status] is the caller's object before the call. *)
Definition SHT3x_ReadStatus (h : Handler) (Status : Z) (Buffer0 : byte * byte * byte)
  : Drv (SHT3x_Result_t * Z) :=
  let '(i0, i1, i2) := Buffer0 in
  let Buffer := [i0; i1; i2] in
  let cmd := [SHT3X_COMMAND_STATUS_READ_MSB; SHT3X_COMMAND_STATUS_READ_LSB] in
  r <- call_Send h cmd 2;;
  if negb (r =? 0) then ret (SHT3x_FAIL, Status)
  else
    '(r, Buffer) <- call_Receive h Buffer 3;;
    if negb (r =? 0) then ret (SHT3x_FAIL, Status)
    else
      let Status := word16 (byte_at Buffer 0) (byte_at Buffer 1) in
      r <- call_CRC h Status (byte_at Buffer 2);;
      if negb (r =? 0) then ret (SHT3x_CRC_ERROR, Status)
      else ret (SHT3x_OK, Status).

(** [SHT3x_DeInit] ([SHT3x.c], lines 461-470). *)
Definition SHT3x_DeInit (h : Handler) : Drv SHT3x_Result_t :=
  match PlatformDeInit h with
  | Some f =>
      r <- call_InitDeinit f EvDeInit;;
      if negb (r =? 0) then ret SHT3x_FAIL else ret SHT3x_OK
  | None => ret SHT3x_OK
  end.

(** [SHT3x_ClearStatus] ([SHT3x.c], lines 538-549). *)
Definition SHT3x_ClearStatus (h : Handler) : Drv SHT3x_Result_t :=
  let cmd := [SHT3X_COMMAND_STATUS_CLEAR_MSB; SHT3X_COMMAND_STATUS_CLEAR_LSB] in
  r <- call_Send h cmd 2;;
  if negb (r =? 0) then ret SHT3x_FAIL else ret SHT3x_OK.

(** [SHT3x_SetHeater] ([SHT3x.c], lines 563-583); [Heater] is a [uint8_t]
    tested against zero. *)
Definition SHT3x_SetHeater (h : Handler) (Heater : Z) : Drv SHT3x_Result_t :=
  let cmd :=
    if negb (Heater =? 0)
    then [SHT3X_COMMAND_HEATER_ENABLE_MSB; SHT3X_COMMAND_HEATER_ENABLE_LSB]
    else [SHT3X_COMMAND_HEATER_DISABLE_MSB; SHT3X_COMMAND_HEATER_DISABLE_LSB] in
  r <- call_Send h cmd 2;;
  if negb (r =? 0) then ret SHT3x_FAIL else ret SHT3x_OK.

End Functions.

Arguments SHT3x_DeInit {W}.
Arguments SHT3x_ClearStatus {W}.
Arguments SHT3x_SetHeater {W}.
Arguments SHT3x_SetModeSingleShot {W}.
Arguments SHT3x_SetModePeriodic {W}.
Arguments SHT3x_SetModeART {W}.
Arguments ReadSample_loop {W}.
Arguments ReadSample_transaction {W}.
Arguments SHT3x_ReadSample {W}.
Arguments SHT3x_SetAddressI2C {W}.
Arguments Init_reset {W}.
Arguments SHT3x_Init {W}.
Arguments SHT3x_ReadStatus {W}.

(** ** The periodic command table of the data sheet

    The fifteen command words for periodic acquisition, as the constants of
    [SHT3x.c] name them by speed and repeatability; the word for 4 mps and
    high repeatability is [0x2334]. *)
Definition periodic_command_table : list (Z * Z * (byte * byte)) :=
  [ (SHT3x_SPEED_05MPS, SHT3x_REPEATABILITY_LOW,    (x20, x2f));
    (SHT3x_SPEED_05MPS, SHT3x_REPEATABILITY_MEDIUM, (x20, x24));
    (SHT3x_SPEED_05MPS, SHT3x_REPEATABILITY_HIGH,   (x20, x32));
    (SHT3x_SPEED_1MPS,  SHT3x_REPEATABILITY_LOW,    (x21, x2d));
    (SHT3x_SPEED_1MPS,  SHT3x_REPEATABILITY_MEDIUM, (x21, x26));
    (SHT3x_SPEED_1MPS,  SHT3x_REPEATABILITY_HIGH,   (x21, x30));
    (SHT3x_SPEED_2MPS,  SHT3x_REPEATABILITY_LOW,    (x22, x2b));
    (SHT3x_SPEED_2MPS,  SHT3x_REPEATABILITY_MEDIUM, (x22, x20));
    (SHT3x_SPEED_2MPS,  SHT3x_REPEATABILITY_HIGH,   (x22, x36));
    (SHT3x_SPEED_4MPS,  SHT3x_REPEATABILITY_LOW,    (x23, x29));
    (SHT3x_SPEED_4MPS,  SHT3x_REPEATABILITY_MEDIUM, (x23, x22));
    (SHT3x_SPEED_4MPS,  SHT3x_REPEATABILITY_HIGH,   (x23, x34));
    (SHT3x_SPEED_10MPS, SHT3x_REPEATABILITY_LOW,    (x27, x2a));
    (SHT3x_SPEED_10MPS, SHT3x_REPEATABILITY_MEDIUM, (x27, x21));
    (SHT3x_SPEED_10MPS, SHT3x_REPEATABILITY_HIGH,   (x27, x37)) ].

Definition documented_periodic_command (Speed Repeatability : Z)
  : option (byte * byte) :=
  option_map snd
    (find (fun entry => (fst (fst entry) =? Speed) && (snd (fst entry) =? Repeatability))
          periodic_command_table).

(** The command word as a number, MSB first. *)
Definition command_word (cmd : byte * byte) : Z :=
  256 * byte_val (fst cmd) + byte_val (snd cmd).

(** The fixed command words, as the arrays [cmd] the functions send. *)
Definition stop_periodic_cmd : list byte :=
  [SHT3X_COMMAND_STOP_PERIODIC_MSB; SHT3X_COMMAND_STOP_PERIODIC_LSB].

Definition art_cmd : list byte := [SHT3X_COMMAND_ART_MSB; SHT3X_COMMAND_ART_LSB].

Definition fetch_data_cmd : list byte :=
  [SHT3X_COMMAND_FETCH_DATA_MSB; SHT3X_COMMAND_FETCH_DATA_LSB].

Definition soft_reset_cmd : list byte :=
  [SHT3X_COMMAND_SOFT_RESET_MSB; SHT3X_COMMAND_SOFT_RESET_LSB].

Definition status_read_cmd : list byte :=
  [SHT3X_COMMAND_STATUS_READ_MSB; SHT3X_COMMAND_STATUS_READ_LSB].

Definition singleshot_cmd (cmd1 : byte) : list byte :=
  [SHT3X_COMMAND_SINGLESHOT_DISABLE_MSB; cmd1].

(** [Buffer[6] = {0}] *)
Definition zero_buffer : list byte := [x00; x00; x00; x00; x00; x00].

(** ** Platform behaviours the properties speak about *)




Definition is_send_call (c : Call) : bool :=
  match c with CSend _ _ => true | _ => false end.


Definition send_calls (t : list Event) : nat := length (filter is_send t).

Definition delay_calls (t : list Event) : nat := length (filter is_delay t).

(** One receive attempt of the single-shot loop that failed: the attempt and
    the 1 ms delay after it. *)
Definition failed_attempt : list Call := [CReceive 6; CDelay 1].

(** The log of the failed attempts of the loop on the device at address [a],
    one entry of [rs] per attempt: the result the receive returned and the
    buffer after it; each receive of 6 bytes is followed by the delay of
    1 ms. *)
Fixpoint failed_attempts_log (a : byte) (rs : list (Z * list byte)) : list Event :=
  match rs with
  | [] => []
  | (st, Buffer) :: rs' =>
      EvReceive a 6 st Buffer :: EvDelay 1 :: failed_attempts_log a rs'
  end.

(** Every result in [rs] is a failure. *)
Definition all_failed (rs : list (Z * list byte)) : Prop :=
  Forall (fun p => fst p <> 0) rs.

(** ** What the specification promises of a read, stated on the log *)


(** A periodic or ART read that "sends the fetch-data command once and makes
    exactly one receive attempt (no delay)". *)
Definition fetches_with_one_attempt {W : Type}
  (h : SHT3x_Handler_t W) (Sample : SHT3x_Sample_t) (e : Env W) : Prop :=
  exists r Sample' e' t,
    SHT3x_ReadSample h Sample e = Some (r, Sample', e') /\
    trace e' = trace e ++ t /\
    send_calls t = 1%nat /\ receive_attempts t = 1%nat /\ delay_calls t = 0%nat.

(** ** Simulated platforms

    The platform state is the number of sends made so far. *)

Definition sim_send (result : nat -> Z) : SHT3x_PlatformSendReceive_t nat :=
  fun _ _ _ n => (result n, [], S n).

Definition sim_receive (result : Z) (written : list byte)
  : SHT3x_PlatformSendReceive_t nat :=
  fun _ _ _ n => (result, written, n).

Definition sim_delay : SHT3x_PlatformDelay_t nat := fun _ n => (0, n).

Definition sim_crc (result : Z) : SHT3x_PlatformCRC_t nat := fun _ _ n => (result, n).

Definition sim_handler (mode repeatability : Z)
  (snd rcv : SHT3x_PlatformSendReceive_t nat) (crc : SHT3x_PlatformCRC_t nat)
  : SHT3x_Handler_t nat :=
  mkHandler SHT3X_I2C_ADDRESS_A mode repeatability SHT3x_SPEED_05MPS
            None None (Some snd) (Some rcv) (Some sim_delay) (Some crc).

Definition send_ok : SHT3x_PlatformSendReceive_t nat := sim_send (fun _ => 0).
Definition send_fails : SHT3x_PlatformSendReceive_t nat := sim_send (fun _ => -1).

(** The first send is refused, the following ones go through. *)
Definition send_fails_once : SHT3x_PlatformSendReceive_t nat :=
  sim_send (fun n => match n with O => -1 | S _ => 0 end).

(** No answer, and nothing written to the buffer. *)
Definition receive_fails : SHT3x_PlatformSendReceive_t nat := sim_receive (-1) [].

(** A failure reported after six bytes were written to the buffer. *)
Definition receive_fails_dirty : SHT3x_PlatformSendReceive_t nat :=
  sim_receive (-1) [x66; x2e; xff; x7d; x13; xff].

(** The slave does not acknowledge the transfer. *)
Definition receive_nack : SHT3x_PlatformSendReceive_t nat := sim_receive (-3) [].

(** The measurement of the specification's scenario. *)
Definition receive_measurement : SHT3x_PlatformSendReceive_t nat :=
  sim_receive 0 [x66; x2e; xff; x7d; x13; xff].

(** A measurement delivered with both CRC bytes zero. *)
Definition receive_zero_crc : SHT3x_PlatformSendReceive_t nat :=
  sim_receive 0 [x66; x2e; x00; x7d; x13; x00].

(** A status word delivered with its CRC byte. *)
Definition receive_status : SHT3x_PlatformSendReceive_t nat :=
  sim_receive 0 [x80; x10; xe1].

Definition env0 : Env nat := mkEnv 0%nat [].

Definition sample0 : SHT3x_Sample_t :=
  mkSample 0 0 (S754_zero false) (S754_zero false) (S754_zero false).

(** The caller's sample after lines 386-387: both raw fields decoded from
    [Buffer], the three derived fields as they were. *)
Definition raw_sample (Sample : SHT3x_Sample_t) (Buffer : list byte) : SHT3x_Sample_t :=
  mkSample (word16 (byte_at Buffer 0) (byte_at Buffer 1))
           (word16 (byte_at Buffer 3) (byte_at Buffer 4))
           (TempCelsius Sample) (TempFahrenheit Sample) (HumidityPercent Sample).

(** The local [Buffer] of [SHT3x_ReadStatus] before the receive. *)
Definition status_buffer (Buffer0 : byte * byte * byte) : list byte :=
  let '(i0, i1, i2) := Buffer0 in [i0; i1; i2].

(** ** The transfer functions of the data sheet, over the rationals *)

Definition exact_celsius (T_raw : Z) : Q :=
  (inject_Z T_raw / inject_Z 65535) * inject_Z 175 - inject_Z 45.

Definition exact_fahrenheit (T_raw : Z) : Q :=
  (inject_Z T_raw / inject_Z 65535) * inject_Z 315 - inject_Z 49.

Definition exact_humidity (H_raw : Z) : Q :=
  (inject_Z H_raw / inject_Z 65535) * inject_Z 100.

(** [2^-15], the spacing of [float] values between 256 and 512. *)
Definition conversion_tolerance : Q := 1 # 32768.

(** A finite [float] within the tolerance of a rational. *)
Definition close_to (x : CFloat.float) (q : Q) : Prop :=
  exists v : Q, CFloat.to_Q x = Some v /\ (Qabs (v - q) <= conversion_tolerance)%Q.

Definition close_to_b (x : CFloat.float) (q : Q) : bool :=
  match CFloat.to_Q x with
  | Some v => Qle_bool (Qabs (v - q)) conversion_tolerance
  | None => false
  end.

(** The three derived fields of a converted sample against the exact
    transfer functions. *)
Definition conversion_close (s : SHT3x_Sample_t) : Prop :=
  close_to (TempCelsius (SHT3x_ConvSample s)) (exact_celsius (TempRaw s)) /\
  close_to (TempFahrenheit (SHT3x_ConvSample s)) (exact_fahrenheit (TempRaw s)) /\
  close_to (HumidityPercent (SHT3x_ConvSample s)) (exact_humidity (HumRaw s)).

Definition conversion_close_b (T_raw H_raw : Z) : bool :=
  let s := SHT3x_ConvSample
             (mkSample T_raw H_raw (S754_zero false) (S754_zero false) (S754_zero false)) in
  close_to_b (TempCelsius s) (exact_celsius T_raw)
  && close_to_b (TempFahrenheit s) (exact_fahrenheit T_raw)
  && close_to_b (HumidityPercent s) (exact_humidity H_raw).

(** [f z && f (z + step) && ...], [n] times. *)
Fixpoint all_from (f : Z -> bool) (z step : Z) (n : nat) : bool :=
  match n with
  | O => true
  | S k => f z && all_from f (z + step) step k
  end.

(** ** The STM32 HAL port ([port/STM32-HAL/SHT3x_platform.c])

    The port calls three functions of the STM32 HAL, which is not part of
    the repository: they are parameters here, acting on the platform state.
    The I2C handle [SHT3X_HI2C] is part of that state. *)

Section STM32_HAL.

Variable W : Type.

(** [HAL_I2C_Master_Transmit(&SHT3X_HI2C, DevAddress, pData, Size, Timeout)]
    and [HAL_I2C_Master_Receive], with the same parameters: the HAL status
    ([HAL_OK] is 0) and the bytes the call left in [pData]. *)
Variable HAL_I2C_Master_Transmit : Z -> list byte -> Z -> Z -> W -> Z * list byte * W.
Variable HAL_I2C_Master_Receive : Z -> list byte -> Z -> Z -> W -> Z * list byte * W.

(** [HAL_Delay(Delay)] *)
Variable HAL_Delay : Z -> W -> W.

Definition SHT3X_TIMEOUT : Z := 100.

(** [Address <<= 1] on a [uint8_t]. *)
Definition shift_address (Address : byte) : Z :=
  Z.shiftl (byte_val Address) 1 mod 256.

Definition Platform_Init : SHT3x_PlatformInitDeinit_t W := fun w => (0, w).

Definition Platform_DeInit : SHT3x_PlatformInitDeinit_t W := fun w => (0, w).

Definition Platform_WriteData : SHT3x_PlatformSendReceive_t W :=
  fun (Address : byte) (Data : list byte) (DataLen : Z) (w : W) =>
    let Address := shift_address Address in
    let '(status, written, w) :=
      HAL_I2C_Master_Transmit Address Data DataLen SHT3X_TIMEOUT w in
    if negb (status =? 0) then (-1, written, w) else (0, written, w).

Definition Platform_ReadData : SHT3x_PlatformSendReceive_t W :=
  fun (Address : byte) (Data : list byte) (DataLen : Z) (w : W) =>
    let Address := shift_address Address in
    let '(status, written, w) :=
      HAL_I2C_Master_Receive Address Data DataLen SHT3X_TIMEOUT w in
    if negb (status =? 0) then (-1, written, w) else (0, written, w).

Definition Platform_CRC : SHT3x_PlatformCRC_t W :=
  fun (Data : Z) (DataCRC : byte) (w : W) => (0, w).

Definition Platform_Delay : SHT3x_PlatformDelay_t W :=
  fun (Delay : Z) (w : W) => (0, HAL_Delay Delay w).

(** [SHT3x_Platform_Init] (lines 113-122): the six pointers of the handler
    are set, the other fields are not touched. *)
Definition SHT3x_Platform_Init (h : SHT3x_Handler_t W) : SHT3x_Handler_t W :=
  mkHandler (AddressI2C h) (Mode h) (Repeatability h) (Speed h)
            (Some Platform_Init) (Some Platform_DeInit)
            (Some Platform_WriteData) (Some Platform_ReadData)
            (Some Platform_Delay) (Some Platform_CRC).

End STM32_HAL.

Arguments Platform_Init {W}.
Arguments Platform_DeInit {W}.
Arguments Platform_WriteData {W}.
Arguments Platform_ReadData {W}.
Arguments Platform_CRC {W}.
Arguments Platform_Delay {W}.
Arguments SHT3x_Platform_Init {W}.

(** ** The earlier driver file

    The repository holds an earlier version of [SHT3x.c]; its
    [SHT3x_SetAddressI2C] (lines 292-301 of that file) tests the selector
    against zero only. *)

Module Legacy.

Definition SHT3x_SetAddressI2C {W : Type} (h : SHT3x_Handler_t W) (Address : byte)
  : SHT3x_Result_t * SHT3x_Handler_t W :=
  if Byte.eqb Address x00
  then (SHT3x_OK, set_AddressI2C h SHT3X_I2C_ADDRESS_A)
  else (SHT3x_OK, set_AddressI2C h SHT3X_I2C_ADDRESS_B).

End Legacy.

(** ** More platform behaviours *)

(** A receive function whose result does not depend on what the buffer
    holds when it is called. *)
Definition ignores_buffer {W : Type} (f : SHT3x_PlatformSendReceive_t W) : Prop :=
  forall a d d' l w, length d = length d' -> f a d l w = f a d' l w.

(** A receive function that writes at least [n] bytes on every call. *)
Definition writes_at_least {W : Type} (n : nat)
  (f : SHT3x_PlatformSendReceive_t W) : Prop :=
  forall a d l w, (n <= length (snd (fst (f a d l w))))%nat.

Definition is_crc (ev : Event) : bool :=
  match ev with EvCRC _ _ _ => true | _ => false end.

Definition crc_calls (t : list Event) : nat := length (filter is_crc t).

(** One of the two bus addresses of the sensor. *)
Definition valid_address (a : byte) : Prop :=
  a = SHT3X_I2C_ADDRESS_A \/ a = SHT3X_I2C_ADDRESS_B.

(** A simulated HAL: the state counts the transmits. *)
Definition hal_transmit (status : Z) : Z -> list byte -> Z -> Z -> nat -> Z * list byte * nat :=
  fun _ _ _ _ n => (status, [], S n).

Definition hal_receive (status : Z) (written : list byte)
  : Z -> list byte -> Z -> Z -> nat -> Z * list byte * nat :=
  fun _ _ _ _ n => (status, written, n).

Definition hal_delay : Z -> nat -> nat := fun _ n => n.

(** A measurement that is ready once the platform has seen [k] calls; with
    this function the state counts the receives as well as the sends. *)
Definition receive_ready_after (k : nat) : SHT3x_PlatformSendReceive_t nat :=
  fun _ _ _ n =>
    if (n <? k)%nat then (-1, [], S n)
    else (0, [x66; x2e; xff; x7d; x13; xff], S n).

(** A handler as a caller declares it before binding anything: [{0}]. *)
Definition zero_handler : SHT3x_Handler_t nat :=
  mkHandler x00 0 0 0 None None None None None None.

(** The measurement configuration a handler holds: its [Mode], [Speed] and
    [Repeatability] fields. *)
Definition configuration {W : Type} (h : SHT3x_Handler_t W) : Z * Z * Z :=
  (Mode h, Speed h, Repeatability h).

(** The same six function pointers in two handlers. *)
Definition same_platform {W : Type} (h h' : SHT3x_Handler_t W) : Prop :=
  PlatformInit h' = PlatformInit h /\
  PlatformDeInit h' = PlatformDeInit h /\
  PlatformSend h' = PlatformSend h /\
  PlatformReceive h' = PlatformReceive h /\
  PlatformDelay h' = PlatformDelay h /\
  PlatformCRC h' = PlatformCRC h.

(** The handler after lines 433-434 of [SHT3x_Init]. *)
Definition Init_default_crc {W : Type} (h : SHT3x_Handler_t W) : SHT3x_Handler_t W :=
  match PlatformCRC h with
  | None => set_PlatformCRC h (Some SHT3x_CheckCRC)
  | Some _ => h
  end.

(** The three pointers [SHT3x_Init] insists on. *)
Definition required_bound {W : Type} (h : SHT3x_Handler_t W) : Prop :=
  PlatformSend h <> None /\ PlatformReceive h <> None /\ PlatformDelay h <> None.

(** * Properties *)

(** ** Calls through a bound pointer *)

Section CallLemmas.

Variable W : Type.
Implicit Types (h : SHT3x_Handler_t W) (e : Env W).

Lemma call_Send_bound h cmd Len e :
  PlatformSend h <> None ->
  exists r e1, call_Send h cmd Len e = Some (r, e1).
Proof.
  intros Hb. unfold call_Send.
  destruct (PlatformSend h) as [f|]; [|congruence].
  destruct (f (AddressI2C h) cmd Len (world e)) as [[r wr] w].
  eauto.
Qed.

Lemma call_Send_trace h cmd Len e r e1 :
  call_Send h cmd Len e = Some (r, e1) ->
  trace e1 = trace e ++ [EvSend (AddressI2C h) cmd Len r].
Proof.
  unfold call_Send. destruct (PlatformSend h) as [f|]; [|discriminate].
  destruct (f (AddressI2C h) cmd Len (world e)) as [[r' wr] w].
  intros H. inversion H. reflexivity.
Qed.

Lemma call_Receive_bound h Buffer Len e :
  PlatformReceive h <> None ->
  exists r Buffer' e1, call_Receive h Buffer Len e = Some (r, Buffer', e1).
Proof.
  intros Hb. unfold call_Receive.
  destruct (PlatformReceive h) as [f|]; [|congruence].
  destruct (f (AddressI2C h) Buffer Len (world e)) as [[r wr] w].
  eauto.
Qed.

Lemma call_Receive_trace h Buffer Len e r Buffer' e1 :
  call_Receive h Buffer Len e = Some (r, Buffer', e1) ->
  trace e1 = trace e ++ [EvReceive (AddressI2C h) Len r Buffer'].
Proof.
  unfold call_Receive. destruct (PlatformReceive h) as [f|]; [|discriminate].
  destruct (f (AddressI2C h) Buffer Len (world e)) as [[r' wr] w].
  intros H. inversion H. reflexivity.
Qed.

Lemma call_Delay_bound h Delay e :
  PlatformDelay h <> None ->
  exists e1, call_Delay h Delay e = Some (tt, e1).
Proof.
  intros Hb. unfold call_Delay.
  destruct (PlatformDelay h) as [f|]; [|congruence].
  destruct (f Delay (world e)) as [r w]. eauto.
Qed.

Lemma call_Delay_trace h Delay e u e1 :
  call_Delay h Delay e = Some (u, e1) ->
  trace e1 = trace e ++ [EvDelay Delay].
Proof.
  unfold call_Delay. destruct (PlatformDelay h) as [f|]; [|discriminate].
  destruct (f Delay (world e)) as [r w].
  intros H. inversion H. reflexivity.
Qed.

Lemma call_CRC_bound h Data DataCRC e :
  PlatformCRC h <> None ->
  exists r e1, call_CRC h Data DataCRC e = Some (r, e1).
Proof.
  intros Hb. unfold call_CRC.
  destruct (PlatformCRC h) as [f|]; [|congruence].
  destruct (f Data DataCRC (world e)) as [r w]. eauto.
Qed.

Lemma call_CRC_trace h Data DataCRC e r e1 :
  call_CRC h Data DataCRC e = Some (r, e1) ->
  trace e1 = trace e ++ [EvCRC Data DataCRC r].
Proof.
  unfold call_CRC. destruct (PlatformCRC h) as [f|]; [|discriminate].
  destruct (f Data DataCRC (world e)) as [r' w].
  intros H. inversion H. reflexivity.
Qed.

End CallLemmas.

Arguments call_Send : simpl never.
Arguments call_Receive : simpl never.
Arguments call_Delay : simpl never.
Arguments call_CRC : simpl never.

Lemma byte_eqb_spec (a b : byte) : reflect (a = b) (Byte.eqb a b).
Proof.
  destruct (Byte.eqb a b) eqn:E; constructor.
  - now apply Byte.byte_dec_bl.
  - now apply Byte.eqb_false.
Qed.

(** [r != 0] and [r == 0] on a known result. *)
Lemma nonzero_test (r : Z) : r <> 0 -> (r =? 0) = false.
Proof. intros H. now apply Z.eqb_neq. Qed.

Ltac run_call H :=
  unfold bind; rewrite H; try change (0 =? 0) with true; cbn [negb].
Ltac test_nonzero H := rewrite (nonzero_test _ H); cbn [negb].

(** ** Mode configuration *)

Section ModeConfiguration.

Variable W : Type.
Implicit Types (h : SHT3x_Handler_t W) (e : Env W).

Lemma SetModeSingleShot_send_fails h Repeatability e r e1 :
  call_Send h stop_periodic_cmd 2 e = Some (r, e1) -> r <> 0 ->
  SHT3x_SetModeSingleShot h Repeatability e = Some (SHT3x_FAIL, h, e1).
Proof.
  intros Hs Hr. unfold SHT3x_SetModeSingleShot. fold stop_periodic_cmd.
  run_call Hs. test_nonzero Hr. reflexivity.
Qed.

Lemma SetModeSingleShot_send_ok h Repeatability e e1 :
  call_Send h stop_periodic_cmd 2 e = Some (0, e1) ->
  SHT3x_SetModeSingleShot h Repeatability e =
  Some (SHT3x_OK,
        set_Repeatability (set_Mode h SHT3x_MODE_SINGLESHOT) Repeatability, e1).
Proof.
  intros Hs. unfold SHT3x_SetModeSingleShot. fold stop_periodic_cmd.
  run_call Hs. reflexivity.
Qed.

Lemma SetModeART_send_fails h e r e1 :
  call_Send h art_cmd 2 e = Some (r, e1) -> r <> 0 ->
  SHT3x_SetModeART h e = Some (SHT3x_FAIL, h, e1).
Proof.
  intros Hs Hr. unfold SHT3x_SetModeART. fold art_cmd.
  run_call Hs. test_nonzero Hr. reflexivity.
Qed.

Lemma SetModeART_send_ok h e e1 :
  call_Send h art_cmd 2 e = Some (0, e1) ->
  SHT3x_SetModeART h e = Some (SHT3x_OK, set_Mode h SHT3x_MODE_ART, e1).
Proof.
  intros Hs. unfold SHT3x_SetModeART. fold art_cmd.
  run_call Hs. reflexivity.
Qed.

(** For a speed and a repeatability of the enumerations, the function is the
    send of the table's command followed by the test of its result. *)
Lemma SetModePeriodic_valid h Speed Repeatability e :
  0 <= Speed <= 4 -> 0 <= Repeatability <= 2 ->
  exists msb lsb,
    documented_periodic_command Speed Repeatability = Some (msb, lsb) /\
    SHT3x_SetModePeriodic h Speed Repeatability e =
    (r <- call_Send h [msb; lsb] 2;;
     if negb (r =? 0) then ret (SHT3x_FAIL, h)
     else ret (SHT3x_OK,
               set_Repeatability
                 (set_Speed (set_Mode h SHT3x_MODE_PERIODIC) Speed)
                 Repeatability)) e.
Proof.
  intros HS HR.
  assert (Speed = 0 \/ Speed = 1 \/ Speed = 2 \/ Speed = 3 \/ Speed = 4)
    as HSc by lia.
  assert (Repeatability = 0 \/ Repeatability = 1 \/ Repeatability = 2)
    as HRc by lia.
  destruct HSc as [-> | [-> | [-> | [-> | ->]]]];
    destruct HRc as [-> | [-> | ->]];
    eexists; eexists; (split; [reflexivity | reflexivity]).
Qed.

Lemma SetModePeriodic_invalid_speed h Speed Repeatability e :
  ~ 0 <= Speed <= 4 ->
  SHT3x_SetModePeriodic h Speed Repeatability e =
  Some (SHT3x_INVALID_PARAM, h, e).
Proof.
  intros HS. unfold SHT3x_SetModePeriodic, SetModePeriodic_switch.
  unfold SHT3x_SPEED_05MPS, SHT3x_SPEED_1MPS, SHT3x_SPEED_2MPS,
    SHT3x_SPEED_4MPS, SHT3x_SPEED_10MPS.
  destruct (Z.eqb_spec Speed 0); [lia|].
  destruct (Z.eqb_spec Speed 1); [lia|].
  destruct (Z.eqb_spec Speed 2); [lia|].
  destruct (Z.eqb_spec Speed 3); [lia|].
  destruct (Z.eqb_spec Speed 4); [lia|].
  reflexivity.
Qed.

End ModeConfiguration.

(** ** Sample acquisition *)

Section Acquisition.

Variable W : Type.
Implicit Types (h : SHT3x_Handler_t W) (e : Env W).


Lemma send_calls_calls (t : list Event) :
  send_calls t = length (filter is_send_call (map call_of t)).
Proof.
  unfold send_calls.
  induction t as [|ev t IH]; [reflexivity|].
  destruct ev; simpl; rewrite ?IH; auto.
Qed.


(** A log made of CRC checks only holds no receive and no delay. *)
Lemma crc_only_no_receive (t : list Event) :
  crc_calls t = length t -> receive_attempts t = 0%nat.
Proof.
  unfold crc_calls, receive_attempts.
  induction t as [|ev t IH]; [reflexivity|].
  pose proof (filter_length_le is_crc t) as Hle.
  destruct ev; simpl; intros H; try lia; apply IH; lia.
Qed.

Lemma crc_only_no_delay (t : list Event) :
  crc_calls t = length t -> delay_calls t = 0%nat.
Proof.
  unfold crc_calls, delay_calls.
  induction t as [|ev t IH]; [reflexivity|].
  pose proof (filter_length_le is_crc t) as Hle.
  destruct ev; simpl; intros H; try lia; apply IH; lia.
Qed.

(** The loop returns whenever the receive and delay pointers are bound. *)
Lemma ReadSample_loop_total h n :
  PlatformReceive h <> None -> PlatformDelay h <> None ->
  forall Buffer e, exists Buffer' e', ReadSample_loop h n Buffer e = Some (Buffer', e').
Proof.
  intros HR HD. induction n as [|n IH]; intros Buffer e.
  - simpl. unfold ret. eauto.
  - simpl. destruct (call_Receive_bound W h Buffer 6 e HR) as (r & B1 & e1 & H1).
    run_call H1. destruct (r =? 0).
    + unfold ret. eauto.
    + destruct (call_Delay_bound W h 1 e1 HD) as (e2 & H2). run_call H2. apply IH.
Qed.

(** The calls of [j] failed attempts. *)
Lemma failed_attempts_log_calls (a : byte) (rs : list (Z * list byte)) :
  map call_of (failed_attempts_log a rs) = concat (repeat failed_attempt (length rs)).
Proof.
  induction rs as [|[st B] rs IH]; [reflexivity|].
  simpl. rewrite IH. reflexivity.
Qed.


Lemma ReadSample_switch_valid (Repeatability : Z) :
  0 <= Repeatability <= 2 -> exists cmd1, ReadSample_switch Repeatability = Some cmd1.
Proof.
  intros H.
  assert (Repeatability = 0 \/ Repeatability = 1 \/ Repeatability = 2)
    as [-> | [-> | ->]] by lia; eexists; reflexivity.
Qed.

Lemma ReadSample_switch_invalid (Repeatability : Z) :
  ~ 0 <= Repeatability <= 2 -> ReadSample_switch Repeatability = None.
Proof.
  intros H. unfold ReadSample_switch, SHT3x_REPEATABILITY_LOW,
    SHT3x_REPEATABILITY_MEDIUM, SHT3x_REPEATABILITY_HIGH.
  destruct (Z.eqb_spec Repeatability 0); [lia|].
  destruct (Z.eqb_spec Repeatability 1); [lia|].
  destruct (Z.eqb_spec Repeatability 2); [lia|].
  reflexivity.
Qed.

(** The single-shot transaction once the measurement command is sent: the
    loop, then the test of the two CRC positions. *)
Lemma ReadSample_transaction_singleshot h e cmd1 e1 :
  Mode h = SHT3x_MODE_SINGLESHOT ->
  ReadSample_switch (Repeatability h) = Some cmd1 ->
  call_Send h (singleshot_cmd cmd1) 2 e = Some (0, e1) ->
  ReadSample_transaction h e =
  (Buffer <- ReadSample_loop h 20 zero_buffer;;
   if Byte.eqb (byte_at Buffer 2) x00 && Byte.eqb (byte_at Buffer 5) x00
   then ret (inl SHT3x_FAIL)
   else ret (inr Buffer)) e1.
Proof.
  intros HM HS Hsend. unfold ReadSample_transaction.
  rewrite HM, HS. cbn [Z.eqb SHT3x_MODE_SINGLESHOT].
  fold (singleshot_cmd cmd1). run_call Hsend. reflexivity.
Qed.

End Acquisition.

Section AcquisitionProperties.

Variable W : Type.
Implicit Types (h : SHT3x_Handler_t W) (e : Env W).

(** Everything the transaction returns by itself is a failure of the
    parameters or of the transport. *)
Lemma ReadSample_transaction_results h e r e1 :
  ReadSample_transaction h e = Some (inl r, e1) ->
  r = SHT3x_INVALID_PARAM \/ r = SHT3x_FAIL \/ r = SHT3x_NO_DATA.
Proof.
  unfold ReadSample_transaction, bind, ret.
  repeat match goal with
         | |- context [match ?x with _ => _ end] => destruct x
         | |- context [if ?b then _ else _] => destruct b
         end;
    intros H; inversion H; auto.
Qed.

(** Lines 386-397: what follows a transaction that left [Buffer]. *)
Lemma ReadSample_after_transaction h Sample e Buffer e1 :
  ReadSample_transaction h e = Some (inr Buffer, e1) ->
  SHT3x_ReadSample h Sample e =
  (let Sample1 :=
     mkSample (word16 (byte_at Buffer 0) (byte_at Buffer 1))
              (word16 (byte_at Buffer 3) (byte_at Buffer 4))
              (TempCelsius Sample) (TempFahrenheit Sample) (HumidityPercent Sample) in
   r <- call_CRC h (TempRaw Sample1) (byte_at Buffer 2);;
   if negb (r =? 0) then ret (SHT3x_CRC_ERROR, Sample1)
   else
     r <- call_CRC h (HumRaw Sample1) (byte_at Buffer 5);;
     if negb (r =? 0) then ret (SHT3x_CRC_ERROR, Sample1)
     else ret (SHT3x_OK, SHT3x_ConvSample Sample1)) e1.
Proof.
  intros H. unfold SHT3x_ReadSample. run_call H. reflexivity.
Qed.

Lemma ReadSample_transaction_returns h Sample e r e1 :
  ReadSample_transaction h e = Some (inl r, e1) ->
  SHT3x_ReadSample h Sample e = Some (r, Sample, e1).
Proof.
  intros H. unfold SHT3x_ReadSample. run_call H. reflexivity.
Qed.

(** After a transaction that left a buffer, the call returns when the CRC
    pointer is bound, and makes nothing but one or two CRC checks. *)
Lemma ReadSample_crc_checks_only h Sample e Buffer e1 :
  ReadSample_transaction h e = Some (inr Buffer, e1) ->
  PlatformCRC h <> None ->
  exists r Sample' e' t,
    SHT3x_ReadSample h Sample e = Some (r, Sample', e') /\
    trace e' = trace e1 ++ t /\
    send_calls t = 0%nat /\ receive_attempts t = 0%nat /\ delay_calls t = 0%nat.
Proof.
  intros HT HC. rewrite (ReadSample_after_transaction h Sample e Buffer e1 HT).
  cbv zeta. cbn [TempRaw HumRaw].
  destruct (call_CRC_bound W h (word16 (byte_at Buffer 0) (byte_at Buffer 1))
              (byte_at Buffer 2) e1 HC) as (r1 & e2 & H1).
  pose proof (call_CRC_trace W _ _ _ _ _ _ H1) as T1.
  run_call H1. destruct (r1 =? 0); cbn [negb].
  - destruct (call_CRC_bound W h (word16 (byte_at Buffer 3) (byte_at Buffer 4))
                (byte_at Buffer 5) e2 HC) as (r2 & e3 & H2).
    pose proof (call_CRC_trace W _ _ _ _ _ _ H2) as T2.
    run_call H2. rewrite T1, <- app_assoc in T2.
    destruct (r2 =? 0); cbn [negb]; unfold ret;
      do 4 eexists; (split; [reflexivity|]); (split; [exact T2|]); auto.
  - unfold ret. do 4 eexists. split; [reflexivity|]. split; [exact T1|]. auto.
Qed.

(** Lines 386-397 by cases on the two CRC checks. *)
Lemma ReadSample_crc_cases h Sample e Buffer e1 r Sample' e' :
  ReadSample_transaction h e = Some (inr Buffer, e1) ->
  SHT3x_ReadSample h Sample e = Some (r, Sample', e') ->
  exists r1 e2,
    call_CRC h (word16 (byte_at Buffer 0) (byte_at Buffer 1)) (byte_at Buffer 2) e1
    = Some (r1, e2) /\
    ((r1 <> 0 /\ r = SHT3x_CRC_ERROR /\ Sample' = raw_sample Sample Buffer /\ e' = e2) \/
     (r1 = 0 /\
      exists r2,
        call_CRC h (word16 (byte_at Buffer 3) (byte_at Buffer 4)) (byte_at Buffer 5) e2
        = Some (r2, e') /\
        ((r2 <> 0 /\ r = SHT3x_CRC_ERROR /\ Sample' = raw_sample Sample Buffer) \/
         (r2 = 0 /\ r = SHT3x_OK /\
          Sample' = SHT3x_ConvSample (raw_sample Sample Buffer))))).
Proof.
  intros HT. rewrite (ReadSample_after_transaction h Sample e Buffer e1 HT).
  cbv zeta. cbn [TempRaw HumRaw]. fold (raw_sample Sample Buffer).
  unfold bind at 1.
  destruct (call_CRC h _ (byte_at Buffer 2) e1) as [[r1 e2]|] eqn:H1; [|discriminate].
  exists r1, e2. split; [reflexivity|].
  destruct (Z.eqb_spec r1 0) as [-> | N1]; cbn [negb] in *.
  - unfold bind in H.
    destruct (call_CRC h _ (byte_at Buffer 5) e2) as [[r2 e3]|] eqn:H2; [|discriminate].
    right. split; [reflexivity|]. exists r2.
    destruct (Z.eqb_spec r2 0) as [-> | N2]; cbn [negb] in H;
      unfold ret in H; inversion H; subst; auto 10.
  - unfold ret in H. inversion H; subst. left. auto.
Qed.

(** What follows the polling loop: a failure when bytes 2 and 5 of the
    buffer are both zero, with nothing called; otherwise one or two CRC
    checks and a result that is not [SHT3x_FAIL]. *)
Lemma ReadSample_after_polling h Sample e cmd1 e1 Buffer e2 :
  Mode h = SHT3x_MODE_SINGLESHOT ->
  ReadSample_switch (Repeatability h) = Some cmd1 ->
  call_Send h (singleshot_cmd cmd1) 2 e = Some (0, e1) ->
  ReadSample_loop h 20 zero_buffer e1 = Some (Buffer, e2) ->
  (byte_at Buffer 2 = x00 /\ byte_at Buffer 5 = x00 ->
   SHT3x_ReadSample h Sample e = Some (SHT3x_FAIL, Sample, e2)) /\
  (forall r Sample' e',
      SHT3x_ReadSample h Sample e = Some (r, Sample', e') ->
      exists checks,
        trace e' = trace e2 ++ checks /\
        crc_calls checks = length checks /\ (length checks <= 2)%nat /\
        (r = SHT3x_FAIL <-> byte_at Buffer 2 = x00 /\ byte_at Buffer 5 = x00)) /\
  (PlatformCRC h <> None ->
   exists r Sample' e', SHT3x_ReadSample h Sample e = Some (r, Sample', e')).
Proof.
  intros HM HS Hsend HL.
  pose proof (ReadSample_transaction_singleshot W h e cmd1 e1 HM HS Hsend) as HT.
  unfold bind in HT. rewrite HL in HT.
  destruct (byte_eqb_spec (byte_at Buffer 2) x00) as [E2 | N2];
    [destruct (byte_eqb_spec (byte_at Buffer 5) x00) as [E5 | N5]|];
    cbn [andb] in HT; unfold ret in HT.
  - pose proof (ReadSample_transaction_returns h Sample e _ _ HT) as HF.
    split; [intros _; exact HF|]. split; [|intros _; eauto].
    intros r Sample' e' H. rewrite HF in H. inversion H; subst.
    exists []. rewrite app_nil_r. repeat split; auto.
  - split; [intros [_ E5]; contradiction|]. split.
    + intros r Sample' e' H.
      destruct (ReadSample_crc_cases h Sample e Buffer e2 _ _ _ HT H)
        as (r1 & e3 & H1 & [(_ & -> & _ & ->) | (_ & r2 & H2 & Hres)]).
      * eexists. split; [exact (call_CRC_trace W _ _ _ _ _ _ H1)|].
        cbn. split; [reflexivity|]. split; [lia|]. split; [discriminate|tauto].
      * eexists. split.
        { rewrite (call_CRC_trace W _ _ _ _ _ _ H2),
            (call_CRC_trace W _ _ _ _ _ _ H1), <- app_assoc. reflexivity. }
        cbn. split; [reflexivity|]. split; [lia|]. split; [|tauto].
        destruct Hres as [(_ & -> & _) | (_ & -> & _)]; discriminate.
    + intros HC.
      destruct (ReadSample_crc_checks_only h Sample e Buffer e2 HT HC)
        as (r & S' & e' & _ & H & _). eauto.
  - split; [intros [E2 _]; contradiction|]. split.
    + intros r Sample' e' H.
      destruct (ReadSample_crc_cases h Sample e Buffer e2 _ _ _ HT H)
        as (r1 & e3 & H1 & [(_ & -> & _ & ->) | (_ & r2 & H2 & Hres)]).
      * eexists. split; [exact (call_CRC_trace W _ _ _ _ _ _ H1)|].
        cbn. split; [reflexivity|]. split; [lia|]. split; [discriminate|tauto].
      * eexists. split.
        { rewrite (call_CRC_trace W _ _ _ _ _ _ H2),
            (call_CRC_trace W _ _ _ _ _ _ H1), <- app_assoc. reflexivity. }
        cbn. split; [reflexivity|]. split; [lia|]. split; [|tauto].
        destruct Hres as [(_ & -> & _) | (_ & -> & _)]; discriminate.
    + intros HC.
      destruct (ReadSample_crc_checks_only h Sample e Buffer e2 HT HC)
        as (r & S' & e' & _ & H & _). eauto.
Qed.

End AcquisitionProperties.

(** *** Single-shot reads *)

(** Claim C10.  When the handler's mode is single shot and its stored
    repeatability is none of Low, Medium, High, [SHT3x_ReadSample] returns
    [SHT3x_INVALID_PARAM]; the platform state and the log of calls are the
    ones before the call (no send, receive, delay or CRC check took place)
    and the caller's sample is the one before the call. *)
Theorem ReadSample_invalid_repeatability :
  forall (W : Type) (h : SHT3x_Handler_t W) (Sample : SHT3x_Sample_t) (e : Env W),
    Mode h = SHT3x_MODE_SINGLESHOT ->
    ~ 0 <= Repeatability h <= 2 ->
    SHT3x_ReadSample h Sample e = Some (SHT3x_INVALID_PARAM, Sample, e).
Proof.
  intros W h Sample e HM HR.
  apply ReadSample_transaction_returns.
  unfold ReadSample_transaction.
  rewrite HM, (ReadSample_switch_invalid _ HR). reflexivity.
Qed.

Lemma ReadSample_invalid_repeatability_witness :
  SHT3x_ReadSample
    (sim_handler SHT3x_MODE_SINGLESHOT 3 send_ok receive_measurement (sim_crc 0))
    sample0 env0
  = Some (SHT3x_INVALID_PARAM, sample0, env0).
Proof.
  apply (ReadSample_invalid_repeatability nat
           (sim_handler SHT3x_MODE_SINGLESHOT 3 send_ok receive_measurement (sim_crc 0))).
  - reflexivity.
  - simpl. lia.
Defined.

(** Claim C8.  In single-shot mode, once the measurement command is sent,
    whatever buffer the receive loop leaves, if its bytes 2 and 5 are both
    zero the call returns [SHT3x_FAIL] right after the loop, the sample
    untouched; the loop itself always leaves a buffer.  This holds as well
    when a receive succeeded and delivered the buffer. *)
Theorem ReadSample_zero_crc_bytes_fail :
  forall (W : Type) (h : SHT3x_Handler_t W) (Sample : SHT3x_Sample_t)
         (e e1 : Env W) (cmd1 : byte),
    Mode h = SHT3x_MODE_SINGLESHOT ->
    ReadSample_switch (Repeatability h) = Some cmd1 ->
    call_Send h (singleshot_cmd cmd1) 2 e = Some (0, e1) ->
    PlatformReceive h <> None -> PlatformDelay h <> None ->
    exists Buffer e2,
      ReadSample_loop h 20 zero_buffer e1 = Some (Buffer, e2) /\
      (byte_at Buffer 2 = x00 -> byte_at Buffer 5 = x00 ->
       SHT3x_ReadSample h Sample e = Some (SHT3x_FAIL, Sample, e2)).
Proof.
  intros W h Sample e e1 cmd1 HM HS Hsend HR HD.
  destruct (ReadSample_loop_total W h 20 HR HD zero_buffer e1) as (Buffer & e2 & HL).
  exists Buffer, e2. split; [exact HL|].
  intros H2 H5. apply ReadSample_transaction_returns.
  rewrite (ReadSample_transaction_singleshot W h e cmd1 e1 HM HS Hsend).
  run_call HL. rewrite H2, H5. reflexivity.
Qed.

Lemma ReadSample_zero_crc_bytes_fail_witness :
  exists Buffer e2,
    ReadSample_loop
      (sim_handler SHT3x_MODE_SINGLESHOT SHT3x_REPEATABILITY_HIGH
                   send_ok receive_zero_crc (sim_crc 0))
      20 zero_buffer
      (mkEnv 1%nat [EvSend SHT3X_I2C_ADDRESS_A (singleshot_cmd x00) 2 0])
    = Some (Buffer, e2) /\
    (byte_at Buffer 2 = x00 -> byte_at Buffer 5 = x00 ->
     SHT3x_ReadSample
       (sim_handler SHT3x_MODE_SINGLESHOT SHT3x_REPEATABILITY_HIGH
                    send_ok receive_zero_crc (sim_crc 0))
       sample0 env0
     = Some (SHT3x_FAIL, sample0, e2)).
Proof.
  apply (ReadSample_zero_crc_bytes_fail nat
           (sim_handler SHT3x_MODE_SINGLESHOT SHT3x_REPEATABILITY_HIGH
                        send_ok receive_zero_crc (sim_crc 0))
           sample0 env0
           (mkEnv 1%nat [EvSend SHT3X_I2C_ADDRESS_A (singleshot_cmd x00) 2 0])
           x00).
  - reflexivity.
  - reflexivity.
  - reflexivity.
  - discriminate.
  - discriminate.
Defined.

(** A measurement received at the first attempt, with data bytes
    [66 2e] and [7d 13] and both CRC bytes zero, is reported as a failure. *)
Example ReadSample_zero_crc_measurement :
  SHT3x_ReadSample
    (sim_handler SHT3x_MODE_SINGLESHOT SHT3x_REPEATABILITY_HIGH
                 send_ok receive_zero_crc (sim_crc 0))
    sample0 env0
  = Some (SHT3x_FAIL, sample0,
          mkEnv 1%nat
            [EvSend x44 [x24; x00] 2 0;
             EvReceive x44 6 0 [x66; x2e; x00; x7d; x13; x00]]).
Proof. reflexivity. Qed.






(** The same receive failures with the command sent, but six bytes left in
    the buffer by the failed receive: after the 20 attempts the call decodes
    the buffer and returns [SHT3x_OK]. *)
Example ReadSample_SingleShot_dirty_buffer :
  exists e',
    SHT3x_ReadSample
      (sim_handler SHT3x_MODE_SINGLESHOT SHT3x_REPEATABILITY_LOW
                   send_ok receive_fails_dirty (sim_crc 0))
      sample0 env0
    = Some (SHT3x_OK, SHT3x_ConvSample (mkSample 26158 32019 (S754_zero false)
                                          (S754_zero false) (S754_zero false)), e') /\
    receive_attempts (trace e') = 20%nat.
Proof. vm_compute. eexists. split; reflexivity. Qed.

(** *** Periodic and ART reads *)

Section PeriodicReads.

Variable W : Type.
Implicit Types (h : SHT3x_Handler_t W) (e : Env W).

Lemma ReadSample_transaction_fetch h e :
  Mode h = SHT3x_MODE_PERIODIC \/ Mode h = SHT3x_MODE_ART ->
  ReadSample_transaction h e =
  (PlatformResult <- call_Send h fetch_data_cmd 2;;
   if negb (PlatformResult =? 0) then ret (inl SHT3x_FAIL)
   else
     '(PlatformResult, Buffer) <- call_Receive h zero_buffer 6;;
     if PlatformResult =? -3 then ret (inl SHT3x_NO_DATA)
     else if negb (PlatformResult =? 0) then ret (inl SHT3x_FAIL)
     else ret (inr Buffer)) e.
Proof.
  intros [HM | HM]; unfold ReadSample_transaction; rewrite HM; reflexivity.
Qed.

End PeriodicReads.

(** Claim C3, as the code has it.  In periodic or ART mode [SHT3x_ReadSample]
    sends the fetch-data command [e0 00] once.  When that send fails the
    call returns [SHT3x_FAIL] with no receive attempt.  When it succeeds the
    call makes exactly one receive attempt of 6 bytes and no delay: a
    result of -3 gives [SHT3x_NO_DATA], any other nonzero result gives
    [SHT3x_FAIL], both with the sample untouched, and after a result of 0
    only CRC checks follow. *)
Theorem ReadSample_fetch_single_attempt :
  forall (W : Type) (h : SHT3x_Handler_t W) (Sample : SHT3x_Sample_t)
         (e e1 : Env W) (r1 : Z),
    Mode h = SHT3x_MODE_PERIODIC \/ Mode h = SHT3x_MODE_ART ->
    call_Send h fetch_data_cmd 2 e = Some (r1, e1) ->
    trace e1 = trace e ++ [EvSend (AddressI2C h) [xe0; x00] 2 r1] /\
    (r1 <> 0 -> SHT3x_ReadSample h Sample e = Some (SHT3x_FAIL, Sample, e1)) /\
    (r1 = 0 ->
     forall (r2 : Z) (Buffer : list byte) (e2 : Env W),
       call_Receive h zero_buffer 6 e1 = Some (r2, Buffer, e2) ->
       trace e2 = trace e ++ [EvSend (AddressI2C h) [xe0; x00] 2 0;
                              EvReceive (AddressI2C h) 6 r2 Buffer] /\
       (r2 = -3 -> SHT3x_ReadSample h Sample e = Some (SHT3x_NO_DATA, Sample, e2)) /\
       (r2 <> -3 -> r2 <> 0 ->
        SHT3x_ReadSample h Sample e = Some (SHT3x_FAIL, Sample, e2)) /\
       (r2 = 0 -> PlatformCRC h <> None ->
        fetches_with_one_attempt h Sample e)).
Proof.
  intros W h Sample e e1 r1 HM Hsend.
  pose proof (call_Send_trace W _ _ _ _ _ _ Hsend) as T1.
  split; [exact T1|]. split.
  - intros Hr. apply ReadSample_transaction_returns.
    rewrite (ReadSample_transaction_fetch W h e HM).
    run_call Hsend. test_nonzero Hr. reflexivity.
  - intros -> r2 Buffer e2 Hrecv.
    pose proof (call_Receive_trace W _ _ _ _ _ _ _ Hrecv) as T2.
    assert (trace e2 = trace e ++ [EvSend (AddressI2C h) [xe0; x00] 2 0;
                                   EvReceive (AddressI2C h) 6 r2 Buffer]) as T.
    { rewrite T2, T1, <- app_assoc. reflexivity. }
    split; [exact T|]. split; [|split].
    + intros ->. apply ReadSample_transaction_returns.
      rewrite (ReadSample_transaction_fetch W h e HM).
      run_call Hsend. run_call Hrecv. reflexivity.
    + intros Hn3 Hn0. apply ReadSample_transaction_returns.
      rewrite (ReadSample_transaction_fetch W h e HM).
      run_call Hsend. run_call Hrecv.
      destruct (Z.eqb_spec r2 (-3)); [contradiction|].
      test_nonzero Hn0. reflexivity.
    + intros -> HC.
      assert (ReadSample_transaction h e = Some (inr Buffer, e2)) as HT.
      { rewrite (ReadSample_transaction_fetch W h e HM).
        run_call Hsend. run_call Hrecv. reflexivity. }
      destruct (ReadSample_crc_checks_only W h Sample e Buffer e2 HT HC)
        as (r & Sample' & e' & t & Hrun & Ht & Hs & Hr & Hd).
      exists r, Sample', e',
        ([EvSend (AddressI2C h) [xe0; x00] 2 0;
          EvReceive (AddressI2C h) 6 0 Buffer] ++ t).
      split; [exact Hrun|]. split.
      * rewrite Ht, T, <- app_assoc. reflexivity.
      * unfold send_calls, receive_attempts, delay_calls in *. simpl.
        rewrite Hs, Hr, Hd. auto.
Qed.

Lemma ReadSample_fetch_single_attempt_witness :
  trace (mkEnv 1%nat [EvSend x44 fetch_data_cmd 2 0])
  = trace env0 ++ [EvSend x44 [xe0; x00] 2 0] /\
  SHT3x_ReadSample
    (sim_handler SHT3x_MODE_PERIODIC SHT3x_REPEATABILITY_HIGH
                 send_ok receive_nack (sim_crc 0))
    sample0 env0
  = Some (SHT3x_NO_DATA, sample0,
          mkEnv 1%nat [EvSend x44 fetch_data_cmd 2 0; EvReceive x44 6 (-3) zero_buffer]).
Proof.
  destruct (ReadSample_fetch_single_attempt nat
              (sim_handler SHT3x_MODE_PERIODIC SHT3x_REPEATABILITY_HIGH
                           send_ok receive_nack (sim_crc 0))
              sample0 env0 (mkEnv 1%nat [EvSend x44 fetch_data_cmd 2 0]) 0
              (or_introl eq_refl) eq_refl)
    as (T1 & _ & Hok).
  split; [exact T1|].
  destruct (Hok eq_refl (-3) zero_buffer
              (mkEnv 1%nat [EvSend x44 fetch_data_cmd 2 0;
                            EvReceive x44 6 (-3) zero_buffer])
              eq_refl)
    as (_ & Hnack & _).
  exact (Hnack eq_refl).
Defined.

(** Claim C3, as it is written, fails: in periodic mode with a send function
    that reports a failure, the call returns [SHT3x_FAIL] from line 377 and
    the receive function is never called. *)
Lemma ReadSample_fetch_send_failure_no_attempt :
  Mode (sim_handler SHT3x_MODE_PERIODIC SHT3x_REPEATABILITY_HIGH
                    send_fails receive_nack (sim_crc 0)) = SHT3x_MODE_PERIODIC /\
  SHT3x_ReadSample
    (sim_handler SHT3x_MODE_PERIODIC SHT3x_REPEATABILITY_HIGH
                 send_fails receive_nack (sim_crc 0))
    sample0 env0
  = Some (SHT3x_FAIL, sample0, mkEnv 1%nat [EvSend x44 [xe0; x00] 2 (-1)]) /\
  receive_attempts [EvSend x44 [xe0; x00] 2 (-1)] = 0%nat /\
  ~ fetches_with_one_attempt
      (sim_handler SHT3x_MODE_PERIODIC SHT3x_REPEATABILITY_HIGH
                   send_fails receive_nack (sim_crc 0))
      sample0 env0.
Proof.
  split; [reflexivity|]. split; [reflexivity|]. split; [reflexivity|].
  intros (r & Sample' & e' & t & Hrun & Ht & _ & Hn & _).
  vm_compute in Hrun. inversion Hrun; subst e'. simpl in Ht. subst t.
  discriminate Hn.
Qed.

(** *** CRC checks *)

Section CrcChecks.

Variable W : Type.
Implicit Types (h : SHT3x_Handler_t W) (e : Env W).

(** Temperature first, humidity only after a valid temperature. *)
Lemma ReadSample_crc_order h Sample e Buffer e1 :
  ReadSample_transaction h e = Some (inr Buffer, e1) ->
  forall r1 e2,
    call_CRC h (word16 (byte_at Buffer 0) (byte_at Buffer 1)) (byte_at Buffer 2) e1
    = Some (r1, e2) ->
    (r1 <> 0 ->
     SHT3x_ReadSample h Sample e
     = Some (SHT3x_CRC_ERROR, raw_sample Sample Buffer, e2)) /\
    (r1 = 0 ->
     forall r2 e3,
       call_CRC h (word16 (byte_at Buffer 3) (byte_at Buffer 4)) (byte_at Buffer 5) e2
       = Some (r2, e3) ->
       (r2 <> 0 ->
        SHT3x_ReadSample h Sample e
        = Some (SHT3x_CRC_ERROR, raw_sample Sample Buffer, e3)) /\
       (r2 = 0 ->
        SHT3x_ReadSample h Sample e
        = Some (SHT3x_OK, SHT3x_ConvSample (raw_sample Sample Buffer), e3))).
Proof.
  intros HT r1 e2 H1.
  rewrite (ReadSample_after_transaction W h Sample e Buffer e1 HT).
  cbv zeta. cbn [TempRaw HumRaw]. fold (raw_sample Sample Buffer).
  run_call H1. split.
  - intros Hr. test_nonzero Hr. reflexivity.
  - intros -> r2 e3 H2. cbn [Z.eqb negb]. run_call H2. split.
    + intros Hr. test_nonzero Hr. reflexivity.
    + intros ->. reflexivity.
Qed.

Lemma ReadSample_crc_error_frame h Sample e Sample' e' :
  SHT3x_ReadSample h Sample e = Some (SHT3x_CRC_ERROR, Sample', e') ->
  exists Buffer e1,
    ReadSample_transaction h e = Some (inr Buffer, e1) /\
    Sample' = raw_sample Sample Buffer.
Proof.
  unfold SHT3x_ReadSample, bind at 1.
  destruct (ReadSample_transaction h e) as [[[r | Buffer] e1]|] eqn:HT;
    [| |discriminate].
  - unfold ret. intros H. inversion H; subst.
    destruct (ReadSample_transaction_results W h e _ _ HT) as [? | [? | ?]];
      discriminate.
  - cbv zeta. intros H. exists Buffer, e1. split; [reflexivity|].
    revert H. unfold bind, ret. unfold raw_sample, set_HumRaw, set_TempRaw.
    cbn [TempRaw HumRaw TempCelsius TempFahrenheit HumidityPercent].
    repeat match goal with
           | |- context [match ?x with _ => _ end] => destruct x
           | |- context [if ?b then _ else _] => destruct b
           end;
      intros H; inversion H; reflexivity.
Qed.

Lemma ReadStatus_crc h Status Buffer0 e e1 Buffer e2 :
  call_Send h status_read_cmd 2 e = Some (0, e1) ->
  call_Receive h (status_buffer Buffer0) 3 e1 = Some (0, Buffer, e2) ->
  forall r e3,
    call_CRC h (word16 (byte_at Buffer 0) (byte_at Buffer 1)) (byte_at Buffer 2) e2
    = Some (r, e3) ->
    (r <> 0 ->
     SHT3x_ReadStatus h Status Buffer0 e
     = Some (SHT3x_CRC_ERROR, word16 (byte_at Buffer 0) (byte_at Buffer 1), e3)) /\
    (r = 0 ->
     SHT3x_ReadStatus h Status Buffer0 e
     = Some (SHT3x_OK, word16 (byte_at Buffer 0) (byte_at Buffer 1), e3)).
Proof.
  intros Hs Hr r e3 Hc. destruct Buffer0 as [[i0 i1] i2].
  unfold SHT3x_ReadStatus. fold status_read_cmd.
  change [i0; i1; i2] with (status_buffer (i0, i1, i2)).
  run_call Hs. cbn [Z.eqb negb]. run_call Hr. cbn [Z.eqb negb]. run_call Hc.
  split.
  - intros Hn. test_nonzero Hn. reflexivity.
  - intros ->. reflexivity.
Qed.

Lemma ReadStatus_crc_error_frame h Status Buffer0 e Status' e' :
  SHT3x_ReadStatus h Status Buffer0 e = Some (SHT3x_CRC_ERROR, Status', e') ->
  exists e1 Buffer e2,
    call_Send h status_read_cmd 2 e = Some (0, e1) /\
    call_Receive h (status_buffer Buffer0) 3 e1 = Some (0, Buffer, e2) /\
    Status' = word16 (byte_at Buffer 0) (byte_at Buffer 1).
Proof.
  destruct Buffer0 as [[i0 i1] i2].
  unfold SHT3x_ReadStatus. fold status_read_cmd.
  change [i0; i1; i2] with (status_buffer (i0, i1, i2)).
  unfold bind, ret.
  destruct (call_Send h status_read_cmd 2 e) as [[r1 e1]|] eqn:Hs; [|discriminate].
  destruct (Z.eqb_spec r1 0) as [-> |]; cbn [negb]; [|discriminate].
  destruct (call_Receive h (status_buffer (i0, i1, i2)) 3 e1)
    as [[[r2 Buffer] e2]|] eqn:Hr; [|discriminate].
  destruct (Z.eqb_spec r2 0) as [-> |]; cbn [negb]; [|discriminate].
  destruct (call_CRC h _ _ e2) as [[r3 e3]|]; [|discriminate].
  destruct (r3 =? 0); cbn [negb]; intros H; inversion H; subst.
  exists e1, Buffer, e2. auto.
Qed.

End CrcChecks.

(** Claim C4.  After a transaction that left a buffer, [SHT3x_ReadSample]
    checks the temperature word with byte 2 through the bound CRC function
    and, only when that check passes, the humidity word with byte 5; the
    first check that reports a mismatch makes the call return
    [SHT3x_CRC_ERROR].  Every return of [SHT3x_CRC_ERROR] leaves in the
    sample both raw fields decoded from the buffer and the three
    floating-point fields as they were before the call.  In
    [SHT3x_ReadStatus] a mismatch gives [SHT3x_CRC_ERROR] as well, and every
    such return leaves in [*Status] the 16-bit word decoded from the
    buffer. *)
Theorem crc_error_leaves_decoded_raw_fields :
  (forall (W : Type) (h : SHT3x_Handler_t W) (Sample : SHT3x_Sample_t)
          (e e1 : Env W) (Buffer : list byte),
      ReadSample_transaction h e = Some (inr Buffer, e1) ->
      forall (r1 : Z) (e2 : Env W),
        call_CRC h (word16 (byte_at Buffer 0) (byte_at Buffer 1)) (byte_at Buffer 2) e1
        = Some (r1, e2) ->
        (r1 <> 0 ->
         SHT3x_ReadSample h Sample e
         = Some (SHT3x_CRC_ERROR, raw_sample Sample Buffer, e2)) /\
        (r1 = 0 ->
         forall (r2 : Z) (e3 : Env W),
           call_CRC h (word16 (byte_at Buffer 3) (byte_at Buffer 4)) (byte_at Buffer 5) e2
           = Some (r2, e3) ->
           r2 <> 0 ->
           SHT3x_ReadSample h Sample e
           = Some (SHT3x_CRC_ERROR, raw_sample Sample Buffer, e3))) /\
  (forall (W : Type) (h : SHT3x_Handler_t W) (Sample Sample' : SHT3x_Sample_t)
          (e e' : Env W),
      SHT3x_ReadSample h Sample e = Some (SHT3x_CRC_ERROR, Sample', e') ->
      exists (Buffer : list byte) (e1 : Env W),
        ReadSample_transaction h e = Some (inr Buffer, e1) /\
        TempRaw Sample' = word16 (byte_at Buffer 0) (byte_at Buffer 1) /\
        HumRaw Sample' = word16 (byte_at Buffer 3) (byte_at Buffer 4) /\
        TempCelsius Sample' = TempCelsius Sample /\
        TempFahrenheit Sample' = TempFahrenheit Sample /\
        HumidityPercent Sample' = HumidityPercent Sample) /\
  (forall (W : Type) (h : SHT3x_Handler_t W) (Status : Z)
          (Buffer0 : byte * byte * byte) (e e1 e2 : Env W) (Buffer : list byte),
      call_Send h status_read_cmd 2 e = Some (0, e1) ->
      call_Receive h (status_buffer Buffer0) 3 e1 = Some (0, Buffer, e2) ->
      forall (r : Z) (e3 : Env W),
        call_CRC h (word16 (byte_at Buffer 0) (byte_at Buffer 1)) (byte_at Buffer 2) e2
        = Some (r, e3) ->
        r <> 0 ->
        SHT3x_ReadStatus h Status Buffer0 e
        = Some (SHT3x_CRC_ERROR, word16 (byte_at Buffer 0) (byte_at Buffer 1), e3)) /\
  (forall (W : Type) (h : SHT3x_Handler_t W) (Status Status' : Z)
          (Buffer0 : byte * byte * byte) (e e' : Env W),
      SHT3x_ReadStatus h Status Buffer0 e = Some (SHT3x_CRC_ERROR, Status', e') ->
      exists (e1 : Env W) (Buffer : list byte) (e2 : Env W),
        call_Send h status_read_cmd 2 e = Some (0, e1) /\
        call_Receive h (status_buffer Buffer0) 3 e1 = Some (0, Buffer, e2) /\
        Status' = word16 (byte_at Buffer 0) (byte_at Buffer 1)).
Proof.
  split; [|split; [|split]].
  - intros W h Sample e e1 Buffer HT r1 e2 H1.
    destruct (ReadSample_crc_order W h Sample e Buffer e1 HT r1 e2 H1) as [Ha Hb].
    split; [exact Ha|]. intros Hr r2 e3 H2 Hn.
    exact (proj1 (Hb Hr r2 e3 H2) Hn).
  - intros W h Sample Sample' e e' H.
    destruct (ReadSample_crc_error_frame W h Sample e Sample' e' H)
      as (Buffer & e1 & HT & ->).
    exists Buffer, e1. simpl. auto 10.
  - intros W h Status Buffer0 e e1 e2 Buffer Hs Hr r e3 Hc Hn.
    exact (proj1 (ReadStatus_crc W h Status Buffer0 e e1 Buffer e2 Hs Hr r e3 Hc) Hn).
  - intros W h Status Status' Buffer0 e e' H.
    exact (ReadStatus_crc_error_frame W h Status Buffer0 e Status' e' H).
Qed.

Lemma crc_error_leaves_decoded_raw_fields_witness :
  SHT3x_ReadSample
    (sim_handler SHT3x_MODE_PERIODIC SHT3x_REPEATABILITY_HIGH
                 send_ok receive_measurement (sim_crc (-1)))
    sample0 env0
  = Some (SHT3x_CRC_ERROR,
          raw_sample sample0 [x66; x2e; xff; x7d; x13; xff],
          mkEnv 1%nat
            [EvSend x44 [xe0; x00] 2 0;
             EvReceive x44 6 0 [x66; x2e; xff; x7d; x13; xff];
             EvCRC 26158 xff (-1)]) /\
  SHT3x_ReadStatus
    (sim_handler SHT3x_MODE_PERIODIC SHT3x_REPEATABILITY_HIGH
                 send_ok receive_status (sim_crc (-1)))
    0 (x00, x00, x00) env0
  = Some (SHT3x_CRC_ERROR, 32784,
          mkEnv 1%nat
            [EvSend x44 [xf3; x2d] 2 0;
             EvReceive x44 3 0 [x80; x10; xe1];
             EvCRC 32784 xe1 (-1)]).
Proof.
  destruct crc_error_leaves_decoded_raw_fields as (Hsample & _ & Hstatus & _).
  split.
  - refine (proj1 (Hsample nat
                     (sim_handler SHT3x_MODE_PERIODIC SHT3x_REPEATABILITY_HIGH
                                  send_ok receive_measurement (sim_crc (-1)))
                     sample0 env0
                     (mkEnv 1%nat
                        [EvSend x44 [xe0; x00] 2 0;
                         EvReceive x44 6 0 [x66; x2e; xff; x7d; x13; xff]])
                     [x66; x2e; xff; x7d; x13; xff] eq_refl (-1) _ eq_refl) _).
    discriminate.
  - refine (Hstatus nat
              (sim_handler SHT3x_MODE_PERIODIC SHT3x_REPEATABILITY_HIGH
                           send_ok receive_status (sim_crc (-1)))
              0 (x00, x00, x00) env0
              (mkEnv 1%nat [EvSend x44 [xf3; x2d] 2 0])
              (mkEnv 1%nat [EvSend x44 [xf3; x2d] 2 0;
                            EvReceive x44 3 0 [x80; x10; xe1]])
              [x80; x10; xe1] eq_refl eq_refl (-1) _ eq_refl _).
    discriminate.
Defined.

(** ** Mode configuration: the command sent and the handler fields *)

Section ModeProperties.

Variable W : Type.
Implicit Types (h : SHT3x_Handler_t W) (e : Env W).

(** A send followed by the test of its result and, on success, the update of
    the handler: the shape of the three mode functions. *)
Lemma send_then_update h (cmd : list byte) (h2 : SHT3x_Handler_t W) e r h' e' :
  (r0 <- call_Send h cmd 2;;
   if negb (r0 =? 0) then ret (SHT3x_FAIL, h) else ret (SHT3x_OK, h2)) e
  = Some (r, h', e') ->
  (r = SHT3x_FAIL /\ h' = h) \/
  (r = SHT3x_OK /\ h' = h2 /\
   trace e' = trace e ++ [EvSend (AddressI2C h) cmd 2 0]).
Proof.
  unfold bind, ret.
  destruct (call_Send h cmd 2 e) as [[r0 e1]|] eqn:Hs; [|discriminate].
  pose proof (call_Send_trace W _ _ _ _ _ _ Hs) as T.
  destruct (Z.eqb_spec r0 0) as [-> |]; cbn [negb]; intros H; inversion H; subst.
  - right. auto.
  - left. auto.
Qed.

Lemma array_get_outside (a : list byte) (i : Z) :
  ~ 0 <= i < Z.of_nat (length a) -> array_get a i = None.
Proof.
  intros H. unfold array_get. destruct (Z.ltb_spec i 0); [reflexivity|].
  apply nth_error_None. lia.
Qed.

(** A speed of the enumeration with a repeatability outside it: line 279
    reads [ComandPeriodicLSB] outside its three bytes. *)
Lemma SetModePeriodic_repeatability_outside h Speed Repeatability e :
  0 <= Speed <= 4 -> ~ 0 <= Repeatability <= 2 ->
  SHT3x_SetModePeriodic h Speed Repeatability e = None.
Proof.
  intros HS HR.
  assert (Speed = 0 \/ Speed = 1 \/ Speed = 2 \/ Speed = 3 \/ Speed = 4)
    as [-> | [-> | [-> | [-> | ->]]]] by lia;
    unfold SHT3x_SetModePeriodic; cbn -[array_get];
    rewrite (array_get_outside _ Repeatability) by (simpl; lia);
    destruct (array_get _ _); reflexivity.
Qed.

Lemma SetModePeriodic_outcome h Speed Repeatability e r h' e' :
  SHT3x_SetModePeriodic h Speed Repeatability e = Some (r, h', e') ->
  (r <> SHT3x_OK /\ h' = h) \/
  (r = SHT3x_OK /\ exists cmd, trace e' = trace e ++ [EvSend (AddressI2C h) cmd 2 0]).
Proof.
  intros H.
  destruct (Z_le_dec 0 Speed) as [HS0|HS0];
    [destruct (Z_le_dec Speed 4) as [HS4|HS4]|].
  - destruct (Z_le_dec 0 Repeatability) as [HR0|HR0];
      [destruct (Z_le_dec Repeatability 2) as [HR2|HR2]|].
    + destruct (SetModePeriodic_valid W h Speed Repeatability e
                  (conj HS0 HS4) (conj HR0 HR2)) as (msb & lsb & _ & Heq).
      rewrite Heq in H.
      destruct (send_then_update _ _ _ _ _ _ _ H) as [[-> ->] | (-> & _ & T)].
      * left. split; [discriminate|reflexivity].
      * right. split; [reflexivity|]. eauto.
    + rewrite SetModePeriodic_repeatability_outside in H by lia. discriminate.
    + rewrite SetModePeriodic_repeatability_outside in H by lia. discriminate.
  - rewrite SetModePeriodic_invalid_speed in H by lia.
    inversion H; subst. left. split; [discriminate|reflexivity].
  - rewrite SetModePeriodic_invalid_speed in H by lia.
    inversion H; subst. left. split; [discriminate|reflexivity].
Qed.

End ModeProperties.

(** Claim C7.  For each of the three mode functions, when the send of its
    2-byte command reports a failure the function returns [SHT3x_FAIL] and
    the handler is the one before the call, whatever its fields; and whenever
    one of them returns a handler that differs from the one before the call,
    it returns [SHT3x_OK] after a send that reported success. *)
Theorem SetMode_send_failure_keeps_handler :
  forall (W : Type) (h : SHT3x_Handler_t W) (e : Env W),
    (forall (Repeatability r : Z) (e1 : Env W),
        call_Send h stop_periodic_cmd 2 e = Some (r, e1) -> r <> 0 ->
        SHT3x_SetModeSingleShot h Repeatability e = Some (SHT3x_FAIL, h, e1)) /\
    (forall Speed Repeatability : Z,
        0 <= Speed <= 4 -> 0 <= Repeatability <= 2 ->
        exists msb lsb : byte,
          documented_periodic_command Speed Repeatability = Some (msb, lsb) /\
          forall (r : Z) (e1 : Env W),
            call_Send h [msb; lsb] 2 e = Some (r, e1) -> r <> 0 ->
            SHT3x_SetModePeriodic h Speed Repeatability e = Some (SHT3x_FAIL, h, e1)) /\
    (forall (r : Z) (e1 : Env W),
        call_Send h art_cmd 2 e = Some (r, e1) -> r <> 0 ->
        SHT3x_SetModeART h e = Some (SHT3x_FAIL, h, e1)) /\
    (forall (Speed Repeatability : Z) (r : SHT3x_Result_t)
            (h' : SHT3x_Handler_t W) (e' : Env W),
        SHT3x_SetModeSingleShot h Repeatability e = Some (r, h', e') \/
        SHT3x_SetModePeriodic h Speed Repeatability e = Some (r, h', e') \/
        SHT3x_SetModeART h e = Some (r, h', e') ->
        (r <> SHT3x_OK /\ h' = h) \/
        (r = SHT3x_OK /\
         exists cmd, trace e' = trace e ++ [EvSend (AddressI2C h) cmd 2 0])).
Proof.
  intros W h e. split; [|split; [|split]].
  - intros Repeatability r e1 Hs Hr.
    exact (SetModeSingleShot_send_fails W h Repeatability e r e1 Hs Hr).
  - intros Speed Repeatability HS HR.
    destruct (SetModePeriodic_valid W h Speed Repeatability e HS HR)
      as (msb & lsb & Hdoc & Heq).
    exists msb, lsb. split; [exact Hdoc|].
    intros r e1 Hs Hr. rewrite Heq. run_call Hs. test_nonzero Hr. reflexivity.
  - intros r e1 Hs Hr. exact (SetModeART_send_fails W h e r e1 Hs Hr).
  - intros Speed Repeatability r h' e' [H | [H | H]].
    + destruct (send_then_update W _ _ _ _ _ _ _ H) as [[-> ->] | (-> & _ & T)].
      * left. split; [discriminate|reflexivity].
      * right. split; [reflexivity|]. eauto.
    + exact (SetModePeriodic_outcome W h Speed Repeatability e r h' e' H).
    + destruct (send_then_update W _ _ _ _ _ _ _ H) as [[-> ->] | (-> & _ & T)].
      * left. split; [discriminate|reflexivity].
      * right. split; [reflexivity|]. eauto.
Qed.

Lemma SetMode_send_failure_keeps_handler_witness :
  SHT3x_SetModeSingleShot
    (sim_handler SHT3x_MODE_PERIODIC SHT3x_REPEATABILITY_HIGH
                 send_fails receive_measurement (sim_crc 0))
    SHT3x_REPEATABILITY_LOW env0
  = Some (SHT3x_FAIL,
          sim_handler SHT3x_MODE_PERIODIC SHT3x_REPEATABILITY_HIGH
                      send_fails receive_measurement (sim_crc 0),
          mkEnv 1%nat [EvSend x44 [x30; x93] 2 (-1)]) /\
  SHT3x_SetModeART
    (sim_handler SHT3x_MODE_PERIODIC SHT3x_REPEATABILITY_HIGH
                 send_fails receive_measurement (sim_crc 0))
    env0
  = Some (SHT3x_FAIL,
          sim_handler SHT3x_MODE_PERIODIC SHT3x_REPEATABILITY_HIGH
                      send_fails receive_measurement (sim_crc 0),
          mkEnv 1%nat [EvSend x44 [x2b; x32] 2 (-1)]).
Proof.
  destruct (SetMode_send_failure_keeps_handler nat
              (sim_handler SHT3x_MODE_PERIODIC SHT3x_REPEATABILITY_HIGH
                           send_fails receive_measurement (sim_crc 0))
              env0)
    as (Hsingle & _ & Hart & _).
  split.
  - refine (Hsingle SHT3x_REPEATABILITY_LOW (-1) _ eq_refl _). discriminate.
  - refine (Hart (-1) _ eq_refl _). discriminate.
Defined.

Lemma periodic_command_words_distinct :
  NoDup (map (fun entry => command_word (snd entry)) periodic_command_table).
Proof.
  vm_compute.
  repeat (constructor; [cbv; intuition discriminate|]). constructor.
Qed.

Lemma periodic_command_keys_distinct :
  NoDup (map fst periodic_command_table).
Proof.
  vm_compute.
  repeat (constructor; [cbv; intuition discriminate|]). constructor.
Qed.

(** Claim C1.  For each of the five speeds and three repeatabilities,
    [SHT3x_SetModePeriodic] makes one send, of 2 bytes, the MSB then the LSB
    of the table's command for that pair.  When the send reports success the
    function returns [SHT3x_OK] with a handler whose mode is Periodic, whose
    speed and repeatability are the two arguments, and whose address and
    six function pointers are the ones before the call; a failed send gives
    [SHT3x_FAIL] and the handler as it was.  The table has fifteen entries,
    one per pair, with fifteen different command words; 4 mps with high
    repeatability is [23 34]. *)
Theorem SetModePeriodic_sends_table_command :
  (forall (W : Type) (h : SHT3x_Handler_t W) (Speed Repeatability : Z) (e : Env W),
      PlatformSend h <> None ->
      0 <= Speed <= 4 -> 0 <= Repeatability <= 2 ->
      exists (msb lsb : byte) (r : Z) (e1 : Env W),
        documented_periodic_command Speed Repeatability = Some (msb, lsb) /\
        call_Send h [msb; lsb] 2 e = Some (r, e1) /\
        trace e1 = trace e ++ [EvSend (AddressI2C h) [msb; lsb] 2 r] /\
        (r = 0 ->
         exists h' : SHT3x_Handler_t W,
           SHT3x_SetModePeriodic h Speed Repeatability e = Some (SHT3x_OK, h', e1) /\
           configuration h' = (SHT3x_MODE_PERIODIC, Speed, Repeatability) /\
           AddressI2C h' = AddressI2C h /\
           same_platform h h' /\
           h' = set_Repeatability
                  (set_Speed (set_Mode h SHT3x_MODE_PERIODIC) Speed) Repeatability) /\
        (r <> 0 ->
         SHT3x_SetModePeriodic h Speed Repeatability e = Some (SHT3x_FAIL, h, e1))) /\
  length periodic_command_table = 15%nat /\
  NoDup (map fst periodic_command_table) /\
  NoDup (map (fun entry => command_word (snd entry)) periodic_command_table) /\
  documented_periodic_command SHT3x_SPEED_4MPS SHT3x_REPEATABILITY_HIGH
  = Some (x23, x34) /\
  command_word (x23, x34) = 0x2334.
Proof.
  split; [|split; [reflexivity|split; [exact periodic_command_keys_distinct|
    split; [exact periodic_command_words_distinct|split; reflexivity]]]].
  intros W h Speed Repeatability e Hb HS HR.
  destruct (SetModePeriodic_valid W h Speed Repeatability e HS HR)
    as (msb & lsb & Hdoc & Heq).
  destruct (call_Send_bound W h [msb; lsb] 2 e Hb) as (r & e1 & Hs).
  exists msb, lsb, r, e1. split; [exact Hdoc|]. split; [exact Hs|].
  split; [exact (call_Send_trace W _ _ _ _ _ _ Hs)|]. split.
  - intros ->. eexists. split; [rewrite Heq; run_call Hs; reflexivity|].
    unfold same_platform, configuration. cbn. repeat split; reflexivity.
  - intros Hr. rewrite Heq. run_call Hs. test_nonzero Hr. reflexivity.
Qed.

Lemma SetModePeriodic_sends_table_command_witness :
  exists (msb lsb : byte) (r : Z) (e1 : Env nat),
    documented_periodic_command SHT3x_SPEED_4MPS SHT3x_REPEATABILITY_HIGH
    = Some (msb, lsb) /\
    call_Send (sim_handler SHT3x_MODE_SINGLESHOT SHT3x_REPEATABILITY_LOW
                           send_ok receive_measurement (sim_crc 0))
              [msb; lsb] 2 env0
    = Some (r, e1) /\
    trace e1 = trace env0 ++ [EvSend x44 [msb; lsb] 2 r] /\
    exists h' : SHT3x_Handler_t nat,
      SHT3x_SetModePeriodic
        (sim_handler SHT3x_MODE_SINGLESHOT SHT3x_REPEATABILITY_LOW
                     send_ok receive_measurement (sim_crc 0))
        SHT3x_SPEED_4MPS SHT3x_REPEATABILITY_HIGH env0
      = Some (SHT3x_OK, h', e1) /\
      configuration h'
      = (SHT3x_MODE_PERIODIC, SHT3x_SPEED_4MPS, SHT3x_REPEATABILITY_HIGH) /\
      Mode h' = SHT3x_MODE_PERIODIC /\
      Speed h' = SHT3x_SPEED_4MPS /\
      Repeatability h' = SHT3x_REPEATABILITY_HIGH /\
      AddressI2C h' = x44.
Proof.
  destruct (proj1 SetModePeriodic_sends_table_command nat
              (sim_handler SHT3x_MODE_SINGLESHOT SHT3x_REPEATABILITY_LOW
                           send_ok receive_measurement (sim_crc 0))
              SHT3x_SPEED_4MPS SHT3x_REPEATABILITY_HIGH env0)
    as (msb & lsb & r & e1 & Hdoc & Hs & Ht & Hok & _).
  - discriminate.
  - unfold SHT3x_SPEED_4MPS. lia.
  - unfold SHT3x_REPEATABILITY_HIGH. lia.
  - exists msb, lsb, r, e1. split; [exact Hdoc|]. split; [exact Hs|].
    split; [exact Ht|].
    assert (r = 0) as Hr.
    { injection Hdoc as <- <-. vm_compute in Hs. injection Hs as <- _. reflexivity. }
    destruct (Hok Hr) as (h' & Hrun & Hcfg & HA & _).
    exists h'. split; [exact Hrun|]. split; [exact Hcfg|].
    unfold configuration in Hcfg. injection Hcfg as HM HSp HRp.
    repeat split; assumption.
Defined.

(** The send of the scenario: 4 mps, high repeatability. *)
Example SetModePeriodic_4mps_high :
  SHT3x_SetModePeriodic
    (sim_handler SHT3x_MODE_SINGLESHOT SHT3x_REPEATABILITY_LOW
                 send_ok receive_measurement (sim_crc 0))
    SHT3x_SPEED_4MPS SHT3x_REPEATABILITY_HIGH env0
  = Some (SHT3x_OK,
          set_Repeatability
            (set_Speed
               (sim_handler SHT3x_MODE_PERIODIC SHT3x_REPEATABILITY_LOW
                            send_ok receive_measurement (sim_crc 0))
               SHT3x_SPEED_4MPS)
            SHT3x_REPEATABILITY_HIGH,
          mkEnv 1%nat [EvSend x44 [x23; x34] 2 0]).
Proof. reflexivity. Qed.

(** Claim C6 does not hold of the code.  [SHT3x_SetModeSingleShot] has no
    test of its argument: with repeatability 3 it sends the stop command,
    stores 3 in the handler and returns [SHT3x_OK].  [SHT3x_SetModePeriodic]
    tests the speed only: with speed 0.5 mps and repeatability 3 it reads
    [ComandPeriodicLSB[3]], outside the array, and has no defined result. *)
Theorem SetMode_accepts_repeatability_3 :
  SHT3x_SetModeSingleShot
    (sim_handler SHT3x_MODE_PERIODIC SHT3x_REPEATABILITY_HIGH
                 send_ok receive_measurement (sim_crc 0))
    3 env0
  = Some (SHT3x_OK,
          sim_handler SHT3x_MODE_SINGLESHOT 3 send_ok receive_measurement (sim_crc 0),
          mkEnv 1%nat [EvSend x44 [x30; x93] 2 0]) /\
  SHT3x_SetModePeriodic
    (sim_handler SHT3x_MODE_SINGLESHOT SHT3x_REPEATABILITY_LOW
                 send_ok receive_measurement (sim_crc 0))
    SHT3x_SPEED_05MPS 3 env0
  = None.
Proof. split; reflexivity. Qed.

(** ** Initialisation *)

Section Initialisation.

Variable W : Type.
Implicit Types (h : SHT3x_Handler_t W) (e : Env W).

(** What a successful run of lines 442-451 did: the stop command went out
    with some result [r0], the soft reset went out and was accepted, the
    2 ms delay followed; the mode and repeatability are the baseline only
    when the stop command was accepted too. *)
Lemma Init_reset_ok h e h' e' :
  Init_reset h e = Some (SHT3x_OK, h', e') ->
  exists r0,
    trace e' = trace e ++ [EvSend (AddressI2C h) stop_periodic_cmd 2 r0;
                           EvSend (AddressI2C h) soft_reset_cmd 2 0;
                           EvDelay 2] /\
    (r0 = 0 ->
     h' = set_Repeatability (set_Mode h SHT3x_MODE_SINGLESHOT) SHT3x_REPEATABILITY_LOW) /\
    (r0 <> 0 -> h' = h).
Proof.
  unfold Init_reset, SHT3x_SetModeSingleShot.
  fold stop_periodic_cmd soft_reset_cmd. unfold bind at 1 2.
  destruct (call_Send h stop_periodic_cmd 2 e) as [[r0 e1]|] eqn:H0; [|discriminate].
  pose proof (call_Send_trace W _ _ _ _ _ _ H0) as T0.
  destruct (Z.eqb_spec r0 0) as [-> | Hr0]; cbn [negb]; unfold ret at 1;
    cbv beta iota zeta; unfold bind at 1.
  - set (h1 := set_Repeatability (set_Mode h SHT3x_MODE_SINGLESHOT)
                                 SHT3x_REPEATABILITY_LOW).
    destruct (call_Send h1 soft_reset_cmd 2 e1) as [[r1 e2]|] eqn:H1; [|discriminate].
    pose proof (call_Send_trace W _ _ _ _ _ _ H1) as T1.
    destruct (Z.eqb_spec r1 0) as [-> | Hr1]; cbn [negb]; [|discriminate].
    unfold bind, ret.
    destruct (call_Delay h1 2 e2) as [[u e3]|] eqn:H2; [|discriminate].
    pose proof (call_Delay_trace W _ _ _ _ _ H2) as T2.
    intros H. inversion H; subst h' e'. exists 0.
    split; [|split; [reflexivity|intros; congruence]].
    rewrite T2, T1, T0, <- !app_assoc. reflexivity.
  - destruct (call_Send h soft_reset_cmd 2 e1) as [[r1 e2]|] eqn:H1; [|discriminate].
    pose proof (call_Send_trace W _ _ _ _ _ _ H1) as T1.
    destruct (Z.eqb_spec r1 0) as [-> | Hr1]; cbn [negb]; [|discriminate].
    unfold bind, ret.
    destruct (call_Delay h 2 e2) as [[u e3]|] eqn:H2; [|discriminate].
    pose proof (call_Delay_trace W _ _ _ _ _ H2) as T2.
    intros H. inversion H; subst h' e'. exists r0.
    split; [|split; [intros; congruence|reflexivity]].
    rewrite T2, T1, T0, <- !app_assoc. reflexivity.
Qed.

(** Whenever [SHT3x_Init] returns [SHT3x_OK], the soft reset [30 a2] was sent
    and accepted and a delay of 2 ms followed it; the handler holds single
    shot and Low when the stop command before the reset was accepted
    ([r0 = 0]). *)
Lemma Init_ok h Address e h' e' :
  SHT3x_Init h Address e = Some (SHT3x_OK, h', e') ->
  exists t r0,
    trace e' = trace e ++ t ++ [EvSend (AddressI2C h') [x30; x93] 2 r0;
                                EvSend (AddressI2C h') [x30; xa2] 2 0;
                                EvDelay 2] /\
    (r0 = 0 ->
     Mode h' = SHT3x_MODE_SINGLESHOT /\ Repeatability h' = SHT3x_REPEATABILITY_LOW) /\
    (r0 <> 0 -> Mode h' = Mode h /\ Repeatability h' = Repeatability h).
Proof.
  unfold SHT3x_Init.
  destruct (SHT3x_SetAddressI2C h Address) as [r ha] eqn:HA.
  assert (Mode ha = Mode h /\ Repeatability ha = Repeatability h) as [HM HR].
  { revert HA. unfold SHT3x_SetAddressI2C.
    repeat match goal with
           | |- context [if ?b then _ else _] => destruct b
           end; intros HA; inversion HA; auto. }
  destruct (PlatformSend ha); [|discriminate].
  destruct (PlatformReceive ha); [|discriminate].
  destruct (PlatformDelay ha); [|discriminate].
  set (hc := match PlatformCRC ha with
             | Some _ => ha
             | None => set_PlatformCRC ha (Some SHT3x_CheckCRC)
             end).
  assert (Mode hc = Mode h /\ Repeatability hc = Repeatability h) as [HMc HRc].
  { unfold hc. destruct (PlatformCRC ha); simpl; auto. }
  assert (forall e0,
             Init_reset hc e0 = Some (SHT3x_OK, h', e') ->
             exists r0,
               trace e' = trace e0 ++ [EvSend (AddressI2C h') [x30; x93] 2 r0;
                                       EvSend (AddressI2C h') [x30; xa2] 2 0;
                                       EvDelay 2] /\
               (r0 = 0 ->
                Mode h' = SHT3x_MODE_SINGLESHOT /\
                Repeatability h' = SHT3x_REPEATABILITY_LOW) /\
               (r0 <> 0 -> Mode h' = Mode h /\ Repeatability h' = Repeatability h))
    as Hreset.
  { intros e0 H. destruct (Init_reset_ok hc e0 h' e' H) as (r0 & T & Hok & Hko).
    exists r0.
    assert (AddressI2C h' = AddressI2C hc) as ->.
    { destruct (Z.eq_dec r0 0) as [E|E];
        [rewrite (Hok E)|rewrite (Hko E)]; reflexivity. }
    split; [exact T|]. split.
    - intros E. rewrite (Hok E). split; reflexivity.
    - intros E. rewrite (Hko E). auto. }
  destruct (PlatformInit hc) as [f|].
  - unfold bind, call_InitDeinit.
    destruct (f (world e)) as [ri w1].
    destruct (ri =? 0); cbn [negb]; [|discriminate].
    intros H. destruct (Hreset _ H) as (r0 & T & Hok & Hko).
    exists [EvInit ri], r0. split; [|split; assumption].
    rewrite T. simpl. rewrite <- app_assoc. reflexivity.
  - intros H. destruct (Hreset _ H) as (r0 & T & Hok & Hko).
    exists [], r0. split; [|split; assumption]. exact T.
Qed.

End Initialisation.

(** Claim C9 does not hold of the code.  The handler below is in periodic
    mode with high repeatability; its first send, the stop command of
    [SHT3x_SetModeSingleShot], is refused, so that function returns
    [SHT3x_FAIL] and leaves the handler alone; [SHT3x_Init] drops that
    result (line 442), sends the soft reset, which is accepted, waits 2 ms
    and returns [SHT3x_OK] with the handler still in periodic mode and high
    repeatability. *)
Theorem Init_ok_with_stale_mode :
  SHT3x_Init
    (sim_handler SHT3x_MODE_PERIODIC SHT3x_REPEATABILITY_HIGH
                 send_fails_once receive_measurement (sim_crc 0))
    x00 env0
  = Some (SHT3x_OK,
          sim_handler SHT3x_MODE_PERIODIC SHT3x_REPEATABILITY_HIGH
                      send_fails_once receive_measurement (sim_crc 0),
          mkEnv 2%nat
            [EvSend x44 [x30; x93] 2 (-1); EvSend x44 [x30; xa2] 2 0; EvDelay 2]).
Proof. reflexivity. Qed.

(** ** Conversion of the raw counts *)

Lemma close_to_b_sound (x : CFloat.float) (q : Q) :
  close_to_b x q = true -> close_to x q.
Proof.
  unfold close_to_b, close_to. destruct (CFloat.to_Q x) as [v|]; [|discriminate].
  intros H. exists v. split; [reflexivity|]. now apply Qle_bool_iff.
Qed.

Lemma all_from_spec (f : Z -> bool) (step : Z) (n : nat) :
  forall z, all_from f z step n = true ->
  forall k, 0 <= k < Z.of_nat n -> f (z + step * k) = true.
Proof.
  induction n as [|n IH]; intros z H k Hk; [lia|].
  simpl in H. apply andb_prop in H. destruct H as [Hz Hrest].
  destruct (Z.eq_dec k 0) as [-> | Hk0].
  - replace (z + step * 0) with z by lia. exact Hz.
  - replace (z + step * k) with ((z + step) + step * (k - 1)) by lia.
    apply IH; [exact Hrest|lia].
Qed.

(** The conversion reads the two raw fields only. *)
Lemma ConvSample_reads_raw_only (T_raw H_raw : Z) (c f p c' f' p' : CFloat.float) :
  SHT3x_ConvSample (mkSample T_raw H_raw c f p)
  = SHT3x_ConvSample (mkSample T_raw H_raw c' f' p').
Proof. reflexivity. Qed.

Lemma conversion_close_b_sound (s : SHT3x_Sample_t) :
  conversion_close_b (TempRaw s) (HumRaw s) = true -> conversion_close s.
Proof.
  destruct s as [T H c f p]. unfold conversion_close_b, conversion_close.
  cbn [TempRaw HumRaw].
  rewrite (ConvSample_reads_raw_only T H c f p
             (S754_zero false) (S754_zero false) (S754_zero false)).
  intros E. apply andb_prop in E. destruct E as [E E3].
  apply andb_prop in E. destruct E as [E1 E2].
  auto using close_to_b_sound.
Qed.

Lemma conversion_grid_check :
  all_from (fun n => conversion_close_b n n) 0 257 256 = true.
Proof. vm_compute. reflexivity. Qed.

(** Claim C5.  [SHT3x_ConvSample] is a function of the two raw counts: it
    keeps them, and each derived field is the floating-point evaluation of
    its formula on one raw count, the temperature quotient rounded to
    [float] before it is scaled, the humidity computed in [double] and
    rounded to [float] at the end.  Raw count 0 gives exactly -45, -49 and 0;
    raw count 65535 gives exactly 130, 266 and 100.  At each of the 256 raw
    counts [257 * k], which run from 0 to 65535, the three fields are
    finite and within [2^-15] of the exact value of
    [T_raw / 65535 * 175 - 45], [T_raw / 65535 * 315 - 49] and
    [H_raw / 65535 * 100]. *)
Theorem ConvSample_transfer_functions :
  (forall (T_raw H_raw : Z) (c f p : CFloat.float),
      let s := SHT3x_ConvSample (mkSample T_raw H_raw c f p) in
      TempRaw s = T_raw /\ HumRaw s = H_raw /\
      TempCelsius s
      = CFloat.fsub
          (CFloat.fmul
             (CFloat.float_of_double
                (CFloat.ddiv (CFloat.double_of_int T_raw) c_65535_0))
             (CFloat.float_of_int 175))
          (CFloat.float_of_int 45) /\
      TempFahrenheit s
      = CFloat.fsub
          (CFloat.fmul
             (CFloat.float_of_double
                (CFloat.ddiv (CFloat.double_of_int T_raw) c_65535_0))
             (CFloat.float_of_int 315))
          (CFloat.float_of_int 49) /\
      HumidityPercent s
      = CFloat.float_of_double
          (CFloat.dmul (CFloat.ddiv (CFloat.double_of_int H_raw) c_65535_0)
                       (CFloat.double_of_int 100))) /\
  (forall c f p : CFloat.float,
      SHT3x_ConvSample (mkSample 0 0 c f p)
      = mkSample 0 0 (CFloat.float_of_int (-45)) (CFloat.float_of_int (-49))
                 (CFloat.float_of_int 0)) /\
  (forall c f p : CFloat.float,
      SHT3x_ConvSample (mkSample 65535 65535 c f p)
      = mkSample 65535 65535 (CFloat.float_of_int 130) (CFloat.float_of_int 266)
                 (CFloat.float_of_int 100)) /\
  (forall (k : Z) (c f p : CFloat.float),
      0 <= k <= 255 ->
      conversion_close (mkSample (257 * k) (257 * k) c f p)).
Proof.
  split; [|split; [|split]].
  - intros T_raw H_raw c f p. cbv zeta. repeat split; reflexivity.
  - intros c f p. vm_compute. reflexivity.
  - intros c f p. vm_compute. reflexivity.
  - intros k c f p Hk. apply conversion_close_b_sound. cbn [TempRaw HumRaw].
    pose proof (all_from_spec _ 257 256 0 conversion_grid_check k) as H.
    cbn beta in H. replace (0 + 257 * k) with (257 * k) in H by lia.
    apply H. lia.
Qed.

Lemma ConvSample_transfer_functions_witness :
  conversion_close
    (mkSample (257 * 102) (257 * 102)
              (S754_zero false) (S754_zero false) (S754_zero false)).
Proof.
  apply (proj2 (proj2 (proj2 ConvSample_transfer_functions)) 102).
  lia.
Defined.

(** The values the endpoints stand for. *)
Example endpoint_values :
  option_map Qred (CFloat.to_Q (CFloat.float_of_int (-45))) = Some (inject_Z (-45)) /\
  option_map Qred (CFloat.to_Q (CFloat.float_of_int (-49))) = Some (inject_Z (-49)) /\
  option_map Qred (CFloat.to_Q (CFloat.float_of_int 0)) = Some (inject_Z 0) /\
  option_map Qred (CFloat.to_Q (CFloat.float_of_int 130)) = Some (inject_Z 130) /\
  option_map Qred (CFloat.to_Q (CFloat.float_of_int 266)) = Some (inject_Z 266) /\
  option_map Qred (CFloat.to_Q (CFloat.float_of_int 100)) = Some (inject_Z 100).
Proof. vm_compute. repeat split; reflexivity. Qed.

(** * Further properties of the driver *)

(** ** Bus address *)

Lemma byte_val_range (b : byte) : 0 <= byte_val b <= 255.
Proof.
  unfold byte_val. pose proof (Byte.to_N_bounded b). lia.
Qed.

(** The value of [SHT3x_SetAddressI2C] by cases on the selector. *)
Lemma SetAddressI2C_cases (W : Type) (h : SHT3x_Handler_t W) (Address : byte) :
  ((Address = x00 \/ Address = x44 \/ Address = x88) /\
   SHT3x_SetAddressI2C h Address = (SHT3x_OK, set_AddressI2C h x44)) \/
  ((Address = x01 \/ Address = x45 \/ Address = x8a) /\
   SHT3x_SetAddressI2C h Address = (SHT3x_OK, set_AddressI2C h x45)) \/
  (Address <> x00 /\ Address <> x44 /\ Address <> x88 /\
   Address <> x01 /\ Address <> x45 /\ Address <> x8a /\
   SHT3x_SetAddressI2C h Address = (SHT3x_OK, h)).
Proof.
  unfold SHT3x_SetAddressI2C, SHT3X_I2C_ADDRESS_A, SHT3X_I2C_ADDRESS_B.
  destruct (byte_eqb_spec Address x00) as [-> | N0]; [left; auto|].
  destruct (byte_eqb_spec Address x44) as [-> | N1]; [left; auto|].
  destruct (byte_eqb_spec Address x88) as [-> | N2]; [left; auto|].
  destruct (byte_eqb_spec Address x01) as [-> | N3]; [right; left; auto|].
  destruct (byte_eqb_spec Address x45) as [-> | N4]; [right; left; auto|].
  destruct (byte_eqb_spec Address x8a) as [-> | N5]; [right; left; auto|].
  right; right. cbn [orb]. auto 10.
Qed.

(** [SHT3x_SetAddressI2C] always returns [SHT3x_OK] and touches no field but
    the address.  It accepts each of the two addresses under three
    encodings: the selector (0 or 1), the 7-bit address (0x44 or 0x45) and
    the address shifted left by one for the bus (0x88 or 0x8a).  Any other
    value is ignored: the handler stays as it was.  A valid address stays
    valid, and setting the address the handler already has changes
    nothing. *)
Theorem SetAddressI2C_resolution :
  forall (W : Type) (h : SHT3x_Handler_t W) (Address : byte),
    fst (SHT3x_SetAddressI2C h Address) = SHT3x_OK /\
    (Address = x00 \/ Address = x44 \/ Address = x88 ->
     snd (SHT3x_SetAddressI2C h Address) = set_AddressI2C h x44) /\
    (Address = x01 \/ Address = x45 \/ Address = x8a ->
     snd (SHT3x_SetAddressI2C h Address) = set_AddressI2C h x45) /\
    (Address <> x00 -> Address <> x44 -> Address <> x88 ->
     Address <> x01 -> Address <> x45 -> Address <> x8a ->
     snd (SHT3x_SetAddressI2C h Address) = h) /\
    (valid_address (AddressI2C h) ->
     valid_address (AddressI2C (snd (SHT3x_SetAddressI2C h Address))) /\
     snd (SHT3x_SetAddressI2C h (AddressI2C h)) = h) /\
    (forall a b : byte,
        valid_address a -> byte_val b = shift_address a ->
        AddressI2C (snd (SHT3x_SetAddressI2C h b)) = a).
Proof.
  intros W h Address.
  destruct (SetAddressI2C_cases W h Address)
    as [[HA E] | [[HA E] | (N0 & N1 & N2 & N3 & N4 & N5 & E)]];
    rewrite E; cbn [fst snd].
  - split; [reflexivity|]. split; [reflexivity|].
    split; [intros [-> | [-> | ->]]; destruct HA as [H | [H | H]]; discriminate H|].
    split; [intros; tauto|]. split.
    + intros Hv. split; [left; reflexivity|].
      destruct h; cbn in *. destruct Hv as [-> | ->]; reflexivity.
    + intros a b [-> | ->] Hb; destruct b; try discriminate Hb; reflexivity.
  - split; [reflexivity|].
    split; [intros [-> | [-> | ->]]; destruct HA as [H | [H | H]]; discriminate H|].
    split; [reflexivity|]. split; [intros; tauto|]. split.
    + intros Hv. split; [right; reflexivity|].
      destruct h; cbn in *. destruct Hv as [-> | ->]; reflexivity.
    + intros a b [-> | ->] Hb; destruct b; try discriminate Hb; reflexivity.
  - split; [reflexivity|]. split; [intros; tauto|]. split; [intros; tauto|].
    split; [reflexivity|]. split.
    + intros Hv. split; [exact Hv|].
      destruct h; cbn in *. destruct Hv as [-> | ->]; reflexivity.
    + intros a b [-> | ->] Hb; destruct b; try discriminate Hb; reflexivity.
Qed.

Lemma SetAddressI2C_resolution_witness :
  snd (SHT3x_SetAddressI2C zero_handler x88) = set_AddressI2C zero_handler x44 /\
  snd (SHT3x_SetAddressI2C zero_handler x02) = zero_handler /\
  AddressI2C (snd (SHT3x_SetAddressI2C zero_handler x8a)) = x45.
Proof.
  destruct (SetAddressI2C_resolution nat zero_handler x88) as (_ & HA & _).
  destruct (SetAddressI2C_resolution nat zero_handler x02)
    as (_ & _ & _ & HN & _ & HS).
  split; [apply HA; auto|]. split.
  - apply HN; discriminate.
  - apply (HS x45 x8a); [right; reflexivity|reflexivity].
Defined.

(** The earlier [SHT3x_SetAddressI2C] and the current one agree on the two
    documented selectors 0 and 1 (and on 0x45 and 0x8a); the earlier one
    resolves every nonzero value to 0x45, so it takes 0x44 and 0x88 for the
    second address where the current one takes them for the first. *)
Theorem SetAddressI2C_against_earlier_version :
  forall (W : Type) (h : SHT3x_Handler_t W) (Address : byte),
    (Address = x00 \/ Address = x01 \/ Address = x45 \/ Address = x8a ->
     Legacy.SHT3x_SetAddressI2C h Address = SHT3x_SetAddressI2C h Address) /\
    (Address <> x00 ->
     AddressI2C (snd (Legacy.SHT3x_SetAddressI2C h Address)) = x45) /\
    (Address = x44 \/ Address = x88 ->
     AddressI2C (snd (SHT3x_SetAddressI2C h Address)) = x44).
Proof.
  intros W h Address. split; [|split].
  - intros [-> | [-> | [-> | ->]]]; reflexivity.
  - intros N. unfold Legacy.SHT3x_SetAddressI2C.
    destruct (byte_eqb_spec Address x00); [contradiction|reflexivity].
  - intros [-> | ->]; reflexivity.
Qed.

Lemma SetAddressI2C_against_earlier_version_witness :
  AddressI2C (snd (Legacy.SHT3x_SetAddressI2C zero_handler x44)) = x45 /\
  AddressI2C (snd (SHT3x_SetAddressI2C zero_handler x44)) = x44.
Proof.
  destruct (SetAddressI2C_against_earlier_version nat zero_handler x44)
    as (_ & HL & HC).
  split; [apply HL; discriminate|apply HC; left; reflexivity].
Defined.

(** ** Initialisation: every way out *)

Section InitialisationPaths.

Variable W : Type.
Implicit Types (h : SHT3x_Handler_t W) (e : Env W).

Lemma same_platform_refl h : same_platform h h.
Proof. repeat split. Qed.

Lemma SetAddressI2C_same_platform h Address :
  same_platform h (snd (SHT3x_SetAddressI2C h Address)) /\
  Mode (snd (SHT3x_SetAddressI2C h Address)) = Mode h /\
  Repeatability (snd (SHT3x_SetAddressI2C h Address)) = Repeatability h /\
  Speed (snd (SHT3x_SetAddressI2C h Address)) = Speed h.
Proof.
  destruct (SetAddressI2C_cases W h Address)
    as [[_ E] | [[_ E] | (_ & _ & _ & _ & _ & _ & E)]];
    rewrite E; cbn [snd]; repeat split.
Qed.

(** Lines 442-451 call by call. *)
Lemma Init_reset_cases h e r h' e' :
  Init_reset h e = Some (r, h', e') ->
  exists r0 e0 r1 e1,
    call_Send h stop_periodic_cmd 2 e = Some (r0, e0) /\
    h' = (if r0 =? 0
          then set_Repeatability (set_Mode h SHT3x_MODE_SINGLESHOT)
                                 SHT3x_REPEATABILITY_LOW
          else h) /\
    call_Send h' soft_reset_cmd 2 e0 = Some (r1, e1) /\
    ((r1 <> 0 /\ r = SHT3x_FAIL /\ e' = e1) \/
     (r1 = 0 /\ r = SHT3x_OK /\ call_Delay h' 2 e1 = Some (tt, e'))).
Proof.
  unfold Init_reset, SHT3x_SetModeSingleShot.
  fold stop_periodic_cmd soft_reset_cmd. unfold bind at 1 2.
  destruct (call_Send h stop_periodic_cmd 2 e) as [[r0 e0]|] eqn:H0; [|discriminate].
  destruct (Z.eqb_spec r0 0) as [-> | Hr0]; cbn [negb]; unfold ret at 1;
    cbv beta iota zeta; unfold bind at 1.
  - set (h1 := set_Repeatability (set_Mode h SHT3x_MODE_SINGLESHOT)
                                 SHT3x_REPEATABILITY_LOW).
    destruct (call_Send h1 soft_reset_cmd 2 e0) as [[r1 e1]|] eqn:H1; [|discriminate].
    destruct (Z.eqb_spec r1 0) as [-> | Hr1]; cbn [negb].
    + unfold bind, ret.
      destruct (call_Delay h1 2 e1) as [[[] e2]|] eqn:H2; [|discriminate].
      intros H. inversion H; subst. exists 0, e0, 0, e1. auto 10.
    + unfold ret. intros H. inversion H; subst. exists 0, e0, r1, e'. auto 10.
  - destruct (call_Send h soft_reset_cmd 2 e0) as [[r1 e1]|] eqn:H1; [|discriminate].
    destruct (Z.eqb_spec r1 0) as [-> | Hr1]; cbn [negb].
    + unfold bind, ret.
      destruct (call_Delay h 2 e1) as [[[] e2]|] eqn:H2; [|discriminate].
      intros H. inversion H; subst. exists r0, e0, 0, e1.
      rewrite (nonzero_test _ Hr0). auto 10.
    + unfold ret. intros H. inversion H; subst. exists r0, e0, r1, e'.
      rewrite (nonzero_test _ Hr0). auto 10.
Qed.

Lemma Init_reset_total h e :
  PlatformSend h <> None -> PlatformDelay h <> None ->
  exists r h' e', Init_reset h e = Some (r, h', e').
Proof.
  intros HS HD. unfold Init_reset, SHT3x_SetModeSingleShot. unfold bind at 1 2.
  destruct (call_Send_bound W h [SHT3X_COMMAND_STOP_PERIODIC_MSB;
                                 SHT3X_COMMAND_STOP_PERIODIC_LSB] 2 e HS)
    as (r0 & e0 & H0).
  rewrite H0.
  assert (forall h1 : SHT3x_Handler_t W,
             PlatformSend h1 <> None -> PlatformDelay h1 <> None ->
             exists r h' e',
               (r1 <- call_Send h1 [SHT3X_COMMAND_SOFT_RESET_MSB;
                                    SHT3X_COMMAND_SOFT_RESET_LSB] 2;;
                if negb (r1 =? 0) then ret (SHT3x_FAIL, h1)
                else _ <- call_Delay h1 2;; ret (SHT3x_OK, h1)) e0
               = Some (r, h', e')) as Hrest.
  { intros h1 HS1 HD1. unfold bind at 1.
    destruct (call_Send_bound W h1 [SHT3X_COMMAND_SOFT_RESET_MSB;
                                    SHT3X_COMMAND_SOFT_RESET_LSB] 2 e0 HS1)
      as (r1 & e1 & H1).
    rewrite H1. destruct (r1 =? 0); cbn [negb]; unfold ret; [|eauto].
    unfold bind. destruct (call_Delay_bound W h1 2 e1 HD1) as (e2 & H2).
    rewrite H2. eauto. }
  destruct (r0 =? 0); cbn [negb]; unfold ret at 1; cbv beta iota zeta.
  - apply Hrest; assumption.
  - apply Hrest; assumption.
Qed.

(** [SHT3x_Init] by cases: a missing pointer, a platform init that fails,
    or lines 442-451. *)
Lemma Init_cases h Address e r h' e' :
  SHT3x_Init h Address e = Some (r, h', e') ->
  (~ required_bound h /\ r = SHT3x_INVALID_PARAM /\
   h' = snd (SHT3x_SetAddressI2C h Address) /\ e' = e) \/
  (required_bound h /\
   exists f ri w,
     PlatformInit (Init_default_crc (snd (SHT3x_SetAddressI2C h Address))) = Some f /\
     f (world e) = (ri, w) /\
     r = SHT3x_FAIL /\ ri <> 0 /\
     h' = Init_default_crc (snd (SHT3x_SetAddressI2C h Address)) /\
     e' = log (EvInit ri) w e) \/
  (required_bound h /\
   exists e0,
     ((PlatformInit (Init_default_crc (snd (SHT3x_SetAddressI2C h Address))) = None /\
       e0 = e) \/
      (exists f w,
          PlatformInit (Init_default_crc (snd (SHT3x_SetAddressI2C h Address)))
          = Some f /\
          f (world e) = (0, w) /\ e0 = log (EvInit 0) w e)) /\
     Init_reset (Init_default_crc (snd (SHT3x_SetAddressI2C h Address))) e0
     = Some (r, h', e')).
Proof.
  unfold SHT3x_Init.
  destruct (SetAddressI2C_same_platform h Address)
    as ((_ & _ & ES & ER & ED & _) & _).
  destruct (SHT3x_SetAddressI2C h Address) as [r0 ha]. cbn [snd] in *.
  unfold required_bound. rewrite <- ES, <- ER, <- ED.
  destruct (PlatformSend ha) as [fs|];
    [|intros H; inversion H; left; repeat split; tauto].
  destruct (PlatformReceive ha) as [fr|];
    [|intros H; inversion H; left; repeat split; tauto].
  destruct (PlatformDelay ha) as [fd|];
    [|intros H; inversion H; left; repeat split; tauto].
  fold (Init_default_crc ha).
  assert (Some fs <> None /\ Some fr <> None /\ Some fd <> None) as HB
      by (repeat split; discriminate).
  destruct (PlatformInit (Init_default_crc ha)) as [f|].
  - unfold bind, call_InitDeinit. destruct (f (world e)) as [ri w] eqn:Hf.
    destruct (Z.eqb_spec ri 0) as [-> | Hri]; cbn [negb].
    + intros H. right; right. split; [exact HB|].
      eexists. split; [right; exists f, w; auto|exact H].
    + unfold ret. intros H. inversion H; subst. right; left.
      split; [exact HB|]. exists f, ri, w. auto 10.
  - intros H. right; right. split; [exact HB|]. eauto.
Qed.

End InitialisationPaths.

Section InitialisationResults.

Variable W : Type.
Implicit Types (h : SHT3x_Handler_t W) (e : Env W).

Lemma Init_default_crc_platform h :
  PlatformInit (Init_default_crc h) = PlatformInit h /\
  PlatformDeInit (Init_default_crc h) = PlatformDeInit h /\
  PlatformSend (Init_default_crc h) = PlatformSend h /\
  PlatformReceive (Init_default_crc h) = PlatformReceive h /\
  PlatformDelay (Init_default_crc h) = PlatformDelay h /\
  PlatformCRC (Init_default_crc h) <> None /\
  (forall c, PlatformCRC h = Some c -> PlatformCRC (Init_default_crc h) = Some c) /\
  (PlatformCRC h = None ->
   PlatformCRC (Init_default_crc h) = Some SHT3x_CheckCRC) /\
  AddressI2C (Init_default_crc h) = AddressI2C h /\
  Mode (Init_default_crc h) = Mode h /\
  Repeatability (Init_default_crc h) = Repeatability h.
Proof.
  unfold Init_default_crc. destruct (PlatformCRC h) as [c|] eqn:E; cbn.
  - rewrite E. repeat split; try discriminate; auto.
  - repeat split; try discriminate; auto.
Qed.

Lemma required_bound_dec h : required_bound h \/ ~ required_bound h.
Proof.
  unfold required_bound.
  destruct (PlatformSend h); [|right; intros (H & _); congruence].
  destruct (PlatformReceive h); [|right; intros (_ & H & _); congruence].
  destruct (PlatformDelay h); [|right; intros (_ & _ & H); congruence].
  left. repeat split; discriminate.
Qed.

(** [SHT3x_Init] never calls through a NULL pointer. *)
Lemma Init_total h Address e :
  exists r h' e', SHT3x_Init h Address e = Some (r, h', e').
Proof.
  unfold SHT3x_Init.
  destruct (SHT3x_SetAddressI2C h Address) as [r0 ha].
  destruct (PlatformSend ha) as [fs|] eqn:ES; [|unfold ret; eauto].
  destruct (PlatformReceive ha) as [fr|] eqn:ER; [|unfold ret; eauto].
  destruct (PlatformDelay ha) as [fd|] eqn:ED; [|unfold ret; eauto].
  fold (Init_default_crc ha).
  destruct (Init_default_crc_platform ha) as (_ & _ & HS & _ & HD & _).
  assert (PlatformSend (Init_default_crc ha) <> None) as HS' by congruence.
  assert (PlatformDelay (Init_default_crc ha) <> None) as HD' by congruence.
  destruct (PlatformInit (Init_default_crc ha)) as [f|].
  - unfold bind, call_InitDeinit. destruct (f (world e)) as [ri w].
    destruct (ri =? 0); cbn [negb]; [|unfold ret; eauto].
    apply Init_reset_total; assumption.
  - apply Init_reset_total; assumption.
Qed.

End InitialisationResults.

(** [SHT3x_Init] returns for every handler, NULL pointers included.  It
    returns [SHT3x_INVALID_PARAM] exactly when the send, receive or delay
    pointer is NULL, whatever the address selector is; in that case no
    platform function was called and the handler differs from the one
    before the call by the resolved address at most. *)
Theorem Init_invalid_param_iff_unbound :
  forall (W : Type) (h : SHT3x_Handler_t W) (Address : byte) (e : Env W),
  exists r h' e',
    SHT3x_Init h Address e = Some (r, h', e') /\
    (r = SHT3x_INVALID_PARAM <-> ~ required_bound h) /\
    (r = SHT3x_INVALID_PARAM ->
     e' = e /\ h' = snd (SHT3x_SetAddressI2C h Address)).
Proof.
  intros W h Address e.
  destruct (Init_total W h Address e) as (r & h' & e' & H).
  exists r, h', e'. split; [exact H|].
  destruct (Init_cases W h Address e r h' e' H)
    as [(HN & -> & -> & ->) | [(HB & f & ri & w & _ & _ & -> & _) | (HB & e0 & _ & HR)]].
  - split; [tauto|auto].
  - split; [split; [discriminate|contradiction]|discriminate].
  - destruct (Init_reset_cases W _ _ _ _ _ HR)
      as (r0 & e1 & r1 & e2 & _ & _ & _ & [(_ & -> & _) | (_ & -> & _)]);
      (split; [split; [discriminate|contradiction]|discriminate]).
Qed.

(** The same at the handler a caller declares with [{0}]: nothing is bound,
    [SHT3x_Init] refuses it and calls nothing. *)
Example Init_zero_handler :
  SHT3x_Init zero_handler x00 env0
  = Some (SHT3x_INVALID_PARAM, set_AddressI2C zero_handler x44, env0).
Proof. reflexivity. Qed.

(** ** Reads: every way out *)

Section ReadPaths.

Variable W : Type.
Implicit Types (h : SHT3x_Handler_t W) (e : Env W).

Lemma receive_attempts_app (t1 t2 : list Event) :
  receive_attempts (t1 ++ t2) = (receive_attempts t1 + receive_attempts t2)%nat.
Proof. unfold receive_attempts. now rewrite filter_app, length_app. Qed.

Lemma send_calls_app (t1 t2 : list Event) :
  send_calls (t1 ++ t2) = (send_calls t1 + send_calls t2)%nat.
Proof. unfold send_calls. now rewrite filter_app, length_app. Qed.

Lemma delay_calls_app (t1 t2 : list Event) :
  delay_calls (t1 ++ t2) = (delay_calls t1 + delay_calls t2)%nat.
Proof. unfold delay_calls. now rewrite filter_app, length_app. Qed.

Lemma crc_calls_app (t1 t2 : list Event) :
  crc_calls (t1 ++ t2) = (crc_calls t1 + crc_calls t2)%nat.
Proof. unfold crc_calls. now rewrite filter_app, length_app. Qed.

(** The log of the polling loop: the failed attempts, each a receive of 6
    bytes with a nonzero result and the delay of 1 ms after it, then either
    nothing more, with all [n] iterations used, or the receive that
    returned 0 and filled the buffer the loop leaves. *)
Lemma ReadSample_loop_shape h n :
  forall Buffer e Buffer' e',
    ReadSample_loop h n Buffer e = Some (Buffer', e') ->
    exists (rs : list (Z * list byte)) (final : list Event),
      trace e' = trace e ++ failed_attempts_log (AddressI2C h) rs ++ final /\
      all_failed rs /\
      ((length rs = n /\ final = []) \/
       ((length rs < n)%nat /\ final = [EvReceive (AddressI2C h) 6 0 Buffer'])).
Proof.
  induction n as [|n IH]; intros Buffer e Buffer' e'.
  - simpl. unfold ret. intros H. inversion H; subst.
    exists [], []. simpl. rewrite app_nil_r. repeat split; auto. constructor.
  - simpl. unfold bind at 1.
    destruct (call_Receive h Buffer 6 e) as [[[r B1] e1]|] eqn:H1; [|discriminate].
    pose proof (call_Receive_trace W _ _ _ _ _ _ _ H1) as T1.
    destruct (Z.eqb_spec r 0) as [-> | Hr].
    + unfold ret. intros H. inversion H; subst.
      exists [], [EvReceive (AddressI2C h) 6 0 Buffer'].
      simpl. split; [exact T1|]. split; [constructor|].
      right. split; [lia|reflexivity].
    + unfold bind at 1.
      destruct (call_Delay h 1 e1) as [[u e2]|] eqn:H2; [|discriminate].
      pose proof (call_Delay_trace W _ _ _ _ _ H2) as T2.
      intros H. destruct (IH _ _ _ _ H) as (rs & final & T & Hall & Hf).
      exists ((r, B1) :: rs), final.
      split; [|split].
      * rewrite T, T2, T1, <- !app_assoc. reflexivity.
      * constructor; [exact Hr|exact Hall].
      * simpl. destruct Hf as [[<- ->] | [Hlt ->]];
          [left; auto|right; split; [lia|auto]].
Qed.

Lemma failed_attempts_counts (j : nat) (t : list Event) :
  map call_of t = concat (repeat failed_attempt j) ->
  receive_attempts t = j /\ delay_calls t = j /\
  send_calls t = 0%nat /\ crc_calls t = 0%nat /\
  (forall ev, In ev t -> is_delay ev = true -> ev = EvDelay 1).
Proof.
  revert t. induction j as [|j IH]; intros t H.
  - destruct t; [|discriminate]. repeat split. intros ev [].
  - destruct t as [|a [|b t]]; try discriminate.
    simpl in H. inversion H as [[Ha Hb Ht]].
    destruct a; try discriminate Ha. destruct b; try discriminate Hb.
    injection Hb as ->.
    destruct (IH t Ht) as (R & D & S & C & Hd).
    unfold receive_attempts, delay_calls, send_calls, crc_calls in *. simpl.
    rewrite R, D, S, C. repeat split.
    intros ev [<- | [<- | Hin]] Hev; try discriminate; auto.
Qed.

(** The bus transaction of [SHT3x_ReadSample] by cases. *)
Lemma ReadSample_transaction_cases h e x e1 :
  ReadSample_transaction h e = Some (x, e1) ->
  (Mode h = SHT3x_MODE_SINGLESHOT /\
   ((ReadSample_switch (Repeatability h) = None /\
     x = inl SHT3x_INVALID_PARAM /\ e1 = e) \/
    (exists cmd1 r,
        ReadSample_switch (Repeatability h) = Some cmd1 /\
        call_Send h (singleshot_cmd cmd1) 2 e = Some (r, e1) /\
        r <> 0 /\ x = inl SHT3x_FAIL) \/
    (exists cmd1 e0 Buffer,
        ReadSample_switch (Repeatability h) = Some cmd1 /\
        call_Send h (singleshot_cmd cmd1) 2 e = Some (0, e0) /\
        ReadSample_loop h 20 zero_buffer e0 = Some (Buffer, e1) /\
        ((byte_at Buffer 2 = x00 /\ byte_at Buffer 5 = x00 /\ x = inl SHT3x_FAIL) \/
         (~ (byte_at Buffer 2 = x00 /\ byte_at Buffer 5 = x00) /\ x = inr Buffer))))) \/
  (Mode h <> SHT3x_MODE_SINGLESHOT /\
   ((exists r,
        call_Send h fetch_data_cmd 2 e = Some (r, e1) /\
        r <> 0 /\ x = inl SHT3x_FAIL) \/
    (exists e0 r Buffer,
        call_Send h fetch_data_cmd 2 e = Some (0, e0) /\
        call_Receive h zero_buffer 6 e0 = Some (r, Buffer, e1) /\
        ((r = -3 /\ x = inl SHT3x_NO_DATA) \/
         (r <> -3 /\ r <> 0 /\ x = inl SHT3x_FAIL) \/
         (r = 0 /\ x = inr Buffer))))).
Proof.
  unfold ReadSample_transaction.
  fold zero_buffer fetch_data_cmd.
  destruct (Z.eqb_spec (Mode h) SHT3x_MODE_SINGLESHOT) as [HM | HM].
  - intros H. left. split; [exact HM|].
    destruct (ReadSample_switch (Repeatability h)) as [cmd1|].
    + fold (singleshot_cmd cmd1) in H. unfold bind at 1 in H.
      destruct (call_Send h (singleshot_cmd cmd1) 2 e) as [[r e0]|] eqn:HS;
        [|discriminate].
      destruct (Z.eqb_spec r 0) as [-> | Hr]; cbn [negb] in H.
      * unfold bind in H.
        destruct (ReadSample_loop h 20 zero_buffer e0) as [[Buffer e2]|] eqn:HL;
          [|discriminate].
        right; right. exists cmd1, e0, Buffer.
        destruct (byte_eqb_spec (byte_at Buffer 2) x00) as [E2 | N2];
          destruct (byte_eqb_spec (byte_at Buffer 5) x00) as [E5 | N5];
          cbn [andb] in H; unfold ret in H; inversion H; subst;
          repeat split; auto; right; split; auto; tauto.
      * unfold ret in H. inversion H; subst. right; left. exists cmd1, r. auto.
    + unfold ret in H. inversion H; subst. left. auto.
  - intros H. right. split; [exact HM|].
    unfold bind at 1 in H.
    destruct (call_Send h fetch_data_cmd 2 e) as [[r e0]|] eqn:HS; [|discriminate].
    destruct (Z.eqb_spec r 0) as [-> | Hr]; cbn [negb] in H.
    + unfold bind in H.
      destruct (call_Receive h zero_buffer 6 e0) as [[[r2 Buffer] e2]|] eqn:HR;
        [|discriminate].
      right. exists e0, r2, Buffer.
      destruct (Z.eqb_spec r2 (-3)) as [-> | N3].
      * unfold ret in H. inversion H; subst. auto 10.
      * destruct (Z.eqb_spec r2 0) as [-> | N0]; cbn [negb] in H;
          unfold ret in H; inversion H; subst; auto 10.
    + unfold ret in H. inversion H; subst. left. exists r. auto.
Qed.

End ReadPaths.

(** [(hi << 8) | lo] is the big-endian value of the two bytes. *)
Lemma word16_value (hi lo : byte) :
  word16 hi lo = 256 * byte_val hi + byte_val lo /\ 0 <= word16 hi lo <= 65535.
Proof.
  pose proof (byte_val_range hi) as Hh. pose proof (byte_val_range lo) as Hl.
  unfold word16. rewrite Z.shiftl_mul_pow2 by lia.
  change (2 ^ 8) with 256.
  assert (Z.land (byte_val hi * 256) (byte_val lo) = 0) as Hland.
  { apply Z.bits_inj'. intros n Hn. rewrite Z.land_spec, Z.bits_0.
    destruct (Z.lt_ge_cases n 8) as [Hlt | Hge].
    - replace (byte_val hi * 256) with (byte_val hi * 2 ^ 8) by reflexivity.
      rewrite Z.mul_pow2_bits_low by lia. reflexivity.
    - destruct (Z.eq_dec (byte_val lo) 0) as [E | NE].
      + rewrite E, Z.bits_0. apply andb_false_r.
      + rewrite (Z.bits_above_log2 (byte_val lo) n); [apply andb_false_r|lia|].
        apply Z.log2_lt_pow2; [lia|].
        apply Z.lt_le_trans with (2 ^ 8); [change (2 ^ 8) with 256; lia|].
        apply Z.pow_le_mono_r; lia. }
  rewrite <- Z.lxor_lor by exact Hland.
  rewrite <- Z.add_nocarry_lxor by exact Hland.
  rewrite Z.mod_small by lia. lia.
Qed.

Lemma ReadSample_switch_none (Repeatability : Z) :
  ReadSample_switch Repeatability = None -> ~ 0 <= Repeatability <= 2.
Proof.
  intros H Hr. destruct (ReadSample_switch_valid Repeatability Hr) as (c & Hc).
  congruence.
Qed.

(** Whenever [SHT3x_ReadSample] returns [SHT3x_OK], a transaction left a
    buffer, the temperature check and then the humidity check were made on
    it and both returned 0, nothing was called after them, the raw fields
    are the big-endian values of bytes 0-1 and 3-4, between 0 and 65535,
    and the derived fields are the conversion of those raw counts. *)
Theorem ReadSample_ok_after_both_checks :
  forall (W : Type) (h : SHT3x_Handler_t W) (Sample Sample' : SHT3x_Sample_t)
         (e e' : Env W),
    SHT3x_ReadSample h Sample e = Some (SHT3x_OK, Sample', e') ->
    exists (Buffer : list byte) (e1 : Env W),
      ReadSample_transaction h e = Some (inr Buffer, e1) /\
      trace e' = trace e1 ++ [EvCRC (TempRaw Sample') (byte_at Buffer 2) 0;
                              EvCRC (HumRaw Sample') (byte_at Buffer 5) 0] /\
      Sample' = SHT3x_ConvSample (raw_sample Sample Buffer) /\
      TempRaw Sample' = 256 * byte_val (byte_at Buffer 0) + byte_val (byte_at Buffer 1) /\
      HumRaw Sample' = 256 * byte_val (byte_at Buffer 3) + byte_val (byte_at Buffer 4) /\
      0 <= TempRaw Sample' <= 65535 /\ 0 <= HumRaw Sample' <= 65535.
Proof.
  intros W h Sample Sample' e e' H.
  destruct (ReadSample_transaction h e) as [[[r | Buffer] e1]|] eqn:HT.
  - rewrite (ReadSample_transaction_returns W h Sample e r e1 HT) in H.
    inversion H; subst.
    destruct (ReadSample_transaction_results W h e _ _ HT) as [? | [? | ?]];
      discriminate.
  - destruct (ReadSample_crc_cases W h Sample e Buffer e1 _ _ _ HT H)
      as (r1 & e2 & H1 & [(_ & Hr & _) | (-> & r2 & H2 & [(_ & Hr & _) | (-> & _ & ->)])]);
      try discriminate Hr.
    exists Buffer, e1. split; [reflexivity|].
    pose proof (call_CRC_trace W _ _ _ _ _ _ H1) as T1.
    pose proof (call_CRC_trace W _ _ _ _ _ _ H2) as T2.
    cbn [SHT3x_ConvSample raw_sample TempRaw HumRaw].
    destruct (word16_value (byte_at Buffer 0) (byte_at Buffer 1)) as [V1 R1].
    destruct (word16_value (byte_at Buffer 3) (byte_at Buffer 4)) as [V2 R2].
    split; [rewrite T2, T1, <- app_assoc; reflexivity|].
    split; [reflexivity|]. auto.
  - unfold SHT3x_ReadSample, bind in H. rewrite HT in H. discriminate.
Qed.

Lemma ReadSample_ok_after_both_checks_witness :
  exists (Buffer : list byte) (e1 : Env nat),
    ReadSample_transaction
      (sim_handler SHT3x_MODE_PERIODIC SHT3x_REPEATABILITY_HIGH
                   send_ok receive_measurement (sim_crc 0)) env0
    = Some (inr Buffer, e1) /\
    trace (mkEnv 1%nat
             [EvSend x44 [xe0; x00] 2 0;
              EvReceive x44 6 0 [x66; x2e; xff; x7d; x13; xff];
              EvCRC 26158 xff 0; EvCRC 32019 xff 0])
    = trace e1 ++ [EvCRC 26158 (byte_at Buffer 2) 0;
                   EvCRC 32019 (byte_at Buffer 5) 0] /\
    SHT3x_ConvSample (mkSample 26158 32019 (S754_zero false) (S754_zero false)
                               (S754_zero false))
    = SHT3x_ConvSample (raw_sample sample0 Buffer) /\
    26158 = 256 * byte_val (byte_at Buffer 0) + byte_val (byte_at Buffer 1) /\
    32019 = 256 * byte_val (byte_at Buffer 3) + byte_val (byte_at Buffer 4) /\
    0 <= 26158 <= 65535 /\ 0 <= 32019 <= 65535.
Proof.
  exact (ReadSample_ok_after_both_checks nat
           (sim_handler SHT3x_MODE_PERIODIC SHT3x_REPEATABILITY_HIGH
                        send_ok receive_measurement (sim_crc 0))
           sample0
           (SHT3x_ConvSample (mkSample 26158 32019 (S754_zero false)
                                       (S754_zero false) (S754_zero false)))
           env0
           (mkEnv 1%nat
              [EvSend x44 [xe0; x00] 2 0;
               EvReceive x44 6 0 [x66; x2e; xff; x7d; x13; xff];
               EvCRC 26158 xff 0; EvCRC 32019 xff 0])
           eq_refl).
Defined.

(** What each result of [SHT3x_ReadSample] tells the caller.
    [SHT3x_INVALID_PARAM] comes only from single-shot mode with a stored
    repeatability outside the enumeration, before any call.
    [SHT3x_NO_DATA] comes only from the other modes, after a receive that
    returned -3.  With [SHT3x_FAIL], [SHT3x_INVALID_PARAM] and
    [SHT3x_NO_DATA] the sample is the one before the call. *)
Theorem ReadSample_results :
  forall (W : Type) (h : SHT3x_Handler_t W) (Sample Sample' : SHT3x_Sample_t)
         (e e' : Env W) (r : SHT3x_Result_t),
    SHT3x_ReadSample h Sample e = Some (r, Sample', e') ->
    (r = SHT3x_INVALID_PARAM ->
     Mode h = SHT3x_MODE_SINGLESHOT /\ ~ 0 <= Repeatability h <= 2 /\ e' = e) /\
    (r = SHT3x_NO_DATA ->
     Mode h <> SHT3x_MODE_SINGLESHOT /\
     exists Buffer,
       trace e' = trace e ++ [EvSend (AddressI2C h) [xe0; x00] 2 0;
                              EvReceive (AddressI2C h) 6 (-3) Buffer]) /\
    (r = SHT3x_FAIL \/ r = SHT3x_INVALID_PARAM \/ r = SHT3x_NO_DATA ->
     Sample' = Sample).
Proof.
  intros W h Sample Sample' e e' r H.
  destruct (ReadSample_transaction h e) as [[[r0 | Buffer] e1]|] eqn:HT.
  - rewrite (ReadSample_transaction_returns W h Sample e r0 e1 HT) in H.
    inversion H; subst r0 Sample' e1. clear H.
    destruct (ReadSample_transaction_cases W h e _ _ HT)
      as [(HM & [(HS & Hx & ->) | [(c & st & _ & _ & _ & Hx) |
                                    (c & e0 & B & _ & _ & _ & [(_ & _ & Hx) | (_ & Hx)])]])
         | (HM & [(st & _ & _ & Hx) |
                  (e0 & st & B & HS & HR & [(-> & Hx) | [(_ & _ & Hx) | (_ & Hx)]])])];
      inversion Hx; subst;
      (split; [|split; [|intros _; reflexivity]]);
      intros Hr; try discriminate Hr.
    + split; [exact HM|]. split; [now apply ReadSample_switch_none|reflexivity].
    + split; [exact HM|]. exists B.
      rewrite (call_Receive_trace W _ _ _ _ _ _ _ HR),
        (call_Send_trace W _ _ _ _ _ _ HS), <- app_assoc. reflexivity.
  - destruct (ReadSample_crc_cases W h Sample e Buffer e1 _ _ _ HT H)
      as (r1 & e2 & _ & [(_ & -> & _) | (_ & r2 & _ & [(_ & -> & _) | (_ & -> & _)])]);
      (split; [discriminate|]); (split; [discriminate|]);
      intros [Hr | [Hr | Hr]]; discriminate Hr.
  - unfold SHT3x_ReadSample, bind in H. rewrite HT in H. discriminate.
Qed.

Lemma ReadSample_results_witness :
  Mode (sim_handler SHT3x_MODE_ART SHT3x_REPEATABILITY_LOW
                    send_ok receive_nack (sim_crc 0)) <> SHT3x_MODE_SINGLESHOT /\
  exists Buffer,
    trace (mkEnv 1%nat [EvSend x44 [xe0; x00] 2 0; EvReceive x44 6 (-3) zero_buffer])
    = trace env0 ++ [EvSend x44 [xe0; x00] 2 0; EvReceive x44 6 (-3) Buffer].
Proof.
  refine (proj1 (proj2 (ReadSample_results nat
            (sim_handler SHT3x_MODE_ART SHT3x_REPEATABILITY_LOW
                         send_ok receive_nack (sim_crc 0))
            sample0 sample0 env0
            (mkEnv 1%nat [EvSend x44 [xe0; x00] 2 0; EvReceive x44 6 (-3) zero_buffer])
            SHT3x_NO_DATA eq_refl)) eq_refl).
Defined.

Section ReadLogs.

Variable W : Type.
Implicit Types (h : SHT3x_Handler_t W) (e : Env W).

(** The calls of a bus transaction. *)
Lemma ReadSample_transaction_log h e x e1 :
  ReadSample_transaction h e = Some (x, e1) ->
  exists t,
    trace e1 = trace e ++ t /\
    (send_calls t <= 1)%nat /\ (receive_attempts t <= 20)%nat /\
    (delay_calls t <= receive_attempts t)%nat /\
    (receive_attempts t <= delay_calls t + 1)%nat /\
    crc_calls t = 0%nat /\
    (forall ev, In ev t -> is_delay ev = true -> ev = EvDelay 1) /\
    (Mode h <> SHT3x_MODE_SINGLESHOT ->
     (receive_attempts t <= 1)%nat /\ delay_calls t = 0%nat).
Proof.
  intros HT.
  destruct (ReadSample_transaction_cases W h e _ _ HT)
    as [(HM & [(_ & _ & ->) | [(c & st & _ & HS & _ & _) |
                                (c & e0 & B & _ & HS & HL & _)]])
       | (HM & [(st & HS & _ & _) | (e0 & st & B & HS & HR & _)])].
  - exists []. rewrite app_nil_r. repeat split; auto; try (cbn; lia).
  - exists [EvSend (AddressI2C h) (singleshot_cmd c) 2 st].
    split; [exact (call_Send_trace W _ _ _ _ _ _ HS)|].
    repeat split; try (cbn; lia); try contradiction.
    intros ev [<- | []] Hd; discriminate Hd.
  - destruct (ReadSample_loop_shape W h 20 _ _ _ _ HL)
      as (rs & final & T & _ & Hf).
    remember (failed_attempts_log (AddressI2C h) rs) as failed eqn:Hfl.
    remember (length rs) as j eqn:Hj.
    assert (map call_of failed = concat (repeat failed_attempt j)) as Hc
      by (subst failed j; apply failed_attempts_log_calls).
    destruct (failed_attempts_counts j failed Hc) as (R & D & S & C & Hd).
    exists (EvSend (AddressI2C h) (singleshot_cmd c) 2 0 :: failed ++ final).
    split.
    { rewrite T, (call_Send_trace W _ _ _ _ _ _ HS), <- app_assoc. reflexivity. }
    change (EvSend (AddressI2C h) (singleshot_cmd c) 2 0 :: failed ++ final)
      with ([EvSend (AddressI2C h) (singleshot_cmd c) 2 0] ++ failed ++ final).
    rewrite !send_calls_app, !receive_attempts_app, !delay_calls_app, !crc_calls_app.
    rewrite R, D, S, C.
    destruct Hf as [[-> ->] | [Hlt ->]]; cbn;
      (repeat split; try lia; try contradiction).
    + intros ev [<- | Hin] Hev; [discriminate|].
      rewrite app_nil_r in Hin. auto.
    + intros ev [<- | Hin] Hev; [discriminate|].
      apply in_app_or in Hin. destruct Hin as [Hin | [<- | []]]; [auto|discriminate].
  - exists [EvSend (AddressI2C h) fetch_data_cmd 2 st].
    split; [exact (call_Send_trace W _ _ _ _ _ _ HS)|].
    repeat split; try (cbn; lia).
    intros ev [<- | []] Hd; discriminate Hd.
  - exists [EvSend (AddressI2C h) fetch_data_cmd 2 0;
            EvReceive (AddressI2C h) 6 st B].
    split.
    { rewrite (call_Receive_trace W _ _ _ _ _ _ _ HR),
        (call_Send_trace W _ _ _ _ _ _ HS), <- app_assoc. reflexivity. }
    repeat split; try (cbn; lia).
    intros ev [<- | [<- | []]] Hd; discriminate Hd.
Qed.

End ReadLogs.

(** One call of [SHT3x_ReadSample], in any mode and on any platform, makes
    at most one send, at most 20 receive attempts, at most two CRC checks
    and no more delays than receive attempts, each of 1 ms; outside
    single-shot mode it makes at most one receive attempt and no delay. *)
Theorem ReadSample_bounded_calls :
  forall (W : Type) (h : SHT3x_Handler_t W) (Sample Sample' : SHT3x_Sample_t)
         (e e' : Env W) (r : SHT3x_Result_t),
    SHT3x_ReadSample h Sample e = Some (r, Sample', e') ->
    exists t : list Event,
      trace e' = trace e ++ t /\
      (send_calls t <= 1)%nat /\ (receive_attempts t <= 20)%nat /\
      (crc_calls t <= 2)%nat /\
      (delay_calls t <= receive_attempts t)%nat /\
      (forall ev, In ev t -> is_delay ev = true -> ev = EvDelay 1) /\
      (Mode h <> SHT3x_MODE_SINGLESHOT ->
       (receive_attempts t <= 1)%nat /\ delay_calls t = 0%nat).
Proof.
  intros W h Sample Sample' e e' r H.
  destruct (ReadSample_transaction h e) as [[[r0 | Buffer] e1]|] eqn:HT.
  - rewrite (ReadSample_transaction_returns W h Sample e r0 e1 HT) in H.
    inversion H; subst.
    destruct (ReadSample_transaction_log W h e _ _ HT)
      as (t & T & S & R & D & _ & C & Hd & HM).
    exists t. rewrite C. repeat split; auto; try lia; apply HM; assumption.
  - destruct (ReadSample_transaction_log W h e _ _ HT)
      as (t & T & S & R & D & _ & C & Hd & HM).
    destruct (ReadSample_crc_cases W h Sample e Buffer e1 _ _ _ HT H)
      as (r1 & e2 & H1 & [(_ & _ & _ & ->) | (_ & r2 & H2 & _)]).
    + exists (t ++ [EvCRC (word16 (byte_at Buffer 0) (byte_at Buffer 1))
                          (byte_at Buffer 2) r1]).
      split; [rewrite (call_CRC_trace W _ _ _ _ _ _ H1), T, <- app_assoc; reflexivity|].
      rewrite send_calls_app, receive_attempts_app, delay_calls_app, crc_calls_app, C.
      cbn. rewrite !Nat.add_0_r.
      repeat split; auto; try lia; try (apply HM; assumption);
        intros ev Hin Hev; apply in_app_or in Hin;
        destruct Hin as [Hin | Hin]; [auto|];
        cbn in Hin; intuition (subst; discriminate).
    + exists (t ++ [EvCRC (word16 (byte_at Buffer 0) (byte_at Buffer 1))
                          (byte_at Buffer 2) r1;
                    EvCRC (word16 (byte_at Buffer 3) (byte_at Buffer 4))
                          (byte_at Buffer 5) r2]).
      split.
      { rewrite (call_CRC_trace W _ _ _ _ _ _ H2), (call_CRC_trace W _ _ _ _ _ _ H1),
          T, <- !app_assoc. reflexivity. }
      rewrite send_calls_app, receive_attempts_app, delay_calls_app, crc_calls_app, C.
      cbn. rewrite !Nat.add_0_r.
      repeat split; auto; try lia; try (apply HM; assumption);
        intros ev Hin Hev; apply in_app_or in Hin;
        destruct Hin as [Hin | Hin]; [auto|];
        cbn in Hin; intuition (subst; discriminate).
  - unfold SHT3x_ReadSample, bind in H. rewrite HT in H. discriminate.
Qed.

Lemma ReadSample_bounded_calls_witness :
  exists t : list Event,
    trace (mkEnv 1%nat
             [EvSend x44 [x24; x00] 2 0;
              EvReceive x44 6 0 [x66; x2e; x00; x7d; x13; x00]])
    = trace env0 ++ t /\
    (send_calls t <= 1)%nat /\ (receive_attempts t <= 20)%nat /\
    (crc_calls t <= 2)%nat /\
    (delay_calls t <= receive_attempts t)%nat /\
    (forall ev, In ev t -> is_delay ev = true -> ev = EvDelay 1) /\
    (Mode (sim_handler SHT3x_MODE_SINGLESHOT SHT3x_REPEATABILITY_HIGH
                       send_ok receive_zero_crc (sim_crc 0))
     <> SHT3x_MODE_SINGLESHOT ->
     (receive_attempts t <= 1)%nat /\ delay_calls t = 0%nat).
Proof.
  exact (ReadSample_bounded_calls nat
           (sim_handler SHT3x_MODE_SINGLESHOT SHT3x_REPEATABILITY_HIGH
                        send_ok receive_zero_crc (sim_crc 0))
           sample0 sample0 env0
           (mkEnv 1%nat
              [EvSend x44 [x24; x00] 2 0;
               EvReceive x44 6 0 [x66; x2e; x00; x7d; x13; x00]])
           SHT3x_FAIL eq_refl).
Defined.

(** In single-shot mode, once the measurement command is accepted, the log
    of [SHT3x_ReadSample] is: the failed attempts (a receive of 6 bytes that
    returned a nonzero result and the 1 ms delay after it), then, unless
    all 20 attempts failed, the one receive that returned 0, with no delay
    after it, then at most two CRC checks and nothing else.  So the polling
    stops at the first receive that succeeds: every receive before it
    failed, and no receive and no delay follows it. *)
Theorem ReadSample_SingleShot_polling :
  forall (W : Type) (h : SHT3x_Handler_t W) (Sample Sample' : SHT3x_Sample_t)
         (e e0 e' : Env W) (cmd1 : byte) (r : SHT3x_Result_t),
    Mode h = SHT3x_MODE_SINGLESHOT ->
    ReadSample_switch (Repeatability h) = Some cmd1 ->
    call_Send h (singleshot_cmd cmd1) 2 e = Some (0, e0) ->
    SHT3x_ReadSample h Sample e = Some (r, Sample', e') ->
    exists (rs : list (Z * list byte)) (final checks : list Event),
      trace e' = trace e0 ++ failed_attempts_log (AddressI2C h) rs
                          ++ final ++ checks /\
      all_failed rs /\
      ((length rs = 20%nat /\ final = []) \/
       ((length rs < 20)%nat /\
        exists Buffer, final = [EvReceive (AddressI2C h) 6 0 Buffer])) /\
      crc_calls checks = length checks /\ (length checks <= 2)%nat /\
      receive_attempts checks = 0%nat /\ delay_calls checks = 0%nat /\
      receive_attempts (failed_attempts_log (AddressI2C h) rs ++ final ++ checks)
      = (length rs + length final)%nat /\
      delay_calls (failed_attempts_log (AddressI2C h) rs ++ final ++ checks)
      = length rs.
Proof.
  intros W h Sample Sample' e e0 e' cmd1 r HM HS Hsend H.
  assert (exists Buffer e1, ReadSample_loop h 20 zero_buffer e0 = Some (Buffer, e1))
    as (Buffer & e1 & HL).
  { pose proof (ReadSample_transaction_singleshot W h e cmd1 e0 HM HS Hsend) as HT.
    unfold SHT3x_ReadSample, bind in H. rewrite HT in H. unfold bind in H.
    destruct (ReadSample_loop h 20 zero_buffer e0) as [[B e2]|]; [eauto|discriminate]. }
  destruct (ReadSample_after_polling W h Sample e cmd1 e0 Buffer e1 HM HS Hsend HL)
    as (_ & Hany & _).
  destruct (Hany r Sample' e' H) as (checks & Tc & Hc1 & Hc2 & _).
  destruct (ReadSample_loop_shape W h 20 _ _ _ _ HL)
    as (rs & final & T & Hall & Hf).
  pose proof (crc_only_no_receive checks Hc1) as Rc.
  pose proof (crc_only_no_delay checks Hc1) as Dc.
  pose proof (failed_attempts_log_calls (AddressI2C h) rs) as Hcalls.
  destruct (failed_attempts_counts _ _ Hcalls) as (Rf & Df & _).
  exists rs, final, checks.
  split; [rewrite Tc, T, <- !app_assoc; reflexivity|].
  split; [exact Hall|].
  split; [destruct Hf as [[-> ->] | [Hlt ->]]; [left; auto|right; eauto]|].
  split; [exact Hc1|]. split; [exact Hc2|]. split; [exact Rc|]. split; [exact Dc|].
  rewrite !receive_attempts_app, !delay_calls_app, Rf, Df, Rc, Dc.
  destruct Hf as [[_ ->] | [_ ->]]; cbn; lia.
Qed.

(** A measurement ready at the fourth poll: three failed attempts with their
    delays, the receive that succeeds, the two CRC checks, and nothing
    after. *)
Example ReadSample_SingleShot_ready_at_fourth_poll :
  SHT3x_ReadSample
    (sim_handler SHT3x_MODE_SINGLESHOT SHT3x_REPEATABILITY_HIGH
                 send_ok (receive_ready_after 4) (sim_crc 0))
    sample0 env0
  = Some (SHT3x_OK,
          SHT3x_ConvSample (mkSample 26158 32019 (S754_zero false)
                                     (S754_zero false) (S754_zero false)),
          mkEnv 5%nat
            [EvSend x44 [x24; x00] 2 0;
             EvReceive x44 6 (-1) zero_buffer; EvDelay 1;
             EvReceive x44 6 (-1) zero_buffer; EvDelay 1;
             EvReceive x44 6 (-1) zero_buffer; EvDelay 1;
             EvReceive x44 6 0 [x66; x2e; xff; x7d; x13; xff];
             EvCRC 26158 xff 0; EvCRC 32019 xff 0]).
Proof. reflexivity. Qed.

Lemma ReadSample_SingleShot_polling_witness :
  exists (rs : list (Z * list byte)) (final checks : list Event),
    trace (mkEnv 5%nat
             [EvSend x44 [x24; x00] 2 0;
              EvReceive x44 6 (-1) zero_buffer; EvDelay 1;
              EvReceive x44 6 (-1) zero_buffer; EvDelay 1;
              EvReceive x44 6 (-1) zero_buffer; EvDelay 1;
              EvReceive x44 6 0 [x66; x2e; xff; x7d; x13; xff];
              EvCRC 26158 xff 0; EvCRC 32019 xff 0])
    = trace (mkEnv 1%nat [EvSend x44 (singleshot_cmd x00) 2 0])
      ++ failed_attempts_log x44 rs ++ final ++ checks /\
    all_failed rs /\
    ((length rs = 20%nat /\ final = []) \/
     ((length rs < 20)%nat /\ exists Buffer, final = [EvReceive x44 6 0 Buffer])) /\
    crc_calls checks = length checks /\ (length checks <= 2)%nat /\
    receive_attempts checks = 0%nat /\ delay_calls checks = 0%nat /\
    receive_attempts (failed_attempts_log x44 rs ++ final ++ checks)
    = (length rs + length final)%nat /\
    delay_calls (failed_attempts_log x44 rs ++ final ++ checks) = length rs.
Proof.
  exact (ReadSample_SingleShot_polling nat
           (sim_handler SHT3x_MODE_SINGLESHOT SHT3x_REPEATABILITY_HIGH
                        send_ok (receive_ready_after 4) (sim_crc 0))
           sample0
           (SHT3x_ConvSample (mkSample 26158 32019 (S754_zero false)
                                       (S754_zero false) (S754_zero false)))
           env0
           (mkEnv 1%nat [EvSend x44 (singleshot_cmd x00) 2 0])
           (mkEnv 5%nat
              [EvSend x44 [x24; x00] 2 0;
               EvReceive x44 6 (-1) zero_buffer; EvDelay 1;
               EvReceive x44 6 (-1) zero_buffer; EvDelay 1;
               EvReceive x44 6 (-1) zero_buffer; EvDelay 1;
               EvReceive x44 6 0 [x66; x2e; xff; x7d; x13; xff];
               EvCRC 26158 xff 0; EvCRC 32019 xff 0])
           x00 SHT3x_OK eq_refl eq_refl eq_refl
           ReadSample_SingleShot_ready_at_fourth_poll).
Defined.

(** ** Status register *)

(** What each result of [SHT3x_ReadStatus] tells the caller.  The function
    returns [SHT3x_FAIL], [SHT3x_CRC_ERROR] or [SHT3x_OK].  With [SHT3x_FAIL]
    the caller's status word is untouched and the log ends with the send or
    the receive that failed: no receive follows a failed send, no CRC check
    follows a failed receive.  Otherwise the calls were the send of
    [f3 2d], one receive of 3 bytes and one CRC check, in that order, the
    status word is the big-endian value of bytes 0-1, between 0 and 65535,
    and the result is [SHT3x_OK] exactly when the CRC check returned 0. *)
Theorem ReadStatus_results :
  forall (W : Type) (h : SHT3x_Handler_t W) (Status Status' : Z)
         (Buffer0 : byte * byte * byte) (e e' : Env W) (r : SHT3x_Result_t),
    SHT3x_ReadStatus h Status Buffer0 e = Some (r, Status', e') ->
    (r = SHT3x_FAIL /\ Status' = Status /\
     exists st, st <> 0 /\
       (trace e' = trace e ++ [EvSend (AddressI2C h) [xf3; x2d] 2 st] \/
        exists Buffer,
          trace e' = trace e ++ [EvSend (AddressI2C h) [xf3; x2d] 2 0;
                                 EvReceive (AddressI2C h) 3 st Buffer])) \/
    (exists Buffer rc,
        trace e' = trace e ++ [EvSend (AddressI2C h) [xf3; x2d] 2 0;
                               EvReceive (AddressI2C h) 3 0 Buffer;
                               EvCRC Status' (byte_at Buffer 2) rc] /\
        Status' = 256 * byte_val (byte_at Buffer 0) + byte_val (byte_at Buffer 1) /\
        0 <= Status' <= 65535 /\
        ((rc = 0 /\ r = SHT3x_OK) \/ (rc <> 0 /\ r = SHT3x_CRC_ERROR))).
Proof.
  intros W h Status Status' [[i0 i1] i2] e e' r.
  unfold SHT3x_ReadStatus. fold status_read_cmd. unfold bind at 1.
  destruct (call_Send h status_read_cmd 2 e) as [[r1 e1]|] eqn:HS; [|discriminate].
  pose proof (call_Send_trace W _ _ _ _ _ _ HS) as T1.
  destruct (Z.eqb_spec r1 0) as [-> | N1]; cbn [negb].
  - unfold bind at 1.
    destruct (call_Receive h [i0; i1; i2] 3 e1) as [[[r2 Buffer] e2]|] eqn:HR;
      [|discriminate].
    pose proof (call_Receive_trace W _ _ _ _ _ _ _ HR) as T2.
    destruct (Z.eqb_spec r2 0) as [-> | N2]; cbn [negb].
    + unfold bind.
      destruct (call_CRC h _ (byte_at Buffer 2) e2) as [[r3 e3]|] eqn:HC;
        [|discriminate].
      pose proof (call_CRC_trace W _ _ _ _ _ _ HC) as T3.
      destruct (word16_value (byte_at Buffer 0) (byte_at Buffer 1)) as [V R].
      destruct (Z.eqb_spec r3 0) as [-> | N3]; cbn [negb]; unfold ret;
        intros H; inversion H; subst; right; exists Buffer;
        [exists 0|exists r3];
        (split; [rewrite T3, T2, T1, <- !app_assoc; reflexivity|]); auto.
    + unfold ret. intros H. inversion H; subst. left.
      split; [reflexivity|]. split; [reflexivity|]. exists r2. split; [exact N2|].
      right. exists Buffer. rewrite T2, T1, <- app_assoc. reflexivity.
  - unfold ret. intros H. inversion H; subst. left.
    split; [reflexivity|]. split; [reflexivity|]. exists r1. auto.
Qed.

Lemma ReadStatus_results_witness :
  (SHT3x_FAIL = SHT3x_FAIL /\ 7 = 7 /\
   exists st, st <> 0 /\
     (trace (mkEnv 1%nat [EvSend x44 [xf3; x2d] 2 0;
                          EvReceive x44 3 (-1) [x00; x00; x00]])
      = trace env0 ++ [EvSend x44 [xf3; x2d] 2 st] \/
      exists Buffer,
        trace (mkEnv 1%nat [EvSend x44 [xf3; x2d] 2 0;
                            EvReceive x44 3 (-1) [x00; x00; x00]])
        = trace env0 ++ [EvSend x44 [xf3; x2d] 2 0;
                         EvReceive x44 3 st Buffer])) \/
  (exists Buffer rc,
      trace (mkEnv 1%nat [EvSend x44 [xf3; x2d] 2 0;
                          EvReceive x44 3 (-1) [x00; x00; x00]])
      = trace env0 ++ [EvSend x44 [xf3; x2d] 2 0;
                       EvReceive x44 3 0 Buffer;
                       EvCRC 7 (byte_at Buffer 2) rc] /\
      7 = 256 * byte_val (byte_at Buffer 0) + byte_val (byte_at Buffer 1) /\
      0 <= 7 <= 65535 /\
      ((rc = 0 /\ SHT3x_FAIL = SHT3x_OK) \/ (rc <> 0 /\ SHT3x_FAIL = SHT3x_CRC_ERROR))).
Proof.
  exact (ReadStatus_results nat
           (sim_handler SHT3x_MODE_PERIODIC SHT3x_REPEATABILITY_HIGH
                        send_ok receive_fails (sim_crc 0))
           7 7 (x00, x00, x00) env0
           (mkEnv 1%nat [EvSend x44 [xf3; x2d] 2 0;
                         EvReceive x44 3 (-1) [x00; x00; x00]])
           SHT3x_FAIL eq_refl).
Defined.

Lemma store_buffer_filled (Buffer written : list byte) :
  (length Buffer <= length written)%nat ->
  store_buffer Buffer written = firstn (length Buffer) written.
Proof.
  intros H. unfold store_buffer. rewrite firstn_app.
  replace (length Buffer - length written)%nat with 0%nat by lia.
  simpl. apply app_nil_r.
Qed.

(** The local buffer of [SHT3x_ReadStatus] has no initialiser.  When the
    receive function does not read the buffer it is given and writes at
    least the 3 bytes asked for, whatever the buffer held before the call
    has no effect on the result, on the status word or on the calls. *)
Theorem ReadStatus_independent_of_stack :
  forall (W : Type) (h : SHT3x_Handler_t W) (rcv : SHT3x_PlatformSendReceive_t W)
         (Status : Z) (Buffer0 Buffer0' : byte * byte * byte) (e : Env W),
    PlatformReceive h = Some rcv ->
    ignores_buffer rcv -> writes_at_least 3 rcv ->
    SHT3x_ReadStatus h Status Buffer0 e = SHT3x_ReadStatus h Status Buffer0' e.
Proof.
  intros W h rcv Status [[i0 i1] i2] [[j0 j1] j2] e HR Hign Hfill.
  unfold SHT3x_ReadStatus.
  assert (forall e1, call_Receive h [i0; i1; i2] 3 e1
                     = call_Receive h [j0; j1; j2] 3 e1) as E.
  { intros e1. unfold call_Receive. rewrite HR.
    rewrite (Hign (AddressI2C h) [i0; i1; i2] [j0; j1; j2] 3 (world e1) eq_refl).
    pose proof (Hfill (AddressI2C h) [j0; j1; j2] 3 (world e1)) as Hlen.
    destruct (rcv (AddressI2C h) [j0; j1; j2] 3 (world e1)) as [[r written] w].
    cbn [fst snd] in Hlen.
    rewrite !store_buffer_filled by (simpl; lia). reflexivity. }
  unfold bind.
  destruct (call_Send h _ 2 e) as [[r1 e1]|]; [|reflexivity].
  destruct (negb (r1 =? 0)); [reflexivity|].
  rewrite E. reflexivity.
Qed.

Lemma ignores_buffer_receive_status : ignores_buffer receive_status.
Proof. intros a d d' l w _. reflexivity. Qed.

Lemma writes_at_least_receive_status : writes_at_least 3 receive_status.
Proof. intros a d l w. simpl. lia. Qed.

Lemma ReadStatus_independent_of_stack_witness :
  SHT3x_ReadStatus
    (sim_handler SHT3x_MODE_PERIODIC SHT3x_REPEATABILITY_HIGH
                 send_ok receive_status (sim_crc 0))
    0 (x00, x00, x00) env0
  = SHT3x_ReadStatus
      (sim_handler SHT3x_MODE_PERIODIC SHT3x_REPEATABILITY_HIGH
                   send_ok receive_status (sim_crc 0))
      0 (xde, xad, xff) env0.
Proof.
  exact (ReadStatus_independent_of_stack nat
           (sim_handler SHT3x_MODE_PERIODIC SHT3x_REPEATABILITY_HIGH
                        send_ok receive_status (sim_crc 0))
           receive_status 0 (x00, x00, x00) (xde, xad, xff) env0
           eq_refl ignores_buffer_receive_status writes_at_least_receive_status).
Defined.

(** A receive function that reports success after writing two bytes only
    lets the third byte of the uninitialised buffer reach the CRC check. *)
Example ReadStatus_short_receive :
  SHT3x_ReadStatus
    (sim_handler SHT3x_MODE_PERIODIC SHT3x_REPEATABILITY_HIGH
                 send_ok (sim_receive 0 [x80; x10]) (sim_crc 0))
    0 (xde, xad, xff) env0
  = Some (SHT3x_OK, 32784,
          mkEnv 1%nat [EvSend x44 [xf3; x2d] 2 0;
                       EvReceive x44 3 0 [x80; x10; xff];
                       EvCRC 32784 xff 0]).
Proof. reflexivity. Qed.

(** ** After initialisation *)

Section BoundHandlers.

Variable W : Type.
Implicit Types (h : SHT3x_Handler_t W) (e : Env W).

(** With the four pointers bound a read always returns. *)
Lemma ReadSample_total h Sample e :
  required_bound h -> PlatformCRC h <> None ->
  exists r Sample' e', SHT3x_ReadSample h Sample e = Some (r, Sample', e').
Proof.
  intros (HS & HR & HD) HC.
  assert (exists x e1, ReadSample_transaction h e = Some (x, e1)) as (x & e1 & HT).
  { unfold ReadSample_transaction.
    destruct (Mode h =? SHT3x_MODE_SINGLESHOT).
    - destruct (ReadSample_switch (Repeatability h)) as [c|]; [|unfold ret; eauto].
      unfold bind at 1.
      destruct (call_Send_bound W h [SHT3X_COMMAND_SINGLESHOT_DISABLE_MSB; c] 2 e HS)
        as (r0 & e0 & H0).
      rewrite H0. destruct (r0 =? 0); cbn [negb]; [|unfold ret; eauto].
      unfold bind.
      destruct (ReadSample_loop_total W h 20 HR HD
                  [x00; x00; x00; x00; x00; x00] e0) as (B & e2 & HL).
      rewrite HL. destruct (_ && _); unfold ret; eauto.
    - unfold bind at 1.
      destruct (call_Send_bound W h [SHT3X_COMMAND_FETCH_DATA_MSB;
                                     SHT3X_COMMAND_FETCH_DATA_LSB] 2 e HS)
        as (r0 & e0 & H0).
      rewrite H0. destruct (r0 =? 0); cbn [negb]; [|unfold ret; eauto].
      unfold bind.
      destruct (call_Receive_bound W h [x00; x00; x00; x00; x00; x00] 6 e0 HR)
        as (r1 & B & e2 & H1).
      rewrite H1. destruct (r1 =? -3); [unfold ret; eauto|].
      destruct (r1 =? 0); cbn [negb]; unfold ret; eauto. }
  destruct x as [r | Buffer].
  - rewrite (ReadSample_transaction_returns W h Sample e r e1 HT). eauto.
  - rewrite (ReadSample_after_transaction W h Sample e Buffer e1 HT).
    cbv zeta. unfold bind at 1.
    destruct (call_CRC_bound W h (word16 (byte_at Buffer 0) (byte_at Buffer 1))
                (byte_at Buffer 2) e1 HC) as (r1 & e2 & H1).
    cbn [TempRaw HumRaw]. rewrite H1.
    destruct (r1 =? 0); cbn [negb]; [|unfold ret; eauto].
    unfold bind.
    destruct (call_CRC_bound W h (word16 (byte_at Buffer 3) (byte_at Buffer 4))
                (byte_at Buffer 5) e2 HC) as (r2 & e3 & H2).
    rewrite H2. destruct (r2 =? 0); cbn [negb]; unfold ret; eauto.
Qed.

Lemma ReadStatus_total h Status Buffer0 e :
  required_bound h -> PlatformCRC h <> None ->
  exists r Status' e', SHT3x_ReadStatus h Status Buffer0 e = Some (r, Status', e').
Proof.
  intros (HS & HR & HD) HC. destruct Buffer0 as [[i0 i1] i2].
  unfold SHT3x_ReadStatus. unfold bind at 1.
  destruct (call_Send_bound W h [SHT3X_COMMAND_STATUS_READ_MSB;
                                 SHT3X_COMMAND_STATUS_READ_LSB] 2 e HS)
    as (r0 & e0 & H0).
  rewrite H0. destruct (r0 =? 0); cbn [negb]; [|unfold ret; eauto].
  unfold bind at 1.
  destruct (call_Receive_bound W h [i0; i1; i2] 3 e0 HR) as (r1 & B & e1 & H1).
  rewrite H1. destruct (r1 =? 0); cbn [negb]; [|unfold ret; eauto].
  unfold bind.
  destruct (call_CRC_bound W h (word16 (byte_at B 0) (byte_at B 1))
              (byte_at B 2) e1 HC) as (r2 & e2 & H2).
  rewrite H2. destruct (r2 =? 0); cbn [negb]; unfold ret; eauto.
Qed.

(** The handler [SHT3x_Init] leaves when it does not refuse the one it was
    given: the pointers of the caller, with the CRC pointer bound. *)
Lemma Init_handler h Address e r h' e' :
  SHT3x_Init h Address e = Some (r, h', e') ->
  r <> SHT3x_INVALID_PARAM ->
  required_bound h /\
  PlatformInit h' = PlatformInit h /\ PlatformDeInit h' = PlatformDeInit h /\
  PlatformSend h' = PlatformSend h /\ PlatformReceive h' = PlatformReceive h /\
  PlatformDelay h' = PlatformDelay h /\
  (forall c, PlatformCRC h = Some c -> PlatformCRC h' = Some c) /\
  (PlatformCRC h = None -> PlatformCRC h' = Some SHT3x_CheckCRC) /\
  AddressI2C h' = AddressI2C (snd (SHT3x_SetAddressI2C h Address)).
Proof.
  intros H Hr.
  destruct (SetAddressI2C_same_platform W h Address)
    as ((EI & EDI & ES & ER & ED & EC) & _).
  destruct (Init_default_crc_platform W (snd (SHT3x_SetAddressI2C h Address)))
    as (CI & CDI & CS & CR & CD & _ & CC & CN & CA & _).
  assert (forall hx : SHT3x_Handler_t W,
             hx = Init_default_crc (snd (SHT3x_SetAddressI2C h Address)) \/
             hx = set_Repeatability
                    (set_Mode (Init_default_crc (snd (SHT3x_SetAddressI2C h Address)))
                              SHT3x_MODE_SINGLESHOT) SHT3x_REPEATABILITY_LOW ->
             PlatformInit hx = PlatformInit h /\ PlatformDeInit hx = PlatformDeInit h /\
             PlatformSend hx = PlatformSend h /\ PlatformReceive hx = PlatformReceive h /\
             PlatformDelay hx = PlatformDelay h /\
             (forall c, PlatformCRC h = Some c -> PlatformCRC hx = Some c) /\
             (PlatformCRC h = None -> PlatformCRC hx = Some SHT3x_CheckCRC) /\
             AddressI2C hx = AddressI2C (snd (SHT3x_SetAddressI2C h Address))) as Hx.
  { intros hx [-> | ->]; cbn [set_Repeatability set_Mode PlatformInit PlatformDeInit
                              PlatformSend PlatformReceive PlatformDelay PlatformCRC
                              AddressI2C];
      rewrite ?CI, ?CDI, ?CS, ?CR, ?CD, ?CA, ?EI, ?EDI, ?ES, ?ER, ?ED;
      (repeat split; auto);
      try (intros c Hc; apply CC; congruence);
      try (intros Hc; apply CN; congruence). }
  destruct (Init_cases W h Address e r h' e' H)
    as [(_ & -> & _) | [(HB & f & ri & w & _ & _ & _ & _ & -> & _) | (HB & e0 & _ & HRs)]].
  - contradiction.
  - split; [exact HB|]. apply Hx. left; reflexivity.
  - split; [exact HB|].
    destruct (Init_reset_cases W _ _ _ _ _ HRs) as (r0 & e1 & r1 & e2 & _ & -> & _).
    apply Hx. destruct (r0 =? 0); auto.
Qed.

End BoundHandlers.

(** Whenever [SHT3x_Init] returns [SHT3x_OK] or [SHT3x_FAIL], the handler
    it leaves has the caller's init, deinit, send, receive and delay
    pointers and a CRC pointer that is not NULL: the caller's own function,
    or the always-valid default when the caller bound none.  On that
    handler [SHT3x_ReadSample] and [SHT3x_ReadStatus] make no call through a
    NULL pointer: they always return a result. *)
Theorem Init_leaves_usable_handler :
  forall (W : Type) (h h' : SHT3x_Handler_t W) (Address : byte) (e e' : Env W)
         (r : SHT3x_Result_t),
    SHT3x_Init h Address e = Some (r, h', e') ->
    r <> SHT3x_INVALID_PARAM ->
    PlatformSend h' = PlatformSend h /\ PlatformReceive h' = PlatformReceive h /\
    PlatformDelay h' = PlatformDelay h /\
    (forall c, PlatformCRC h = Some c -> PlatformCRC h' = Some c) /\
    (PlatformCRC h = None -> PlatformCRC h' = Some SHT3x_CheckCRC) /\
    (forall (Sample : SHT3x_Sample_t) (e2 : Env W),
        exists r2 Sample' e3,
          SHT3x_ReadSample h' Sample e2 = Some (r2, Sample', e3)) /\
    (forall (Status : Z) (Buffer0 : byte * byte * byte) (e2 : Env W),
        exists r2 Status' e3,
          SHT3x_ReadStatus h' Status Buffer0 e2 = Some (r2, Status', e3)).
Proof.
  intros W h h' Address e e' r H Hr.
  destruct (Init_handler W h Address e r h' e' H Hr)
    as ((HS & HR & HD) & _ & _ & ES & ER & ED & CC & CN & _).
  assert (required_bound h') as HB.
  { unfold required_bound. rewrite ES, ER, ED. auto. }
  assert (PlatformCRC h' <> None) as HC.
  { destruct (PlatformCRC h) as [c|] eqn:E.
    - rewrite (CC c eq_refl). discriminate.
    - rewrite (CN eq_refl). discriminate. }
  repeat split; auto.
  - intros Sample e2. apply ReadSample_total; assumption.
  - intros Status Buffer0 e2. apply ReadStatus_total; assumption.
Qed.

Lemma Init_leaves_usable_handler_witness :
  PlatformCRC
    (mkHandler x44 SHT3x_MODE_SINGLESHOT SHT3x_REPEATABILITY_LOW 0
               None None (Some send_ok) (Some receive_measurement)
               (Some sim_delay) (Some SHT3x_CheckCRC))
  = Some SHT3x_CheckCRC /\
  exists r2 Sample' e3,
    SHT3x_ReadSample
      (mkHandler x44 SHT3x_MODE_SINGLESHOT SHT3x_REPEATABILITY_LOW 0
                 None None (Some send_ok) (Some receive_measurement)
                 (Some sim_delay) (Some SHT3x_CheckCRC))
      sample0 env0
    = Some (r2, Sample', e3).
Proof.
  destruct (Init_leaves_usable_handler nat
              (mkHandler x00 0 0 0 None None (Some send_ok)
                         (Some receive_measurement) (Some sim_delay) None)
              (mkHandler x44 SHT3x_MODE_SINGLESHOT SHT3x_REPEATABILITY_LOW 0
                         None None (Some send_ok) (Some receive_measurement)
                         (Some sim_delay) (Some SHT3x_CheckCRC))
              x00 env0
              (mkEnv 2%nat [EvSend x44 [x30; x93] 2 0; EvSend x44 [x30; xa2] 2 0;
                            EvDelay 2])
              SHT3x_OK eq_refl)
    as (_ & _ & _ & _ & HN & HRead & _).
  - discriminate.
  - split; [exact (HN eq_refl)|exact (HRead sample0 env0)].
Defined.

(** Whenever [SHT3x_Init] returns [SHT3x_FAIL], no delay was made and
    nothing was received.  Either the platform init function returned a
    nonzero result, and then nothing was sent and the mode and repeatability
    are untouched; or the soft reset was refused, after a stop command with
    some result [r0], and then the handler already holds single shot and
    Low when the stop command had been accepted, although the
    initialisation failed. *)
Theorem Init_failure_paths :
  forall (W : Type) (h h' : SHT3x_Handler_t W) (Address : byte) (e e' : Env W),
    SHT3x_Init h Address e = Some (SHT3x_FAIL, h', e') ->
    exists t : list Event,
      trace e' = trace e ++ t /\
      delay_calls t = 0%nat /\ receive_attempts t = 0%nat /\
      ((exists ri,
           ri <> 0 /\ t = [EvInit ri] /\
           Mode h' = Mode h /\ Repeatability h' = Repeatability h) \/
       (exists (pre : list Event) (r0 r1 : Z),
           (pre = [] \/ pre = [EvInit 0]) /\ r1 <> 0 /\
           t = pre ++ [EvSend (AddressI2C h') [x30; x93] 2 r0;
                       EvSend (AddressI2C h') [x30; xa2] 2 r1] /\
           (r0 = 0 ->
            Mode h' = SHT3x_MODE_SINGLESHOT /\
            Repeatability h' = SHT3x_REPEATABILITY_LOW) /\
           (r0 <> 0 ->
            Mode h' = Mode h /\ Repeatability h' = Repeatability h))).
Proof.
  intros W h h' Address e e' H.
  destruct (SetAddressI2C_same_platform W h Address) as (_ & HM & HR & _).
  destruct (Init_default_crc_platform W (snd (SHT3x_SetAddressI2C h Address)))
    as (_ & _ & _ & _ & _ & _ & _ & _ & CA & CM & CR).
  destruct (Init_cases W h Address e _ h' e' H)
    as [(_ & Hr & _) | [(HB & f & ri & w & _ & _ & _ & Hri & -> & ->) |
                        (HB & e0 & He0 & HRs)]].
  - discriminate Hr.
  - exists [EvInit ri]. split; [reflexivity|]. split; [reflexivity|].
    split; [reflexivity|]. left. exists ri.
    rewrite CM, CR, HM, HR. auto.
  - destruct (Init_reset_cases W _ _ _ _ _ HRs)
      as (r0 & e1 & r1 & e2 & HS0 & Hh' & HS1 & [(Hr1 & _ & ->) | (_ & Hr & _)]);
      [|discriminate Hr].
    pose proof (call_Send_trace W _ _ _ _ _ _ HS0) as T0.
    pose proof (call_Send_trace W _ _ _ _ _ _ HS1) as T1.
    assert (AddressI2C h'
            = AddressI2C (Init_default_crc (snd (SHT3x_SetAddressI2C h Address))))
      as EA by (rewrite Hh'; destruct (r0 =? 0); reflexivity).
    assert (exists pre, (pre = [] \/ pre = [EvInit 0]) /\ trace e0 = trace e ++ pre)
      as (pre & Hpre & Tp).
    { destruct He0 as [[_ ->] | (f & w & _ & _ & ->)].
      - exists []. rewrite app_nil_r. auto.
      - exists [EvInit 0]. auto. }
    exists (pre ++ [EvSend (AddressI2C h') [x30; x93] 2 r0;
                    EvSend (AddressI2C h') [x30; xa2] 2 r1]).
    split.
    { rewrite T1, T0, Tp, EA, <- !app_assoc. reflexivity. }
    split; [destruct Hpre as [-> | ->]; reflexivity|].
    split; [destruct Hpre as [-> | ->]; reflexivity|].
    right. exists pre, r0, r1. split; [exact Hpre|]. split; [exact Hr1|].
    split; [reflexivity|]. split.
    + intros ->. rewrite Hh'. cbn. auto.
    + intros N. rewrite Hh', (nonzero_test _ N), CM, CR, HM, HR. auto.
Qed.

Lemma Init_failure_paths_witness :
  exists t : list Event,
    trace (mkEnv 2%nat [EvSend x44 [x30; x93] 2 (-1); EvSend x44 [x30; xa2] 2 (-1)])
    = trace env0 ++ t /\
    delay_calls t = 0%nat /\ receive_attempts t = 0%nat /\
    ((exists ri,
         ri <> 0 /\ t = [EvInit ri] /\
         SHT3x_MODE_PERIODIC = SHT3x_MODE_PERIODIC /\
         SHT3x_REPEATABILITY_HIGH = SHT3x_REPEATABILITY_HIGH) \/
     (exists (pre : list Event) (r0 r1 : Z),
         (pre = [] \/ pre = [EvInit 0]) /\ r1 <> 0 /\
         t = pre ++ [EvSend x44 [x30; x93] 2 r0; EvSend x44 [x30; xa2] 2 r1] /\
         (r0 = 0 ->
          SHT3x_MODE_PERIODIC = SHT3x_MODE_SINGLESHOT /\
          SHT3x_REPEATABILITY_HIGH = SHT3x_REPEATABILITY_LOW) /\
         (r0 <> 0 ->
          SHT3x_MODE_PERIODIC = SHT3x_MODE_PERIODIC /\
          SHT3x_REPEATABILITY_HIGH = SHT3x_REPEATABILITY_HIGH))).
Proof.
  exact (Init_failure_paths nat
           (sim_handler SHT3x_MODE_PERIODIC SHT3x_REPEATABILITY_HIGH
                        send_fails receive_measurement (sim_crc 0))
           (sim_handler SHT3x_MODE_PERIODIC SHT3x_REPEATABILITY_HIGH
                        send_fails receive_measurement (sim_crc 0))
           x00 env0
           (mkEnv 2%nat [EvSend x44 [x30; x93] 2 (-1); EvSend x44 [x30; xa2] 2 (-1)])
           eq_refl).
Defined.

(** An initialisation that went through: the stop command, the soft reset
    and the 2 ms delay are the three calls, and the handler holds the
    baseline. *)
Lemma Init_ok_witness :
  exists (t : list Event) (r0 : Z),
    trace (mkEnv 2%nat [EvSend x45 [x30; x93] 2 0; EvSend x45 [x30; xa2] 2 0;
                        EvDelay 2])
    = trace env0 ++ t ++ [EvSend x45 [x30; x93] 2 r0;
                          EvSend x45 [x30; xa2] 2 0;
                          EvDelay 2] /\
    (r0 = 0 ->
     SHT3x_MODE_SINGLESHOT = SHT3x_MODE_SINGLESHOT /\
     SHT3x_REPEATABILITY_LOW = SHT3x_REPEATABILITY_LOW) /\
    (r0 <> 0 ->
     SHT3x_MODE_SINGLESHOT = SHT3x_MODE_PERIODIC /\
     SHT3x_REPEATABILITY_LOW = SHT3x_REPEATABILITY_HIGH).
Proof.
  exact (Init_ok nat
           (sim_handler SHT3x_MODE_PERIODIC SHT3x_REPEATABILITY_HIGH
                        send_ok receive_measurement (sim_crc 0))
           x01 env0
           (mkHandler x45 SHT3x_MODE_SINGLESHOT SHT3x_REPEATABILITY_LOW
                      SHT3x_SPEED_05MPS None None (Some send_ok)
                      (Some receive_measurement) (Some sim_delay) (Some (sim_crc 0)))
           (mkEnv 2%nat [EvSend x45 [x30; x93] 2 0; EvSend x45 [x30; xa2] 2 0;
                         EvDelay 2])
           eq_refl).
Defined.

(** ** A mode function followed by a read *)

Section ModeThenRead.

Variable W : Type.
Implicit Types (h : SHT3x_Handler_t W) (e : Env W).

(** The first call of a read that calls anything is the send of the command
    of the handler's mode. *)
Lemma ReadSample_first_call h Sample e r Sample' e' :
  SHT3x_ReadSample h Sample e = Some (r, Sample', e') ->
  (Mode h = SHT3x_MODE_SINGLESHOT ->
   forall cmd1, ReadSample_switch (Repeatability h) = Some cmd1 ->
   exists st t, trace e' = trace e ++ EvSend (AddressI2C h) [x24; cmd1] 2 st :: t) /\
  (Mode h <> SHT3x_MODE_SINGLESHOT ->
   exists st t, trace e' = trace e ++ EvSend (AddressI2C h) [xe0; x00] 2 st :: t).
Proof.
  intros H.
  assert (exists x e1 t2,
             ReadSample_transaction h e = Some (x, e1) /\ trace e' = trace e1 ++ t2)
    as (x & e1 & t2 & HT & T2).
  { destruct (ReadSample_transaction h e) as [[[r0 | Buffer] e1]|] eqn:HT.
    - rewrite (ReadSample_transaction_returns W h Sample e r0 e1 HT) in H.
      inversion H; subst. exists (inl r), e', []. rewrite app_nil_r. auto.
    - destruct (ReadSample_crc_cases W h Sample e Buffer e1 _ _ _ HT H)
        as (r1 & e2 & H1 & [(_ & _ & _ & ->) | (_ & r2 & H2 & _)]).
      + eexists _, e1, _. split; [reflexivity|].
        exact (call_CRC_trace W _ _ _ _ _ _ H1).
      + eexists _, e1, _. split; [reflexivity|].
        rewrite (call_CRC_trace W _ _ _ _ _ _ H2),
          (call_CRC_trace W _ _ _ _ _ _ H1), <- app_assoc. reflexivity.
    - unfold SHT3x_ReadSample, bind in H. rewrite HT in H. discriminate. }
  destruct (ReadSample_transaction_cases W h e _ _ HT)
    as [(HM & [(HS & _) | [(c & st & HS & Hsend & _) |
                            (c & e0 & B & HS & Hsend & HL & _)]])
       | (HM & [(st & Hsend & _) | (e0 & st & B & Hsend & HR & _)])];
    (split; [intros HM' cmd1 Hc|intros HM']); try contradiction; try congruence.
  - assert (c = cmd1) as -> by congruence.
    exists st, t2. rewrite T2, (call_Send_trace W _ _ _ _ _ _ Hsend), <- app_assoc.
    reflexivity.
  - assert (c = cmd1) as -> by congruence.
    destruct (ReadSample_loop_shape W h 20 _ _ _ _ HL) as (rs & f2 & T & _).
    remember (failed_attempts_log (AddressI2C h) rs) as f1 eqn:Hf1.
    exists 0, ((f1 ++ f2) ++ t2).
    rewrite T2, T, (call_Send_trace W _ _ _ _ _ _ Hsend), <- !app_assoc.
    reflexivity.
  - exists st, t2. rewrite T2, (call_Send_trace W _ _ _ _ _ _ Hsend), <- app_assoc.
    reflexivity.
  - exists 0, (EvReceive (AddressI2C h) 6 st B :: t2).
    rewrite T2, (call_Receive_trace W _ _ _ _ _ _ _ HR),
      (call_Send_trace W _ _ _ _ _ _ Hsend), <- !app_assoc. reflexivity.
Qed.

Lemma SetModePeriodic_ok_handler h Speed Repeatability e h' e' :
  SHT3x_SetModePeriodic h Speed Repeatability e = Some (SHT3x_OK, h', e') ->
  0 <= Speed <= 4 /\ 0 <= Repeatability <= 2 /\
  h' = set_Repeatability (set_Speed (set_Mode h SHT3x_MODE_PERIODIC) Speed)
                         Repeatability.
Proof.
  intros H.
  destruct (Z_le_dec 0 Speed) as [HS0|HS0];
    [destruct (Z_le_dec Speed 4) as [HS4|HS4]|];
    try (rewrite SetModePeriodic_invalid_speed in H by lia; discriminate).
  destruct (Z_le_dec 0 Repeatability) as [HR0|HR0];
    [destruct (Z_le_dec Repeatability 2) as [HR2|HR2]|];
    try (rewrite SetModePeriodic_repeatability_outside in H by lia; discriminate).
  split; [lia|]. split; [lia|].
  destruct (SetModePeriodic_valid W h Speed Repeatability e
              (conj HS0 HS4) (conj HR0 HR2)) as (msb & lsb & _ & Heq).
  rewrite Heq in H.
  destruct (send_then_update W _ _ _ _ _ _ _ H) as [[Hr _] | (_ & -> & _)];
    [discriminate|reflexivity].
Qed.

End ModeThenRead.

(** The command a read sends is the one of the mode last set with success.
    After [SHT3x_SetModeSingleShot] returned [SHT3x_OK] for a repeatability
    of the enumeration, every read that follows starts by sending [24 16]
    (Low), [24 0b] (Medium) or [24 00] (High); for a repeatability outside
    the enumeration, which the function accepts, every read returns
    [SHT3x_INVALID_PARAM] and calls nothing.  After [SHT3x_SetModePeriodic]
    or [SHT3x_SetModeART] returned [SHT3x_OK], every read starts by sending
    [e0 00]. *)
Theorem read_follows_the_mode_last_set :
  forall (W : Type) (h h' : SHT3x_Handler_t W) (e e1 : Env W),
    (forall Repeatability : Z,
        SHT3x_SetModeSingleShot h Repeatability e = Some (SHT3x_OK, h', e1) ->
        (~ 0 <= Repeatability <= 2 ->
         forall Sample e2,
           SHT3x_ReadSample h' Sample e2 = Some (SHT3x_INVALID_PARAM, Sample, e2)) /\
        (0 <= Repeatability <= 2 ->
         forall Sample e2 r Sample' e3,
           SHT3x_ReadSample h' Sample e2 = Some (r, Sample', e3) ->
           exists cmd1 st t,
             trace e3 = trace e2 ++ EvSend (AddressI2C h) [x24; cmd1] 2 st :: t /\
             (Repeatability = SHT3x_REPEATABILITY_LOW -> cmd1 = x16) /\
             (Repeatability = SHT3x_REPEATABILITY_MEDIUM -> cmd1 = x0b) /\
             (Repeatability = SHT3x_REPEATABILITY_HIGH -> cmd1 = x00))) /\
    (forall Speed Repeatability : Z,
        SHT3x_SetModePeriodic h Speed Repeatability e = Some (SHT3x_OK, h', e1) \/
        SHT3x_SetModeART h e = Some (SHT3x_OK, h', e1) ->
        forall Sample e2 r Sample' e3,
          SHT3x_ReadSample h' Sample e2 = Some (r, Sample', e3) ->
          exists st t,
            trace e3 = trace e2 ++ EvSend (AddressI2C h) [xe0; x00] 2 st :: t).
Proof.
  intros W h h' e e1. split.
  - intros R H.
    destruct (send_then_update W _ _ _ _ _ _ _ H) as [[Hr _] | (_ & -> & _)];
      [discriminate|].
    split.
    + intros HR Sample e2. apply ReadSample_transaction_returns.
      unfold ReadSample_transaction. cbn [Mode Repeatability set_Repeatability set_Mode].
      rewrite (ReadSample_switch_invalid _ HR). reflexivity.
    + intros HR Sample e2 r Sample' e3 Hread.
      destruct (ReadSample_switch_valid R HR) as (cmd1 & Hc).
      destruct (ReadSample_first_call W _ _ _ _ _ _ Hread) as [Hss _].
      destruct (Hss eq_refl cmd1 Hc) as (st & t & T).
      exists cmd1, st, t. split; [exact T|].
      repeat split; intros ->; cbv in Hc; congruence.
  - intros Speed Repeatability [H | H] Sample e2 r Sample' e3 Hread.
    + destruct (SetModePeriodic_ok_handler W _ _ _ _ _ _ H) as (_ & _ & ->).
      destruct (ReadSample_first_call W _ _ _ _ _ _ Hread) as [_ Hfetch].
      apply Hfetch. discriminate.
    + destruct (send_then_update W _ _ _ _ _ _ _ H) as [[Hr _] | (_ & -> & _)];
        [discriminate|].
      destruct (ReadSample_first_call W _ _ _ _ _ _ Hread) as [_ Hfetch].
      apply Hfetch. discriminate.
Qed.

Lemma read_follows_the_mode_last_set_witness :
  SHT3x_ReadSample
    (sim_handler SHT3x_MODE_SINGLESHOT 3 send_ok receive_measurement (sim_crc 0))
    sample0 (mkEnv 1%nat [EvSend x44 [x30; x93] 2 0])
  = Some (SHT3x_INVALID_PARAM, sample0, mkEnv 1%nat [EvSend x44 [x30; x93] 2 0]).
Proof.
  refine (proj1 (proj1 (read_follows_the_mode_last_set nat
            (sim_handler SHT3x_MODE_PERIODIC SHT3x_REPEATABILITY_HIGH
                         send_ok receive_measurement (sim_crc 0))
            (sim_handler SHT3x_MODE_SINGLESHOT 3 send_ok receive_measurement (sim_crc 0))
            env0 (mkEnv 1%nat [EvSend x44 [x30; x93] 2 0]))
            3 eq_refl) _ sample0 (mkEnv 1%nat [EvSend x44 [x30; x93] 2 0])).
  lia.
Defined.

(** [SHT3x_SetModePeriodic] tests the speed before anything else: a speed
    outside the enumeration gives [SHT3x_INVALID_PARAM] with no call and the
    handler untouched, whatever the repeatability and even with a NULL send
    pointer.  With a speed of the enumeration the repeatability is used as
    an array index without a test, so that, with a send pointer bound, the
    function has no defined result exactly when the speed is valid and the
    repeatability is not. *)
Theorem SetModePeriodic_speed_checked_first :
  forall (W : Type) (h : SHT3x_Handler_t W) (Speed Repeatability : Z) (e : Env W),
    (~ 0 <= Speed <= 4 ->
     SHT3x_SetModePeriodic h Speed Repeatability e = Some (SHT3x_INVALID_PARAM, h, e)) /\
    (PlatformSend h <> None ->
     (SHT3x_SetModePeriodic h Speed Repeatability e = None <->
      0 <= Speed <= 4 /\ ~ 0 <= Repeatability <= 2)).
Proof.
  intros W h Speed R e. split.
  - intros HS. apply SetModePeriodic_invalid_speed. exact HS.
  - intros Hb. split.
    + intros HN.
      destruct (Z_le_dec 0 Speed) as [HS0|HS0];
        [destruct (Z_le_dec Speed 4) as [HS4|HS4]|];
        try (rewrite SetModePeriodic_invalid_speed in HN by lia; discriminate).
      split; [lia|]. intros HR.
      destruct (SetModePeriodic_valid W h Speed R e (conj HS0 HS4) HR)
        as (msb & lsb & _ & Heq).
      rewrite Heq in HN. unfold bind in HN.
      destruct (call_Send_bound W h [msb; lsb] 2 e Hb) as (r & e1 & Hs).
      rewrite Hs in HN. destruct (negb (r =? 0)); discriminate.
    + intros [HS HR]. apply SetModePeriodic_repeatability_outside; assumption.
Qed.

Lemma SetModePeriodic_speed_checked_first_witness :
  SHT3x_SetModePeriodic zero_handler 5 7 env0
  = Some (SHT3x_INVALID_PARAM, zero_handler, env0) /\
  (SHT3x_SetModePeriodic
     (sim_handler SHT3x_MODE_SINGLESHOT SHT3x_REPEATABILITY_LOW
                  send_ok receive_measurement (sim_crc 0))
     SHT3x_SPEED_10MPS (-1) env0 = None <->
   0 <= SHT3x_SPEED_10MPS <= 4 /\ ~ 0 <= -1 <= 2).
Proof.
  split.
  - apply (proj1 (SetModePeriodic_speed_checked_first nat zero_handler 5 7 env0)).
    lia.
  - apply (proj2 (SetModePeriodic_speed_checked_first nat
                    (sim_handler SHT3x_MODE_SINGLESHOT SHT3x_REPEATABILITY_LOW
                                 send_ok receive_measurement (sim_crc 0))
                    SHT3x_SPEED_10MPS (-1) env0)).
    discriminate.
Defined.

(** ** Heater, status clear, deinitialisation *)

(** [SHT3x_SetHeater] and [SHT3x_ClearStatus] make exactly one call, the
    send of their 2-byte command, and return [SHT3x_OK] when it returned 0
    and [SHT3x_FAIL] otherwise.  Every nonzero [Heater] value, not only 1,
    sends the enable command [30 6d]; zero sends the disable command
    [30 66].  [SHT3x_DeInit] with a NULL deinit pointer returns [SHT3x_OK]
    and calls nothing. *)
Theorem control_commands_single_send :
  forall (W : Type) (h : SHT3x_Handler_t W) (e e' : Env W) (r : SHT3x_Result_t),
    (forall Heater : Z,
        SHT3x_SetHeater h Heater e = Some (r, e') ->
        exists st,
          trace e' = trace e
                     ++ [EvSend (AddressI2C h)
                                (if Heater =? 0 then [x30; x66] else [x30; x6d]) 2 st] /\
          ((st = 0 /\ r = SHT3x_OK) \/ (st <> 0 /\ r = SHT3x_FAIL))) /\
    (SHT3x_ClearStatus h e = Some (r, e') ->
     exists st,
       trace e' = trace e ++ [EvSend (AddressI2C h) [x30; x41] 2 st] /\
       ((st = 0 /\ r = SHT3x_OK) \/ (st <> 0 /\ r = SHT3x_FAIL))) /\
    (PlatformDeInit h = None -> SHT3x_DeInit h e = Some (SHT3x_OK, e)).
Proof.
  intros W h e e' r. split; [|split].
  - intros Heater. unfold SHT3x_SetHeater, bind.
    destruct (Z.eqb_spec Heater 0) as [HH | HH]; cbn [negb];
      (destruct (call_Send h _ 2 e) as [[st e1]|] eqn:HS; [|discriminate]);
      pose proof (call_Send_trace W _ _ _ _ _ _ HS) as T;
      (destruct (Z.eqb_spec st 0) as [-> | N]; cbn [negb]; unfold ret;
       intros H; inversion H; subst; eexists; (split; [exact T|]); auto).
  - unfold SHT3x_ClearStatus, bind.
    destruct (call_Send h _ 2 e) as [[st e1]|] eqn:HS; [|discriminate].
    pose proof (call_Send_trace W _ _ _ _ _ _ HS) as T.
    destruct (Z.eqb_spec st 0) as [-> | N]; cbn [negb]; unfold ret;
      intros H; inversion H; subst; eexists; (split; [exact T|]); auto.
  - intros HD. unfold SHT3x_DeInit. rewrite HD. reflexivity.
Qed.

Lemma control_commands_single_send_witness :
  exists st,
    trace (mkEnv 1%nat [EvSend x44 [x30; x6d] 2 0])
    = trace env0 ++ [EvSend x44 (if 200 =? 0 then [x30; x66] else [x30; x6d]) 2 st] /\
    ((st = 0 /\ SHT3x_OK = SHT3x_OK) \/ (st <> 0 /\ SHT3x_OK = SHT3x_FAIL)).
Proof.
  exact (proj1 (control_commands_single_send nat
                  (sim_handler SHT3x_MODE_SINGLESHOT SHT3x_REPEATABILITY_LOW
                               send_ok receive_measurement (sim_crc 0))
                  env0 (mkEnv 1%nat [EvSend x44 [x30; x6d] 2 0]) SHT3x_OK)
               200 eq_refl).
Defined.

(** ** The driver on the STM32 HAL port *)

Section STM32Port.

Variable W : Type.
Variable HAL_I2C_Master_Transmit : Z -> list byte -> Z -> Z -> W -> Z * list byte * W.
Variable HAL_I2C_Master_Receive : Z -> list byte -> Z -> Z -> W -> Z * list byte * W.
Variable HAL_Delay : Z -> W -> W.

Implicit Types (h : SHT3x_Handler_t W) (e : Env W).

(** A handler that holds the port's functions. *)
Lemma port_Send_result h cmd Len e r e1 :
  PlatformSend h = Some (Platform_WriteData HAL_I2C_Master_Transmit) ->
  call_Send h cmd Len e = Some (r, e1) -> r = 0 \/ r = -1.
Proof.
  intros HP. unfold call_Send. rewrite HP. unfold Platform_WriteData.
  destruct (HAL_I2C_Master_Transmit _ cmd Len SHT3X_TIMEOUT (world e))
    as [[st wr] w].
  destruct (negb (st =? 0)); intros H; inversion H; auto.
Qed.

Lemma port_Receive_result h Buffer Len e r Buffer' e1 :
  PlatformReceive h = Some (Platform_ReadData HAL_I2C_Master_Receive) ->
  call_Receive h Buffer Len e = Some (r, Buffer', e1) -> r = 0 \/ r = -1.
Proof.
  intros HP. unfold call_Receive. rewrite HP. unfold Platform_ReadData.
  destruct (HAL_I2C_Master_Receive _ Buffer Len SHT3X_TIMEOUT (world e))
    as [[st wr] w].
  destruct (negb (st =? 0)); intros H; inversion H; auto.
Qed.

Lemma port_CRC_result h Data DataCRC e r e1 :
  PlatformCRC h = Some Platform_CRC ->
  call_CRC h Data DataCRC e = Some (r, e1) -> r = 0.
Proof.
  intros HP. unfold call_CRC. rewrite HP. unfold Platform_CRC.
  intros H. inversion H. reflexivity.
Qed.

Lemma port_bound h :
  required_bound
    (SHT3x_Platform_Init HAL_I2C_Master_Transmit HAL_I2C_Master_Receive HAL_Delay h) /\
  PlatformCRC
    (SHT3x_Platform_Init HAL_I2C_Master_Transmit HAL_I2C_Master_Receive HAL_Delay h)
  <> None.
Proof. unfold required_bound. cbn. repeat split; discriminate. Qed.

End STM32Port.

(** With the six functions of the STM32 port bound by
    [SHT3x_Platform_Init], whatever the HAL functions do:
    [SHT3x_ReadSample] always returns, never with [SHT3x_NO_DATA], because
    the port turns every HAL error into -1 and never into -3, and never with
    [SHT3x_CRC_ERROR], because the port's CRC function accepts everything;
    [SHT3x_ReadStatus] returns [SHT3x_OK] or [SHT3x_FAIL] only. *)
Theorem STM32_port_read_results :
  forall (W : Type)
         (HAL_I2C_Master_Transmit HAL_I2C_Master_Receive
            : Z -> list byte -> Z -> Z -> W -> Z * list byte * W)
         (HAL_Delay : Z -> W -> W)
         (h : SHT3x_Handler_t W) (e : Env W),
    (forall Sample : SHT3x_Sample_t,
        exists r Sample' e',
          SHT3x_ReadSample
            (SHT3x_Platform_Init HAL_I2C_Master_Transmit HAL_I2C_Master_Receive
                                 HAL_Delay h) Sample e
          = Some (r, Sample', e') /\
          r <> SHT3x_NO_DATA /\ r <> SHT3x_CRC_ERROR) /\
    (forall (Status : Z) (Buffer0 : byte * byte * byte),
        exists r Status' e',
          SHT3x_ReadStatus
            (SHT3x_Platform_Init HAL_I2C_Master_Transmit HAL_I2C_Master_Receive
                                 HAL_Delay h) Status Buffer0 e
          = Some (r, Status', e') /\
          (r = SHT3x_OK \/ r = SHT3x_FAIL)).
Proof.
  intros W T R D h e.
  destruct (port_bound W T R D h) as [HB HC]. split.
  - intros Sample.
    destruct (ReadSample_total W _ Sample e HB HC) as (r & Sample' & e' & H).
    exists r, Sample', e'. split; [exact H|].
    destruct (ReadSample_transaction (SHT3x_Platform_Init T R D h) e)
      as [[[r0 | Buffer] e1]|] eqn:HT.
    + rewrite (ReadSample_transaction_returns W _ Sample e r0 e1 HT) in H.
      inversion H; subst.
      destruct (ReadSample_transaction_cases W _ e _ _ HT)
        as [(_ & [(_ & Hx & _) | [(c & st & _ & _ & _ & Hx) |
                                  (c & e0 & B & _ & _ & _ & [(_ & _ & Hx) | (_ & Hx)])]])
           | (_ & [(st & _ & _ & Hx) |
                   (e0 & st & B & _ & HR & [(-> & Hx) | [(_ & _ & Hx) | (_ & Hx)]])])];
        inversion Hx; subst; try (split; discriminate).
      destruct (port_Receive_result W R (SHT3x_Platform_Init T R D h)
                  _ _ _ _ _ _ eq_refl HR); discriminate.
    + destruct (ReadSample_crc_cases W _ Sample e Buffer e1 _ _ _ HT H)
        as (r1 & e2 & H1 & [(N1 & _) | (_ & r2 & H2 & [(N2 & _) | (_ & -> & _)])]).
      * elim N1.
        exact (port_CRC_result W (SHT3x_Platform_Init T R D h) _ _ _ _ _ eq_refl H1).
      * elim N2.
        exact (port_CRC_result W (SHT3x_Platform_Init T R D h) _ _ _ _ _ eq_refl H2).
      * split; discriminate.
    + unfold SHT3x_ReadSample, bind in H. rewrite HT in H. discriminate.
  - intros Status [[i0 i1] i2].
    destruct (ReadStatus_total W _ Status (i0, i1, i2) e HB HC)
      as (r & Status' & e' & H).
    exists r, Status', e'. split; [exact H|].
    revert H. unfold SHT3x_ReadStatus, bind, ret.
    destruct (call_Send _ _ 2 e) as [[r1 e1]|]; [|discriminate].
    destruct (negb (r1 =? 0)); [intros H; inversion H; auto|].
    destruct (call_Receive _ _ 3 e1) as [[[r2 B] e2]|]; [|discriminate].
    destruct (negb (r2 =? 0)); [intros H; inversion H; auto|].
    destruct (call_CRC _ _ _ e2) as [[r3 e3]|] eqn:HCRC; [|discriminate].
    rewrite (port_CRC_result W (SHT3x_Platform_Init T R D h) _ _ _ _ _ eq_refl HCRC).
    cbn. intros H. inversion H. auto.
Qed.


Lemma STM32_port_read_results_witness :
  exists r Sample' e',
    SHT3x_ReadSample
      (SHT3x_Platform_Init (hal_transmit 0) (hal_receive 3 []) hal_delay
         (mkHandler x44 SHT3x_MODE_PERIODIC SHT3x_REPEATABILITY_HIGH
                    SHT3x_SPEED_1MPS None None None None None None))
      sample0 env0
    = Some (r, Sample', e') /\
    r <> SHT3x_NO_DATA /\ r <> SHT3x_CRC_ERROR.
Proof.
  exact (proj1 (STM32_port_read_results nat (hal_transmit 0) (hal_receive 3 [])
                  hal_delay
                  (mkHandler x44 SHT3x_MODE_PERIODIC SHT3x_REPEATABILITY_HIGH
                             SHT3x_SPEED_1MPS None None None None None None)
                  env0)
               sample0).
Defined.

(** The HAL reports a timeout (3) on the receive of a periodic read: the
    port turns it into -1 and the driver into [SHT3x_FAIL]. *)
Example STM32_port_timeout :
  SHT3x_ReadSample
    (SHT3x_Platform_Init (hal_transmit 0) (hal_receive 3 []) hal_delay
       (mkHandler x44 SHT3x_MODE_PERIODIC SHT3x_REPEATABILITY_HIGH
                  SHT3x_SPEED_1MPS None None None None None None))
    sample0 env0
  = Some (SHT3x_FAIL, sample0,
          mkEnv 1%nat [EvSend x44 [xe0; x00] 2 0; EvReceive x44 6 (-1) zero_buffer]).
Proof. reflexivity. Qed.

(** On the STM32 port [SHT3x_Init] always returns, with [SHT3x_OK] or
    [SHT3x_FAIL] and never [SHT3x_INVALID_PARAM]; the handler keeps the
    port's CRC function; and [SHT3x_FAIL] means that the HAL refused the
    soft reset: the calls were then the port's init, the stop command and
    the soft reset, with no delay. *)
Theorem STM32_port_init_results :
  forall (W : Type)
         (HAL_I2C_Master_Transmit HAL_I2C_Master_Receive
            : Z -> list byte -> Z -> Z -> W -> Z * list byte * W)
         (HAL_Delay : Z -> W -> W)
         (h : SHT3x_Handler_t W) (Address : byte) (e : Env W),
  exists r h' e',
    SHT3x_Init
      (SHT3x_Platform_Init HAL_I2C_Master_Transmit HAL_I2C_Master_Receive
                           HAL_Delay h) Address e
    = Some (r, h', e') /\
    (r = SHT3x_OK \/ r = SHT3x_FAIL) /\
    PlatformCRC h' = Some Platform_CRC /\
    (r = SHT3x_FAIL ->
     exists r0,
       trace e' = trace e ++ [EvInit 0;
                              EvSend (AddressI2C h') [x30; x93] 2 r0;
                              EvSend (AddressI2C h') [x30; xa2] 2 (-1)]).
Proof.
  intros W T R D h Address e.
  set (hp := SHT3x_Platform_Init T R D h).
  destruct (Init_total W hp Address e) as (r & h' & e' & H).
  exists r, h', e'. split; [exact H|].
  destruct (port_bound W T R D h) as [HB _]. fold hp in HB.
  destruct (SetAddressI2C_same_platform W hp Address) as ((EI & _) & _).
  destruct (Init_default_crc_platform W (snd (SHT3x_SetAddressI2C hp Address)))
    as (CI & _ & _ & _ & _ & _ & _ & _ & CA & _).
  assert (PlatformInit (Init_default_crc (snd (SHT3x_SetAddressI2C hp Address)))
          = Some Platform_Init) as HI by (rewrite CI, EI; reflexivity).
  destruct (Init_cases W hp Address e r h' e' H)
    as [(HN & _) | [(_ & f & ri & w & Hf & Hrun & _ & Hri & _) |
                    (_ & e0 & He0 & HRs)]].
  - contradiction.
  - rewrite HI in Hf. inversion Hf; subst f. inversion Hrun; subst. contradiction.
  - destruct He0 as [[HNone _] | (f & w & Hf & Hrun & ->)]; [congruence|].
    rewrite HI in Hf. inversion Hf; subst f. inversion Hrun; subst w.
    destruct (Init_reset_cases W _ _ _ _ _ HRs)
      as (r0 & e1 & r1 & e2 & HS0 & Hh' & HS1 & Hend).
    assert (r <> SHT3x_INVALID_PARAM) as Hr
        by (destruct Hend as [(_ & -> & _) | (_ & -> & _)]; discriminate).
    destruct (Init_handler W hp Address e r h' e' H Hr)
      as (_ & _ & _ & ES & _ & _ & CC & _).
    split; [destruct Hend as [(_ & -> & _) | (_ & -> & _)]; auto|].
    split; [exact (CC Platform_CRC eq_refl)|].
    intros ->. destruct Hend as [(N1 & _ & ->) | (_ & Hr' & _)]; [|discriminate Hr'].
    destruct (port_Send_result W T h' _ _ _ _ _ ES HS1) as [-> | ->];
      [contradiction|].
    exists r0.
    rewrite (call_Send_trace W _ _ _ _ _ _ HS1), (call_Send_trace W _ _ _ _ _ _ HS0).
    assert (AddressI2C (Init_default_crc (snd (SHT3x_SetAddressI2C hp Address)))
            = AddressI2C h') as -> by (rewrite Hh'; destruct (r0 =? 0); reflexivity).
    cbn [trace log]. rewrite <- !app_assoc. reflexivity.
Qed.

(** The HAL refuses every transmit: the initialisation fails after the
    soft reset, with the address resolved. *)
Example STM32_port_init_refused :
  exists h',
    SHT3x_Init
      (SHT3x_Platform_Init (hal_transmit 1) (hal_receive 0 []) hal_delay zero_handler)
      x00 env0
    = Some (SHT3x_FAIL, h',
            mkEnv 2%nat [EvInit 0; EvSend x44 [x30; x93] 2 (-1);
                         EvSend x44 [x30; xa2] 2 (-1)]) /\
    AddressI2C h' = x44 /\ Mode h' = 0.
Proof. vm_compute. eexists. split; [reflexivity|split; reflexivity]. Qed.

Lemma STM32_port_init_results_witness :
  exists r h' e',
    SHT3x_Init
      (SHT3x_Platform_Init (hal_transmit 1) (hal_receive 0 []) hal_delay zero_handler)
      x00 env0
    = Some (r, h', e') /\
    (r = SHT3x_OK \/ r = SHT3x_FAIL) /\
    PlatformCRC h' = Some Platform_CRC /\
    (r = SHT3x_FAIL ->
     exists r0,
       trace e' = trace env0 ++ [EvInit 0;
                                 EvSend (AddressI2C h') [x30; x93] 2 r0;
                                 EvSend (AddressI2C h') [x30; xa2] 2 (-1)]).
Proof.
  exact (STM32_port_init_results nat (hal_transmit 1) (hal_receive 0 []) hal_delay
           zero_handler x00 env0).
Defined.

Lemma Init_invalid_param_iff_unbound_witness :
  exists r h' e',
    SHT3x_Init zero_handler x01 env0 = Some (r, h', e') /\
    (r = SHT3x_INVALID_PARAM <-> ~ required_bound zero_handler) /\
    (r = SHT3x_INVALID_PARAM ->
     e' = env0 /\ h' = snd (SHT3x_SetAddressI2C zero_handler x01)).
Proof.
  exact (Init_invalid_param_iff_unbound nat zero_handler x01 env0).
Defined.

(** ** The default CRC function *)

Lemma CheckCRC_result (W : Type) (h : SHT3x_Handler_t W) Data DataCRC e r e1 :
  PlatformCRC h = Some SHT3x_CheckCRC ->
  call_CRC h Data DataCRC e = Some (r, e1) -> r = 0.
Proof.
  intros HP. unfold call_CRC. rewrite HP. unfold SHT3x_CheckCRC.
  intros H. inversion H. reflexivity.
Qed.

(** A caller who binds no CRC function gets no CRC checking: after
    [SHT3x_Init] accepted such a handler, no [SHT3x_ReadSample] and no
    [SHT3x_ReadStatus] on the handler it left ever returns
    [SHT3x_CRC_ERROR], whatever bytes are received. *)
Theorem unbound_crc_never_rejects :
  forall (W : Type) (h h' : SHT3x_Handler_t W) (Address : byte) (e e' : Env W)
         (r : SHT3x_Result_t),
    PlatformCRC h = None ->
    SHT3x_Init h Address e = Some (r, h', e') ->
    r <> SHT3x_INVALID_PARAM ->
    (forall Sample e2 r2 Sample' e3,
        SHT3x_ReadSample h' Sample e2 = Some (r2, Sample', e3) ->
        r2 <> SHT3x_CRC_ERROR) /\
    (forall Status Buffer0 e2 r2 Status' e3,
        SHT3x_ReadStatus h' Status Buffer0 e2 = Some (r2, Status', e3) ->
        r2 <> SHT3x_CRC_ERROR).
Proof.
  intros W h h' Address e e' r HN H Hr.
  destruct (Init_handler W h Address e r h' e' H Hr)
    as (_ & _ & _ & _ & _ & _ & _ & CN & _).
  specialize (CN HN). split.
  - intros Sample e2 r2 Sample' e3 Hread.
    destruct (ReadSample_transaction h' e2) as [[[r0 | Buffer] e1]|] eqn:HT.
    + rewrite (ReadSample_transaction_returns W h' Sample e2 r0 e1 HT) in Hread.
      inversion Hread; subst.
      destruct (ReadSample_transaction_results W h' e2 _ _ HT) as [-> | [-> | ->]];
        discriminate.
    + destruct (ReadSample_crc_cases W h' Sample e2 Buffer e1 _ _ _ HT Hread)
        as (r1 & e4 & H1 & [(N1 & _) | (_ & r3 & H2 & [(N2 & _) | (_ & -> & _)])]).
      * elim N1. exact (CheckCRC_result W h' _ _ _ _ _ CN H1).
      * elim N2. exact (CheckCRC_result W h' _ _ _ _ _ CN H2).
      * discriminate.
    + unfold SHT3x_ReadSample, bind in Hread. rewrite HT in Hread. discriminate.
  - intros Status [[i0 i1] i2] e2 r2 Status' e3.
    unfold SHT3x_ReadStatus, bind, ret.
    destruct (call_Send _ _ 2 e2) as [[r1 e1]|]; [|discriminate].
    destruct (negb (r1 =? 0)); [intros Hx; inversion Hx; discriminate|].
    destruct (call_Receive _ _ 3 e1) as [[[r3 B] e4]|]; [|discriminate].
    destruct (negb (r3 =? 0)); [intros Hx; inversion Hx; discriminate|].
    destruct (call_CRC _ _ _ e4) as [[r4 e5]|] eqn:HCRC; [|discriminate].
    rewrite (CheckCRC_result W h' _ _ _ _ _ CN HCRC).
    cbn. intros Hx. inversion Hx. discriminate.
Qed.

Lemma unbound_crc_never_rejects_witness :
  PlatformCRC (mkHandler x00 0 0 0 None None (Some send_ok)
                         (Some receive_measurement) (Some sim_delay) None)
  = None /\
  SHT3x_OK <> SHT3x_CRC_ERROR.
Proof.
  split; [reflexivity|].
  refine (proj1 (unbound_crc_never_rejects nat
            (mkHandler x00 0 0 0 None None (Some send_ok)
                       (Some receive_measurement) (Some sim_delay) None)
            (mkHandler x44 SHT3x_MODE_SINGLESHOT SHT3x_REPEATABILITY_LOW 0
                       None None (Some send_ok) (Some receive_measurement)
                       (Some sim_delay) (Some SHT3x_CheckCRC))
            x00 env0
            (mkEnv 2%nat [EvSend x44 [x30; x93] 2 0; EvSend x44 [x30; xa2] 2 0;
                          EvDelay 2])
            SHT3x_OK eq_refl eq_refl _)
            sample0
            (mkEnv 2%nat [EvSend x44 [x30; x93] 2 0; EvSend x44 [x30; xa2] 2 0;
                          EvDelay 2])
            SHT3x_OK
            (SHT3x_ConvSample (mkSample 26158 32019 (S754_zero false)
                                        (S754_zero false) (S754_zero false)))
            (mkEnv 3%nat [EvSend x44 [x30; x93] 2 0; EvSend x44 [x30; xa2] 2 0;
                          EvDelay 2; EvSend x44 [x24; x16] 2 0;
                          EvReceive x44 6 0 [x66; x2e; xff; x7d; x13; xff];
                          EvCRC 26158 xff 0; EvCRC 32019 xff 0])
            eq_refl).
  discriminate.
Defined.
